(** * A character-level recurrent model: classification and generation

    Shallow embedding of the two notebooks of the lecture repository:
    the name classifier ([Classification]) and the name generator
    ([LanguageModel]).  Python values are modelled as follows.

    - A [str] is the list of its Unicode code points ([pystr]); a
      one-character string is a one-element list.
    - A tensor of shape [(1, n)] (every rank-2 tensor of the notebooks is
      created as [torch.zeros(1, n)] or is the image of one) is modelled
      by its single row, a [list F]; a tensor of shape [(len, 1, n)] is
      the list of its [len] rows.
    - The entries are 32-bit floats in the program.  No statement below
      depends on their arithmetic, so everything is stated for an
      arbitrary type [F] carrying the operations the program uses
      ([Scalar]).
    - An exception is a value of [exn]; a computation that may raise
      returns a [result]. *)

From Stdlib Require Import ZArith NArith String Ascii Lia.
From stdpp Require Import base list.

Set Default Proof Using "Type".
Open Scope Z_scope.

(** ** Exceptions and the exception monad *)

Inductive exn : Type :=
| IndexError | ValueError | NameError | UnboundLocalError
| AttributeError | RuntimeError.

Inductive result (A : Type) : Type :=
| Ok (a : A)
| Raise (e : exn).
Arguments Ok {A} a.
Arguments Raise {A} e.

Definition rbind {A B} (r : result A) (k : A -> result B) : result B :=
  match r with
  | Ok a => k a
  | Raise e => Raise e
  end.

Notation "'let*' p ':=' r 'in' k" := (rbind r (fun p => k))
  (at level 10, p pattern, r at level 200, k at level 200,
   format "'[v' 'let*'  p  :=  r  'in'  '/' k ']'").

(** [for x in xs: s = body(x, s)], stopping at the first exception. *)
Fixpoint for_each {A S} (xs : list A) (body : A -> S -> result S) (s : S)
  : result S :=
  match xs with
  | [] => Ok s
  | x :: xs' => let* s' := body x s in for_each xs' body s'
  end.

(** [range(n)]. *)
Definition range (n : nat) : list nat := seq 0 n.

(** [range(a, b)]. *)
Definition range2 (a b : nat) : list nat := seq a (b - a).

(** ** Python sequences *)

(** A [str]: its code points. *)
Abbreviation pystr := (list N) (only parsing).

(** A string literal of ASCII characters. *)
Definition lit (s : string) : pystr :=
  List.map N_of_ascii (list_ascii_of_string s).

(** Python's index normalisation for a sequence of length [len]:
    [0 <= i < len] is itself, [-len <= i < 0] counts from the end,
    anything else raises [IndexError]. *)
Definition norm_index (len : nat) (i : Z) : result nat :=
  if (0 <=? i) && (i <? Z.of_nat len) then Ok (Z.to_nat i)
  else if (- Z.of_nat len <=? i) && (i <? 0) then Ok (Z.to_nat (Z.of_nat len + i))
  else Raise IndexError.

(** [t[i]]. *)
Definition getitem {A} (t : list A) (i : Z) : result A :=
  let* k := norm_index (length t) i in
  match t !! k with
  | Some a => Ok a
  | None => Raise IndexError
  end.

(** [t[i] = v]. *)
Definition setitem {A} (t : list A) (i : Z) (v : A) : result (list A) :=
  let* k := norm_index (length t) i in
  Ok (<[k := v]> t).

(** [s[i]] on a [str]: a one-character [str]. *)
Definition str_getitem (s : pystr) (i : Z) : result pystr :=
  let* c := getitem s i in Ok [c].

(** [s.startswith(sub)]. *)
Fixpoint startswith (s sub : pystr) {struct sub} : bool :=
  match sub, s with
  | [], _ => true
  | _ :: _, [] => false
  | c :: sub', d :: s' => N.eqb c d && startswith s' sub'
  end.

(** [s.find(sub)]: the lowest index where [sub] occurs in [s], [-1] if it
    does not occur.  [find_from] carries the index of the head of [s]. *)
Fixpoint find_from (s sub : pystr) (i : Z) : Z :=
  match s with
  | [] => if startswith [] sub then i else -1
  | _ :: s' => if startswith s sub then i else find_from s' sub (i + 1)
  end.

Definition find (s sub : pystr) : Z := find_from s sub 0.

(** [l.index(x)] on a list of strings: [ValueError] when [x] is absent. *)
Fixpoint index_from (l : list pystr) (x : pystr) (i : nat) : result nat :=
  match l with
  | [] => Raise ValueError
  | y :: l' => if decide (y = x) then Ok i else index_from l' x (S i)
  end.

Definition index (l : list pystr) (x : pystr) : result nat := index_from l x 0.

(** ** Scalars and tensors *)

Class Scalar (F : Type) : Type := {
  fzero : F;
  fone : F;
  fadd : F -> F -> F;
  fmul : F -> F -> F;
  fneg : F -> F;
  fdiv : F -> F -> F;
  fexp : F -> F;
  flog : F -> F;
  (** [fltb a b]: [a < b] as the comparison of the program's floats. *)
  fltb : F -> F -> bool
}.

(** An integer stand-in, used to evaluate the embedding on concrete
    inputs. *)
#[export] Instance Z_Scalar : Scalar Z := {|
  fzero := 0; fone := 1;
  fadd := Z.add; fmul := Z.mul; fneg := Z.opp; fdiv := Z.div;
  fexp := Z.pow 2; flog := Z.log2;
  fltb := Z.ltb
|}.

Section Tensors.
Context {F : Type} `{Scalar F}.

(** [torch.zeros(1, n)]. *)
Definition zeros (n : nat) : list F := replicate n fzero.

(** The one-hot row of length [n] with its [1] at position [k]. *)
Definition one_hot (n k : nat) : list F := <[k := fone]> (zeros n).

(** [torch.argmax(t, 1)] on a one-row tensor: the position of the
    largest entry, the first one among equals.  [best] is the position
    and value of the largest entry seen so far, [i] the position of the
    head of the remaining entries. *)
Fixpoint argmax_from (t : list F) (i : nat) (best : nat * F) : nat :=
  match t with
  | [] => best.1
  | v :: t' =>
      argmax_from t' (S i) (if fltb best.2 v then (i, v) else best)
  end.

Definition argmax (t : list F) : result nat :=
  match t with
  | [] => Raise IndexError
  | v :: t' => Ok (argmax_from t' 1 (0%nat, v))
  end.

End Tensors.

(** ** The vocabulary

    The first code cell of both notebooks:
    [all_letters = string.ascii_letters + " .,;'"] and
    [n_letters = len(all_letters)]. *)

Definition ascii_letters : pystr :=
  lit "abcdefghijklmnopqrstuvwxyz" ++ lit "ABCDEFGHIJKLMNOPQRSTUVWXYZ".

Definition all_letters : pystr := ascii_letters ++ lit " .,;'".

Definition n_letters : nat := length all_letters.

(** The apostrophe, the last character of [all_letters]. *)
Definition apostrophe : N := N_of_ascii "'"%char.

(** ** Cleaning a name

    The second code cell of both notebooks, [unicodeToAscii].  The
    functions [unicodedata.normalize] and [unicodedata.category] belong
    to the standard library; the definition takes them as parameters. *)

(** [sub in s] on strings. *)
Definition contains (s sub : pystr) : bool := negb (find s sub =? -1).

Section Cleaning.
Variable unicodedata_normalize : pystr -> pystr -> pystr.
Variable unicodedata_category : N -> pystr.

Definition unicodeToAscii (s : pystr) : pystr :=
  List.filter
    (fun c => bool_decide (unicodedata_category c <> lit "Mn")
              && contains all_letters [c])
    (unicodedata_normalize (lit "NFD") s).

End Cleaning.

(** ** Layers and tensor operations of the library *)

(** Reading a local variable that may not have been assigned yet. *)
Definition read_local {A} (v : option A) : result A :=
  match v with
  | Some a => Ok a
  | None => Raise UnboundLocalError
  end.

(** Reading a notebook-level (global) variable. *)
Definition read_global {A} (v : option A) : result A :=
  match v with
  | Some a => Ok a
  | None => Raise NameError
  end.

(** [enumerate(l)]. *)
Definition enumerate {A} (l : list A) : list (nat * A) :=
  zip (seq 0 (length l)) l.

Section Layers.
Context {F : Type} `{Scalar F}.

(** [nn.Linear(in_features, out_features)]: a weight of shape
    [(out_features, in_features)] and a bias of shape [(out_features)]. *)
Record Linear : Type := {
  in_features : nat;
  out_features : nat;
  weight : list (list F);
  bias : list F
}.

(** The constructor, given the initial values of the entries (the
    library draws them at random). *)
Definition Linear_init (inf outf : nat) (w : nat -> nat -> F) (b : nat -> F)
  : Linear :=
  {| in_features := inf;
     out_features := outf;
     weight := List.map (fun o => List.map (w o) (seq 0 inf)) (seq 0 outf);
     bias := List.map b (seq 0 outf) |}.

(** The shapes the constructor establishes. *)
Definition Linear_wfb (L : Linear) : bool :=
  (length (weight L) =? out_features L)%nat
  && forallb (fun w => (length w =? in_features L)%nat) (weight L)
  && (length (bias L) =? out_features L)%nat.

(** The inner product of a weight row and the input. *)
Definition dot (w x : list F) : F := foldr fadd fzero (zip_with fmul w x).

(** The affine map [x W^T + b]. *)
Definition affine (L : Linear) (x : list F) : list F :=
  zip_with (fun w b => fadd (dot w x) b) (weight L) (bias L).

(** Calling the layer: the input must have [in_features] entries. *)
Definition Linear_forward (L : Linear) (x : list F) : result (list F) :=
  if decide (length x = in_features L) then Ok (affine L x)
  else Raise RuntimeError.

(** [torch.softmax(t, 1)]. *)
Definition softmax (t : list F) : list F :=
  let total := foldr fadd fzero (List.map fexp t) in
  List.map (fun v => fdiv (fexp v) total) t.

(** [t.topk(k, 1, True)]: the [k] largest entries, largest first, as
    (values, positions); [RuntimeError] when [t] has fewer than [k]
    entries.  [topk_select] picks them as (position, value) pairs. *)
Fixpoint topk_select (k : nat) (cands : list (nat * F)) : list (nat * F) :=
  match k, cands with
  | S k', c :: cs =>
      let b := fold_left (fun best c => if fltb best.2 c.2 then c else best) cs c in
      b :: topk_select k' (List.filter (fun c => negb (c.1 =? b.1)%nat) cands)
  | _, _ => []
  end.

Definition topk (t : list F) (k : nat) : result (list F * list nat) :=
  if decide (k <= length t)%nat
  then let sel := topk_select k (enumerate t) in Ok (sel.*2, sel.*1)
  else Raise RuntimeError.

End Layers.
Arguments Linear F : clear implicits.

(** ** The encoders' common core

    [letterToTensor], [lineToTensor] and [inputTensor] all write a [1]
    at position [all_letters.find(letter)] of a zero row of length
    [n_letters]. *)

(** The position that assignment writes to, for the character [c]. *)
Definition symbol_index (c : N) : nat :=
  if decide (find all_letters [c] = -1) then 56%nat
  else Z.to_nat (find all_letters [c]).

Section Encoding.
Context {F : Type} `{Scalar F}.

(** The row the encoders produce for the character [c]. *)
Definition encode (c : N) : list F := one_hot n_letters (symbol_index c).

(** The statement [tensor[i][0][all_letters.find(letter)] = 1] on a
    tensor of shape [(len, 1, n_letters)]. *)
Definition set_one_hot (tensor : list (list F)) (i : nat) (letter : pystr)
  : result (list (list F)) :=
  let* r := getitem tensor (Z.of_nat i) in
  let* r' := setitem r (find all_letters letter) fone in
  setitem tensor (Z.of_nat i) r'.

End Encoding.

(** * The classification notebook

    The notebook "RNN for Classifying Names" ([src/unnamed/part_000]):
    its encoders, its cell and [predict]. *)

Module Classification.
Section Model.
Context {F : Type} `{Scalar F}.

(** The category names, collected from the data files when the
    notebook starts. *)
Variable all_categories : list pystr.

Definition n_categories : nat := length all_categories.

Definition letterToTensor (letter : pystr) : result (list F) :=
  let tensor := zeros n_letters in
  let index := find all_letters letter in
  setitem tensor index fone.

Definition lineToTensor (line : pystr) : result (list (list F)) :=
  let tensor := replicate (length line) (zeros n_letters) in
  for_each (enumerate line)
    (fun '(i, letter) tensor => set_one_hot tensor i [letter])
    tensor.

Definition categoryToTensor (category : pystr) : result (list nat) :=
  let* index := index all_categories category in
  Ok [index].

Record RNN : Type := {
  hidden_size : nat;
  i2h : Linear F;
  i2o : Linear F
}.

(** [RNN.__init__], given the initial entries of the two layers. *)
Definition RNN_init (input_size output_size : nat)
    (w_i2h : nat -> nat -> F) (b_i2h : nat -> F)
    (w_i2o : nat -> nat -> F) (b_i2o : nat -> F) : RNN :=
  let hidden_size := 128%nat in
  {| hidden_size := hidden_size;
     i2h := Linear_init (input_size + hidden_size) hidden_size w_i2h b_i2h;
     i2o := Linear_init (input_size + hidden_size) output_size w_i2o b_i2o |}.

(** The shapes of an [RNN(input_size, output_size)] object. *)
Definition RNN_wfb (rnn : RNN) (input_size output_size : nat) : bool :=
  (hidden_size rnn =? 128)%nat
  && Linear_wfb (i2h rnn) && Linear_wfb (i2o rnn)
  && (in_features (i2h rnn) =? input_size + hidden_size rnn)%nat
  && (out_features (i2h rnn) =? hidden_size rnn)%nat
  && (in_features (i2o rnn) =? input_size + hidden_size rnn)%nat
  && (out_features (i2o rnn) =? output_size)%nat.

Definition forward (rnn : RNN) (x hidden : list F)
  : result (list F * list F) :=
  let combined := x ++ hidden in
  let* hidden := Linear_forward (i2h rnn) combined in
  let* output := Linear_forward (i2o rnn) combined in
  Ok (output, hidden).

Definition initHidden (rnn : RNN) : list F := zeros (hidden_size rnn).

(** The block "Get top N categories" of [predict]: the lines it
    prints, as (value, category name) pairs. *)
Definition top_categories (output : list F) (n_predictions : nat)
  : result (list (F * pystr)) :=
  let output := softmax output in
  let* (topv, topi) := topk output n_predictions in
  for_each (range n_predictions)
    (fun i printed =>
       let* value := getitem topv (Z.of_nat i) in
       let* category_index := getitem topi (Z.of_nat i) in
       let* name := getitem all_categories (Z.of_nat category_index) in
       Ok (printed ++ [(value, name)]))
    [].

(** [predict(input_line, n_predictions)] on the notebook's [rnn].  The
    local [output] is unassigned until the loop body has run once.
    The result is the ranking the function prints (its header line,
    which echoes [input_line], is left out). *)
Definition predict (rnn : RNN) (input_line : pystr) (n_predictions : nat)
  : result (list (F * pystr)) :=
  let hidden := initHidden rnn in
  let* line_tensor := lineToTensor input_line in
  let* (output, hidden) :=
    for_each (range (length line_tensor))
      (fun i '(_, hidden) =>
         let* x := getitem line_tensor (Z.of_nat i) in
         let* (output, hidden) := forward rnn x hidden in
         Ok (Some output, hidden))
      (None, hidden) in
  let* output := read_local output in
  top_categories output n_predictions.

(** The loop of the evaluation cell over the test lines [X_test] and
    their labels [y_test]: the values of [correct] and of the
    notebook-level variable [output] when it ends.  [output0] is what
    [output] holds when the cell starts ([None] if it is not defined).
    The cell then prints [correct / len(X_test)]. *)
Definition evaluate_loop (rnn : RNN) (output0 : option (list F))
    (X_test y_test : list pystr) : result (nat * option (list F)) :=
  let correct := 0%nat in
  for_each (range (length X_test))
    (fun i '(correct, output) =>
       let hidden := initHidden rnn in
       let* line := getitem X_test (Z.of_nat i) in
       let* line_tensor := lineToTensor line in
       let* category := getitem y_test (Z.of_nat i) in
       let* category_tensor := categoryToTensor category in
       let* (output, hidden) :=
         for_each (range (length line_tensor))
           (fun i '(_, hidden) =>
              let* x := getitem line_tensor (Z.of_nat i) in
              let* (output, hidden) := forward rnn x hidden in
              Ok (Some output, hidden))
           (output, hidden) in
       let* scores := read_global output in
       let* prediction := argmax scores in
       let* category_index := index all_categories category in
       Ok (if decide (category_index = prediction) then S correct else correct,
           output))
    (correct, output0).

(** *** The recurrence of [predict] *)

(** The hidden state after the rows [xs] have been read in order,
    starting from [h]: each step replaces [h] by the [i2h] projection
    of the row joined with [h]. *)
Definition hidden_after (rnn : RNN) (xs : list (list F)) (h : list F)
  : list F :=
  fold_left (fun h x => affine (i2h rnn) (x ++ h)) xs h.

(** The pair ([output], [hidden]) after the rows [xs]. *)
Definition run_after (rnn : RNN) (xs : list (list F))
    (s : option (list F) * list F) : option (list F) * list F :=
  fold_left
    (fun s x => (Some (affine (i2o rnn) (x ++ s.2)),
                 affine (i2h rnn) (x ++ s.2)))
    xs s.

End Model.
Arguments RNN F : clear implicits.
End Classification.

(** * The generation notebook

    The notebook "Generating Names with a Character-Level RNN"
    ([src/3_LanguageModel.ipynb]): its encoders, its cell, [train],
    [sample_word] and the last cell, which generates from several
    start letters. *)

Module LanguageModel.
Section Model.
Context {F : Type} `{Scalar F}.

(** The category names, collected from the data files when the
    notebook starts. *)
Variable all_categories : list pystr.

Definition n_categories : nat := length all_categories.

Record RNN : Type := {
  hidden_size : nat;
  i2h : Linear F;
  i2o : Linear F;
  o2o : Linear F
}.

(** [RNN.__init__], given the initial entries of the three layers. *)
Definition RNN_init (input_size hidden_size output_size : nat)
    (w_i2h : nat -> nat -> F) (b_i2h : nat -> F)
    (w_i2o : nat -> nat -> F) (b_i2o : nat -> F)
    (w_o2o : nat -> nat -> F) (b_o2o : nat -> F) : RNN :=
  {| hidden_size := hidden_size;
     i2h := Linear_init (n_categories + input_size + hidden_size) hidden_size
              w_i2h b_i2h;
     i2o := Linear_init (n_categories + input_size + hidden_size) output_size
              w_i2o b_i2o;
     o2o := Linear_init (hidden_size + output_size) output_size w_o2o b_o2o |}.

(** The shapes of an [RNN(input_size, hidden_size, output_size)]
    object; the hidden size is the object's own field. *)
Definition RNN_wfb (rnn : RNN) (input_size output_size : nat) : bool :=
  Linear_wfb (i2h rnn) && Linear_wfb (i2o rnn) && Linear_wfb (o2o rnn)
  && (in_features (i2h rnn) =? n_categories + input_size + hidden_size rnn)%nat
  && (out_features (i2h rnn) =? hidden_size rnn)%nat
  && (in_features (i2o rnn) =? n_categories + input_size + hidden_size rnn)%nat
  && (out_features (i2o rnn) =? output_size)%nat
  && (in_features (o2o rnn) =? hidden_size rnn + output_size)%nat
  && (out_features (o2o rnn) =? output_size)%nat.

Definition forward (rnn : RNN) (category x hidden : list F)
  : result (list F * list F) :=
  let input_combined := category ++ x ++ hidden in
  let* hidden := Linear_forward (i2h rnn) input_combined in
  let* output := Linear_forward (i2o rnn) input_combined in
  let output_combined := hidden ++ output in
  let* output := Linear_forward (o2o rnn) output_combined in
  Ok (output, hidden).

Definition initHidden (rnn : RNN) : list F := zeros (hidden_size rnn).

(** One-hot vector for category. *)
Definition categoryTensor (category : pystr) : result (list F) :=
  let* li := index all_categories category in
  let tensor := zeros n_categories in
  setitem tensor (Z.of_nat li) fone.

(** One-hot matrix of first to last letters (not including EOS) for
    input. *)
Definition inputTensor (line : pystr) : result (list (list F)) :=
  let tensor := replicate (length line) (zeros n_letters) in
  for_each (range (length line))
    (fun li tensor =>
       let* letter := str_getitem line (Z.of_nat li) in
       set_one_hot tensor li letter)
    tensor.

(** LongTensor of second letter to end (EOS) for target. *)
Definition targetTensor (line : pystr) : result (list Z) :=
  let* letter_indexes :=
    for_each (range2 1 (length line))
      (fun li acc =>
         let* letter := str_getitem line (Z.of_nat li) in
         Ok (acc ++ [find all_letters letter]))
      [] in
  Ok (letter_indexes ++ [Z.of_nat n_letters - 1]).

(** [randomTrainingExample()], for the pair ([category], [line]) that
    its call of [randomTrainingPair] drew. *)
Definition randomTrainingExample (category line : pystr)
  : result (list F * list (list F) * list Z) :=
  let* category_tensor := categoryTensor category in
  let* input_line_tensor := inputTensor line in
  let* target_line_tensor := targetTensor line in
  Ok (category_tensor, input_line_tensor, target_line_tensor).

(** *** Sampling *)

(** The loop [for i in range(max_length)] of [sample_word], with [n]
    iterations left; [break] returns [output_name] at once. *)
Fixpoint sample_loop (rnn : RNN) (category_tensor : list F) (n : nat)
    (x : list (list F)) (hidden : list F) (output_name : pystr)
  : result pystr :=
  match n with
  | O => Ok output_name
  | S n' =>
      let* x0 := getitem x 0 in
      let* (output, hidden) := forward rnn category_tensor x0 hidden in
      let* top_i := argmax output in
      if decide (top_i = (n_letters - 1)%nat) then Ok output_name
      else
        let* letter := str_getitem all_letters (Z.of_nat top_i) in
        let output_name := output_name ++ letter in
        let* x := inputTensor letter in
        sample_loop rnn category_tensor n' x hidden output_name
  end.

(** [sample_word(start_letter, category)] on the notebook's [rnn] and
    [max_length]. *)
Definition sample_word (rnn : RNN) (max_length : nat)
    (start_letter category : pystr) : result pystr :=
  let* category_tensor := categoryTensor category in
  let* x := inputTensor start_letter in
  let hidden := initHidden rnn in
  let output_name := start_letter in
  sample_loop rnn category_tensor max_length x hidden output_name.

(** The second loop of the multi-letter cell, with [n] iterations
    left.  [output] is the notebook-level variable of that name. *)
Fixpoint generate_loop (rnn : RNN) (category_tensor : list F) (n : nat)
    (output : option (list F)) (hidden : list F) (output_name : pystr)
  : result pystr :=
  match n with
  | O => Ok output_name
  | S n' =>
      let* out := read_global output in
      let* top_i := argmax out in
      if decide (top_i = (n_letters - 1)%nat) then Ok output_name
      else
        let* letter := str_getitem all_letters (Z.of_nat top_i) in
        let output_name := output_name ++ letter in
        let* x := inputTensor letter in
        let* x0 := getitem x 0 in
        let* (output, hidden) := forward rnn category_tensor x0 hidden in
        generate_loop rnn category_tensor n' (Some output) hidden output_name
  end.

(** The last code cell: generation from the letters [start_letters].
    [output0] is what the notebook-level variable [output] holds when
    the cell starts ([None] if it is not defined); the value is the
    cell's result [output_name]. *)
Definition generate (rnn : RNN) (max_length : nat)
    (output0 : option (list F)) (start_letters category : pystr)
  : result pystr :=
  let* category_tensor := categoryTensor category in
  let hidden := initHidden rnn in
  let output_name := start_letters in
  let* (output, hidden) :=
    for_each (range (length start_letters))
      (fun i '(_, hidden) =>
         let* letter := str_getitem start_letters (Z.of_nat i) in
         let* x := inputTensor letter in
         let* x0 := getitem x 0 in
         let* (output, hidden) := forward rnn category_tensor x0 hidden in
         Ok (Some output, hidden))
      (output0, hidden) in
  generate_loop rnn category_tensor max_length output hidden output_name.

(** *** Greedy decoding, as the specification describes it *)

(** The values the cell returns when the lengths of its arguments fit:
    the third projection of the new hidden state joined with the
    intermediate output, and the new hidden state. *)
Definition cell (rnn : RNN) (category x hidden : list F) : list F * list F :=
  let input_combined := category ++ x ++ hidden in
  let hidden' := affine (i2h rnn) input_combined in
  let intermediate := affine (i2o rnn) input_combined in
  (affine (o2o rnn) (hidden' ++ intermediate), hidden').

(** The notebook-level [output] and the hidden state after the seed
    characters have been fed through the cell in order, from the pair
    [s]. *)
Definition warm_up (rnn : RNN) (category : list F) (seed : pystr)
    (s : option (list F) * list F) : option (list F) * list F :=
  fold_left
    (fun s c => let r := cell rnn category (encode c) s.2 in (Some r.1, r.2))
    seed s.

(** [greedy_decoding rnn category n output hidden symbols]: from the
    current [output] and [hidden], at most [n] iterations generate
    [symbols].  Each iteration takes the position of the largest score;
    the last position ends the decoding without a symbol; any other
    position [k] yields the symbol [all_letters[k]], whose one-hot row
    is the next input of the cell. *)
Inductive greedy_decoding (rnn : RNN) (category : list F)
  : nat -> list F -> list F -> pystr -> Prop :=
| greedy_limit output hidden :
    greedy_decoding rnn category 0 output hidden []
| greedy_end n output hidden :
    argmax output = Ok (n_letters - 1)%nat ->
    greedy_decoding rnn category (S n) output hidden []
| greedy_symbol n output hidden k c output' hidden' symbols :
    argmax output = Ok k ->
    k <> (n_letters - 1)%nat ->
    all_letters !! k = Some c ->
    forward rnn category (one_hot n_letters k) hidden = Ok (output', hidden') ->
    greedy_decoding rnn category n output' hidden' symbols ->
    greedy_decoding rnn category (S n) output hidden (c :: symbols).

(** *** Training *)

(** [nn.CrossEntropyLoss()] on one row of scores and one class index:
    minus the logarithm of the softmax entry of the class; a class
    index outside the row raises. *)
Definition criterion (output : list F) (target : Z) : result F :=
  if decide (0 <= target < Z.of_nat (length output)) then
    let* p := getitem (softmax output) target in
    Ok (fneg (flog p))
  else Raise IndexError.

(** The local variable [loss] of [train]: the Python integer [0] it
    starts as, or a tensor once a step's loss has been added. *)
Inductive pyloss : Type :=
| int_zero
| loss_tensor (v : F).

(** [loss += l]. *)
Definition loss_add (loss : pyloss) (l : F) : pyloss :=
  match loss with
  | int_zero => loss_tensor (fadd fzero l)
  | loss_tensor v => loss_tensor (fadd v l)
  end.

(** The operations autograd records while the loss is computed: the
    calls of the cell and of the criterion, with their arguments. *)
Inductive op : Type :=
| op_rnn (category x hidden : list F)
| op_criterion (output : list F) (target : Z).

(** The shared objects [train] works on: the parameters of [rnn] and
    their [.grad] buffers ([None] after [zero_grad]). *)
Record world : Type := {
  params : RNN;
  grads : option RNN
}.

(** [torch.optim.SGD(rnn.parameters(), lr=...)], without momentum. *)
Record SGD : Type := { lr : F }.

Definition Linear_map2 (f : F -> F -> F) (a b : Linear F) : Linear F :=
  {| in_features := in_features a;
     out_features := out_features a;
     weight := zip_with (zip_with f) (weight a) (weight b);
     bias := zip_with f (bias a) (bias b) |}.

Definition RNN_map2 (f : F -> F -> F) (a b : RNN) : RNN :=
  {| hidden_size := hidden_size a;
     i2h := Linear_map2 f (i2h a) (i2h b);
     i2o := Linear_map2 f (i2o a) (i2o b);
     o2o := Linear_map2 f (o2o a) (o2o b) |}.

(** The gradient of a recorded computation with respect to the
    parameters, as reverse-mode differentiation finds it. *)
Variable autograd : list op -> RNN -> RNN.

(** The notebook's [optimizer]. *)
Variable optimizer : SGD.

(** [rnn.zero_grad()]. *)
Definition zero_grad (w : world) : world :=
  {| params := params w; grads := None |}.

(** [loss.backward()] for a loss computed by the operations [tape]:
    the gradient is added into the [.grad] buffers. *)
Definition backward (tape : list op) (w : world) : world :=
  let g := autograd tape (params w) in
  {| params := params w;
     grads := Some match grads w with
                  | None => g
                  | Some g0 => RNN_map2 fadd g0 g
                  end |}.

(** The update of plain gradient descent: every entry [p] with
    gradient [d] becomes [p + (-lr) * d]. *)
Definition sgd_update (rnn g : RNN) : RNN :=
  RNN_map2 (fun p d => fadd p (fmul (fneg (lr optimizer)) d)) rnn g.

(** [optimizer.step()]: the update, when the parameters have a
    gradient. *)
Definition step (w : world) : world :=
  match grads w with
  | None => w
  | Some g => {| params := sgd_update (params w) g; grads := grads w |}
  end.

(** The number [n] as a scalar. *)
Definition of_nat (n : nat) : F := Nat.iter n (fun a => fadd a fone) fzero.

(** [train(category_tensor, input_line_tensor, target_line_tensor)]:
    its value or exception, and the shared objects afterwards.  The
    loop carries the locals [output], [hidden] and [loss] and the
    operations recorded so far.  [target_line_tensor.unsqueeze_(-1)]
    only changes the shape [(n)] of the targets to [(n, 1)], which a
    [list Z] does not record. *)
Definition train (w : world) (category_tensor : list F)
    (input_line_tensor : list (list F)) (target_line_tensor : list Z)
  : result (list F * F) * world :=
  let hidden := initHidden (params w) in
  let w := zero_grad w in
  let loss := int_zero in
  match
    for_each (range (length input_line_tensor))
      (fun i '(_, hidden, loss, tape) =>
         let* x := getitem input_line_tensor (Z.of_nat i) in
         let* (output, hidden') := forward (params w) category_tensor x hidden in
         let* target := getitem target_line_tensor (Z.of_nat i) in
         let* l := criterion output target in
         Ok (Some output, hidden', loss_add loss l,
             tape ++ [op_rnn category_tensor x hidden;
                      op_criterion output target]))
      (None, hidden, loss, [])
  with
  | Raise e => (Raise e, w)
  | Ok (output, _, loss, tape) =>
      match loss with
      | int_zero => (Raise AttributeError, w)
      | loss_tensor v =>
          let w := backward tape w in
          let w := step w in
          (let* output := read_local output in
           Ok (output, fdiv v (of_nat (length input_line_tensor))),
           w)
      end
  end.

(** *** Teacher forcing, as the specification describes it *)

(** One training step: the input row, the hidden state it starts from,
    the output of the cell and the target of the step. *)
Record tf_step : Type := {
  tf_input : list F;
  tf_hidden : list F;
  tf_output : list F;
  tf_target : Z
}.

(** The steps over the rows [xs] of the true characters and the targets
    [ts], from the hidden state [hidden]: each step feeds the next row,
    never a prediction. *)
Fixpoint teacher_forcing (rnn : RNN) (category : list F)
    (xs : list (list F)) (ts : list Z) (hidden : list F) : list tf_step :=
  match xs, ts with
  | x :: xs', t :: ts' =>
      {| tf_input := x; tf_hidden := hidden;
         tf_output := (cell rnn category x hidden).1; tf_target := t |}
      :: teacher_forcing rnn category xs' ts' (cell rnn category x hidden).2
  | _, _ => []
  end.

(** The cross-entropy of one step. *)
Definition cross_entropy (output : list F) (target : Z) : F :=
  fneg (flog (default fzero (softmax output !! Z.to_nat target))).

(** The operations a step records. *)
Definition tf_ops (category : list F) (s : tf_step) : list op :=
  [op_rnn category (tf_input s) (tf_hidden s);
   op_criterion (tf_output s) (tf_target s)].

End Model.
Arguments RNN F : clear implicits.
Arguments world F : clear implicits.
Arguments SGD F : clear implicits.
Arguments op F : clear implicits.
Arguments pyloss F : clear implicits.
Arguments tf_step F : clear implicits.
End LanguageModel.

(** * Concrete instances

    Small networks over the integers, on which the definitions above
    can be evaluated. *)

Module Examples.

Definition categories : list pystr :=
  [lit "English"; lit "German"; lit "Korean"].

(** A character outside the vocabulary. *)
Definition hyphen : N := N_of_ascii "-"%char.

(** A classifier whose score for category [o] is entry [o] of the last
    row read, plus entry [o] of the hidden state; the hidden state
    keeps the previous row. *)
Definition classifier : Classification.RNN Z :=
  Classification.RNN_init 57 (length categories)
    (fun o i => if (i =? o)%nat then 1 else 0) (fun _ => 0)
    (fun o i => if (i =? o)%nat || (i =? 57 + o)%nat then 1 else 0)
    (fun _ => 0).

(** A generator that scores highest the symbol after its input symbol:
    the intermediate output is the input row moved one position up, and
    the last layer copies it. *)
Definition generator : LanguageModel.RNN Z :=
  LanguageModel.RNN_init categories 57 128 57
    (fun _ _ => 0) (fun _ => 0)
    (fun o i => if (3 <=? i)%nat && (i + 1 =? 3 + o)%nat then 1 else 0)
    (fun _ => 0)
    (fun o i => if (i =? 128 + o)%nat then 1 else 0) (fun _ => 0).

(** The shared objects of a training call, with a stand-in for the
    gradient (the parameters themselves) and the learning rate [1]. *)
Definition shared : LanguageModel.world Z :=
  {| LanguageModel.params := generator; LanguageModel.grads := None |}.

Definition gradient (tape : list (LanguageModel.op Z))
    (rnn : LanguageModel.RNN Z) : LanguageModel.RNN Z := rnn.

Definition optimizer : LanguageModel.SGD Z := {| LanguageModel.lr := 1 |}.

End Examples.

(** * Proofs *)

(** A decidable proposition about concrete data, by evaluation. *)
Ltac by_evaluation := apply (bool_decide_unpack _); vm_compute; exact I.

(** ** Facts about the Python primitives *)

Section PrimitiveFacts.
Context {F : Type} `{Scalar F}.

Lemma norm_index_nonneg (len : nat) (k : nat) :
  (k < len)%nat -> norm_index len (Z.of_nat k) = Ok k.
Proof.
  intros Hk. unfold norm_index.
  destruct (Z.leb_spec 0 (Z.of_nat k)); [|lia].
  destruct (Z.ltb_spec (Z.of_nat k) (Z.of_nat len)); [|lia].
  simpl. by rewrite Nat2Z.id.
Qed.

Lemma norm_index_overflow (len : nat) (k : nat) :
  (len <= k)%nat -> norm_index len (Z.of_nat k) = Raise IndexError.
Proof.
  intros Hk. unfold norm_index.
  destruct (Z.ltb_spec (Z.of_nat k) (Z.of_nat len)); [lia|].
  destruct (Z.ltb_spec (Z.of_nat k) 0); [lia|].
  by rewrite !andb_false_r.
Qed.

Lemma norm_index_minus_one (len : nat) :
  (0 < len)%nat -> norm_index len (-1) = Ok (len - 1)%nat.
Proof.
  intros Hk. unfold norm_index. simpl.
  destruct (Z.leb_spec (- Z.of_nat len) (-1)); [|lia].
  simpl. f_equal. lia.
Qed.

Lemma length_zeros (n : nat) : length (zeros n) = n.
Proof. apply length_replicate. Qed.

Lemma length_one_hot (n k : nat) : length (one_hot n k) = n.
Proof. unfold one_hot. by rewrite length_insert, length_zeros. Qed.

(** A one-hot row holds [1] at its position and [0] elsewhere. *)
Lemma one_hot_lookup_eq (n k : nat) :
  (k < n)%nat -> one_hot n k !! k = Some fone.
Proof.
  intros Hk. unfold one_hot.
  apply list_lookup_insert_eq. by rewrite length_zeros.
Qed.

Lemma one_hot_lookup_ne (n k j : nat) :
  (j < n)%nat -> j <> k -> one_hot n k !! j = Some fzero.
Proof.
  intros Hj Hne. unfold one_hot, zeros.
  rewrite list_lookup_insert_ne by done.
  by apply lookup_replicate_2.
Qed.

Lemma setitem_zeros_nonneg (n k : nat) :
  (k < n)%nat -> setitem (zeros n) (Z.of_nat k) fone = Ok (one_hot n k).
Proof.
  intros Hk. unfold setitem.
  rewrite length_zeros, norm_index_nonneg by done. done.
Qed.

Lemma setitem_zeros_minus_one (n : nat) :
  (0 < n)%nat -> setitem (zeros n) (-1) fone = Ok (one_hot n (n - 1)).
Proof.
  intros Hk. unfold setitem.
  rewrite length_zeros, norm_index_minus_one by done. done.
Qed.

Lemma one_hot_split (n k : nat) :
  (k < n)%nat ->
  one_hot n k = replicate k fzero ++ fone :: replicate (n - S k) fzero.
Proof. intros Hk. unfold one_hot, zeros. by apply insert_replicate_lt. Qed.

(** The position [argmax] answers is a position of the row. *)
Lemma argmax_from_lt (t : list F) (i : nat) (best : nat * F) :
  (best.1 < i)%nat -> (argmax_from t i best < i + length t)%nat.
Proof.
  revert i best. induction t as [|v t IH]; intros i best Hb; simpl; [lia|].
  specialize (IH (S i) (if fltb best.2 v then (i, v) else best)).
  destruct (fltb best.2 v); simpl in IH; lia.
Qed.

Lemma argmax_lt (t : list F) (k : nat) :
  argmax t = Ok k -> (k < length t)%nat.
Proof.
  destruct t as [|v t]; [done|]. simpl. intros [= <-].
  pose proof (argmax_from_lt t 1 (0%nat, v)). simpl in *. lia.
Qed.

Lemma argmax_nonempty (t : list F) :
  t <> [] -> exists k, argmax t = Ok k /\ (k < length t)%nat.
Proof.
  intros Ht. destruct t as [|v t]; [done|].
  eexists. split; [done|]. by apply argmax_lt.
Qed.

Section OneHotArgmax.
Hypothesis lt_0_1 : fltb fzero fone = true.
Hypothesis lt_1_0 : fltb fone fzero = false.
Hypothesis lt_0_0 : fltb fzero fzero = false.

Lemma argmax_from_zeros (m i : nat) (best : nat * F) (t : list F) :
  best.2 = fzero \/ best.2 = fone ->
  argmax_from (replicate m fzero ++ t) i best = argmax_from t (i + m) best.
Proof using lt_1_0 lt_0_0.
  revert i. induction m as [|m IH]; intros i Hb; simpl.
  - by rewrite Nat.add_0_r.
  - replace (fltb best.2 fzero) with false by (destruct Hb as [-> | ->]; done).
    rewrite IH by done. f_equal. lia.
Qed.

(** The largest entry of a one-hot row is its [1]. *)
Lemma argmax_one_hot (n k : nat) :
  (k < n)%nat -> argmax (one_hot n k) = Ok k.
Proof using lt_0_1 lt_1_0 lt_0_0.
  intros Hk. rewrite one_hot_split by done.
  destruct k as [|k]; simpl.
  - f_equal. rewrite <- (app_nil_r (replicate _ _)).
    by rewrite argmax_from_zeros by (by right).
  - f_equal. rewrite argmax_from_zeros by (by left). simpl.
    rewrite lt_0_1. rewrite <- (app_nil_r (replicate _ _)).
    by rewrite argmax_from_zeros by (by right).
Qed.

End OneHotArgmax.

End PrimitiveFacts.

Section FindFacts.

Lemma find_from_absent (s : pystr) (c : N) (i : Z) :
  c ∉ s -> find_from s [c] i = -1.
Proof.
  revert i. induction s as [|d s IH]; intros i Hc; [done|].
  apply not_elem_of_cons in Hc as [Hne Hc]. simpl.
  destruct (N.eqb_spec c d) as [->|_]; [done|]. simpl. by apply IH.
Qed.

Lemma find_from_head (s : pystr) (c : N) (i : Z) :
  find_from (c :: s) [c] i = i.
Proof. simpl. by rewrite N.eqb_refl. Qed.

Lemma find_from_lookup (s : pystr) (c : N) (k : nat) (i : Z) :
  NoDup s -> s !! k = Some c -> find_from s [c] i = i + Z.of_nat k.
Proof.
  revert k i. induction s as [|d s IH]; intros k i Hnd Hk; [done|].
  apply NoDup_cons in Hnd as [Hd Hnd].
  destruct k as [|k]; simpl in Hk.
  - injection Hk as ->. rewrite find_from_head. lia.
  - simpl. destruct (N.eqb_spec c d) as [->|_].
    + exfalso. apply Hd. by eapply list_elem_of_lookup_2.
    + simpl. rewrite (IH k) by done. lia.
Qed.

Lemma find_absent (s : pystr) (c : N) : c ∉ s -> find s [c] = -1.
Proof. apply find_from_absent. Qed.

Lemma find_lookup (s : pystr) (c : N) (k : nat) :
  NoDup s -> s !! k = Some c -> find s [c] = Z.of_nat k.
Proof. intros Hnd Hk. unfold find. by rewrite (find_from_lookup s c k). Qed.

(** [find] of a character answers [-1] or a position of the string. *)
Lemma find_from_range (s : pystr) (c : N) (i : Z) :
  find_from s [c] i = -1 \/
  i <= find_from s [c] i < i + Z.of_nat (length s).
Proof.
  revert i. induction s as [|d s IH]; intros i; [by left|].
  simpl. destruct (N.eqb c d); simpl.
  - right. lia.
  - destruct (IH (i + 1)) as [->|Hr]; [by left|right; lia].
Qed.

End FindFacts.

Section VocabularyFacts.

Lemma n_letters_eq : n_letters = 57%nat.
Proof. reflexivity. Qed.

Lemma all_letters_NoDup : NoDup all_letters.
Proof. by_evaluation. Qed.

Lemma all_letters_last : all_letters !! 56%nat = Some apostrophe.
Proof. reflexivity. Qed.

Lemma find_apostrophe : find all_letters [apostrophe] = 56.
Proof. reflexivity. Qed.

Lemma find_all_letters_lookup (c : N) (k : nat) :
  all_letters !! k = Some c -> find all_letters [c] = Z.of_nat k.
Proof. apply find_lookup, all_letters_NoDup. Qed.

Lemma find_all_letters_absent (c : N) :
  c ∉ all_letters -> find all_letters [c] = -1.
Proof. apply find_absent. Qed.

Lemma find_all_letters_range (c : N) :
  find all_letters [c] = -1 \/ 0 <= find all_letters [c] < 57.
Proof.
  destruct (find_from_range all_letters c 0) as [E|E]; [by left|right].
  unfold find. change (Z.of_nat (length all_letters)) with 57 in E. lia.
Qed.

End VocabularyFacts.

Section LayerFacts.
Context {F : Type} `{Scalar F}.

Lemma length_affine (L : Linear F) (x : list F) :
  Linear_wfb L = true -> length (affine L x) = out_features L.
Proof.
  unfold Linear_wfb, affine. intros Hwf.
  apply andb_prop in Hwf as [Hwf Hb]. apply andb_prop in Hwf as [Hw _].
  apply Nat.eqb_eq in Hw, Hb. rewrite length_zip_with. lia.
Qed.

Lemma Linear_forward_ok (L : Linear F) (x : list F) :
  length x = in_features L -> Linear_forward L x = Ok (affine L x).
Proof. intros E. unfold Linear_forward. by rewrite decide_True. Qed.

Lemma Linear_init_wfb inf outf (w : nat -> nat -> F) (b : nat -> F) :
  Linear_wfb (Linear_init inf outf w b) = true.
Proof.
  unfold Linear_wfb, Linear_init. simpl.
  rewrite !length_map, !length_seq, Nat.eqb_refl. simpl.
  rewrite andb_true_r. apply forallb_forall. intros r Hr.
  apply in_map_iff in Hr as (o & <- & _).
  by rewrite length_map, length_seq, Nat.eqb_refl.
Qed.

End LayerFacts.

Section EncodingFacts.
Context {F : Type} `{Scalar F}.

Lemma symbol_index_lt (c : N) : (symbol_index c < n_letters)%nat.
Proof.
  unfold symbol_index. rewrite n_letters_eq. case_decide; [lia|].
  destruct (find_all_letters_range c); lia.
Qed.

Lemma symbol_index_absent (c : N) : c ∉ all_letters -> symbol_index c = 56%nat.
Proof.
  intros Hc. unfold symbol_index.
  rewrite decide_True; [done|]. by apply find_all_letters_absent.
Qed.

Lemma symbol_index_lookup (c : N) (k : nat) :
  all_letters !! k = Some c -> symbol_index c = k.
Proof.
  intros Hk. unfold symbol_index.
  rewrite (find_all_letters_lookup c k) by done.
  rewrite decide_False by lia. apply Nat2Z.id.
Qed.

Lemma setitem_find (c : N) :
  setitem (zeros n_letters) (find all_letters [c]) fone = Ok (encode c).
Proof.
  unfold encode, symbol_index. case_decide as E.
  - rewrite E. apply (setitem_zeros_minus_one 57). lia.
  - destruct (find_all_letters_range c) as [?|Hr]; [done|].
    rewrite <- (Z2Nat.id (find all_letters [c])) at 1 by lia.
    apply setitem_zeros_nonneg. rewrite n_letters_eq. lia.
Qed.

Lemma length_encode (c : N) : length (encode c) = n_letters.
Proof. apply length_one_hot. Qed.

(** On the first row that is still zero it writes the encoding. *)
Lemma set_one_hot_fill (pre t : list (list F)) (c : N) :
  set_one_hot (pre ++ zeros n_letters :: t) (length pre) [c]
  = Ok (pre ++ encode c :: t).
Proof.
  unfold set_one_hot, getitem, setitem at 2.
  rewrite norm_index_nonneg by (rewrite length_app; simpl; lia).
  simpl. rewrite list_lookup_middle by done. simpl.
  rewrite setitem_find. simpl.
  by rewrite insert_app_r_alt, Nat.sub_diag by lia.
Qed.

End EncodingFacts.

(** * The classification notebook: proofs *)

Section ClassificationFacts.
Import Classification.
Context {F : Type} `{Scalar F}.
Variable all_categories : list pystr.

(** *** The encoders *)

Lemma lineToTensor_loop (line : pystr) (pre : list (list F)) :
  for_each (zip (seq (length pre) (length line)) line)
    (fun '(i, letter) tensor => set_one_hot tensor i [letter])
    (pre ++ replicate (length line) (zeros n_letters))
  = Ok (pre ++ List.map encode line).
Proof.
  revert pre. induction line as [|c line IH]; intros pre; [done|].
  cbn [length seq zip zip_with for_each replicate List.map].
  rewrite set_one_hot_fill. cbn [rbind].
  specialize (IH (pre ++ [encode c])).
  rewrite length_app, Nat.add_1_r, <- !app_assoc in IH. exact IH.
Qed.

Lemma lineToTensor_eq (line : pystr) :
  lineToTensor line = Ok (List.map encode line).
Proof. apply (lineToTensor_loop line []). Qed.

Lemma letterToTensor_eq (c : N) : letterToTensor [c] = Ok (encode c).
Proof. apply setitem_find. Qed.

Lemma run_after_hidden (rnn : RNN F) xs s :
  (run_after rnn xs s).2 = hidden_after rnn xs s.2.
Proof.
  revert s. induction xs as [|x xs IH]; intros s; [done|].
  simpl. by rewrite IH.
Qed.

Lemma run_after_snoc (rnn : RNN F) xs x s :
  run_after rnn (xs ++ [x]) s
  = (Some (affine (i2o rnn) (x ++ hidden_after rnn xs s.2)),
     affine (i2h rnn) (x ++ hidden_after rnn xs s.2)).
Proof.
  unfold run_after. rewrite fold_left_app. simpl.
  by rewrite <- run_after_hidden.
Qed.

Section WellFormed.
Variable rnn : RNN F.
Variable input_size output_size : nat.
Hypothesis rnn_wf : RNN_wfb rnn input_size output_size = true.

Lemma rnn_wf_parts :
  Linear_wfb (i2h rnn) = true /\ Linear_wfb (i2o rnn) = true /\
  in_features (i2h rnn) = (input_size + hidden_size rnn)%nat /\
  out_features (i2h rnn) = hidden_size rnn /\
  in_features (i2o rnn) = (input_size + hidden_size rnn)%nat /\
  out_features (i2o rnn) = output_size.
Proof using rnn_wf.
  unfold RNN_wfb in rnn_wf.
  repeat (apply andb_prop in rnn_wf as [rnn_wf ?]).
  repeat match goal with
         | E : (_ =? _)%nat = true |- _ => apply Nat.eqb_eq in E
         end.
  done.
Qed.

(** One call of the cell on a row and a hidden state of the right
    lengths returns the two projections of their concatenation. *)
Lemma forward_ok (x hidden : list F) :
  length x = input_size -> length hidden = hidden_size rnn ->
  forward rnn x hidden
  = Ok (affine (i2o rnn) (x ++ hidden), affine (i2h rnn) (x ++ hidden)).
Proof using rnn_wf.
  intros Hx Hh. destruct rnn_wf_parts as (_ & _ & Eh & _ & Eo & _).
  unfold forward.
  rewrite !Linear_forward_ok by (rewrite length_app; lia). done.
Qed.

Lemma length_forward_hidden (x hidden : list F) :
  length (affine (i2h rnn) (x ++ hidden)) = hidden_size rnn.
Proof using rnn_wf.
  destruct rnn_wf_parts as (Wh & _ & _ & Eh & _).
  by rewrite length_affine.
Qed.

Lemma length_forward_output (x hidden : list F) :
  length (affine (i2o rnn) (x ++ hidden)) = output_size.
Proof using rnn_wf.
  destruct rnn_wf_parts as (_ & Wo & _ & _ & _ & Eo).
  by rewrite length_affine.
Qed.

(** The loop of [predict] over the rows [xs] that follow the rows
    [pre] already read. *)
Lemma predict_loop (pre xs : list (list F)) (s : option (list F) * list F) :
  Forall (fun x => length x = input_size) xs ->
  length s.2 = hidden_size rnn ->
  for_each (seq (length pre) (length xs))
    (fun i '(_, hidden) =>
       let* x := getitem (pre ++ xs) (Z.of_nat i) in
       let* (output, hidden) := forward rnn x hidden in
       Ok (Some output, hidden))
    s
  = Ok (run_after rnn xs s).
Proof using rnn_wf.
  revert pre s. induction xs as [|x xs IH]; intros pre [o h] Hxs Hh; [done|].
  apply Forall_cons in Hxs as [Hx Hxs]. simpl in Hh.
  cbn [length seq for_each]. unfold getitem at 1.
  rewrite norm_index_nonneg by (rewrite length_app; simpl; lia).
  cbn [rbind]. rewrite list_lookup_middle by done. cbn [rbind].
  rewrite forward_ok by done. cbn [rbind].
  specialize (IH (pre ++ [x])
                 (Some (affine (i2o rnn) (x ++ h)), affine (i2h rnn) (x ++ h))).
  rewrite length_app, Nat.add_1_r, <- app_assoc in IH.
  change (pre ++ [x] ++ xs) with (pre ++ x :: xs) in IH.
  rewrite IH; [done|done|]. simpl. apply length_forward_hidden.
Qed.

End WellFormed.

(** C7.  For a line of at least one character, [l ++ [c]], [predict]
    reads the one-hot rows of the characters in the order of the line:
    the hidden state starts as zeros and each step hands its new hidden
    state to the next ([hidden_after]).  Only the output of the last
    step is kept: it is the [i2o] projection of the last row joined
    with the hidden state reached before it, it has one entry per
    category whatever the length of the line, and everything [predict]
    prints is computed from it. *)
Theorem predict_final_output (rnn : RNN F) (l : pystr) (c : N)
    (n_predictions : nat) :
  RNN_wfb rnn n_letters (n_categories all_categories) = true ->
  let h := hidden_after rnn (List.map encode l) (zeros (hidden_size rnn)) in
  let final := affine (i2o rnn) (encode c ++ h) in
  lineToTensor (l ++ [c]) = Ok (List.map encode (l ++ [c])) /\
  length final = n_categories all_categories /\
  predict all_categories rnn (l ++ [c]) n_predictions
  = top_categories all_categories final n_predictions.
Proof.
  intros Hwf h final.
  split; [apply lineToTensor_eq|].
  split; [by eapply length_forward_output|].
  unfold predict. rewrite lineToTensor_eq. cbn [rbind].
  pose proof (predict_loop rnn _ _ Hwf [] (List.map encode (l ++ [c]))
                (None, initHidden rnn)) as Hloop.
  cbn [length app] in Hloop. unfold range. rewrite Hloop; clear Hloop.
  - rewrite map_app. simpl List.map. rewrite run_after_snoc. done.
  - apply Forall_forall. intros x Hx.
    apply list_elem_of_In, in_map_iff in Hx as (d & <- & _).
    apply length_encode.
  - apply length_zeros.
Qed.

(** C8, as the code has it.  For the empty line [lineToTensor] returns
    an empty tensor, the loop of [predict] runs no step, and [predict]
    raises when it first reads its local [output]: no output vector is
    produced from the zero hidden state. *)
Theorem predict_empty_line (rnn : RNN F) (n_predictions : nat) :
  lineToTensor (F := F) [] = Ok [] /\
  predict all_categories rnn [] n_predictions = Raise UnboundLocalError.
Proof. split; reflexivity. Qed.

(** C9.  Where the scalars order [0] below [1], every symbol of the
    vocabulary is recovered from its encoding: the position of the
    largest entry of [letterToTensor(s)], used as an index into
    [all_letters], gives [s] back. *)
Theorem letter_round_trip (s : N) :
  fltb fzero fone = true -> fltb fone fzero = false ->
  fltb fzero fzero = false ->
  s ∈ all_letters ->
  exists (t : list F) (k : nat),
    letterToTensor [s] = Ok t /\ argmax t = Ok k /\
    str_getitem all_letters (Z.of_nat k) = Ok [s].
Proof.
  intros H01 H10 H00 Hs.
  apply list_elem_of_lookup_1 in Hs as [k Hk].
  assert (k < n_letters)%nat as Hlt by by eapply lookup_lt_Some.
  exists (encode s), k. split; [apply letterToTensor_eq|]. split.
  - unfold encode. rewrite (symbol_index_lookup s k) by done.
    by apply argmax_one_hot.
  - unfold str_getitem, getitem.
    rewrite norm_index_nonneg by done. cbn [rbind]. by rewrite Hk.
Qed.

End ClassificationFacts.

(** * The generation notebook: proofs *)

Section LanguageModelFacts.
Import LanguageModel.
Context {F : Type} `{Scalar F}.
Variable all_categories : list pystr.

Lemma getitem_middle {A} (pre post : list A) (a : A) :
  getitem (pre ++ a :: post) (Z.of_nat (length pre)) = Ok a.
Proof.
  unfold getitem.
  rewrite norm_index_nonneg by (rewrite length_app; simpl; lia).
  cbn [rbind]. by rewrite list_lookup_middle.
Qed.

Lemma getitem_head {A} (l : list A) (a : A) : getitem (a :: l) 0 = Ok a.
Proof. apply (getitem_middle [] l a). Qed.

Lemma str_getitem_middle (pre post : pystr) (c : N) :
  str_getitem (pre ++ c :: post) (Z.of_nat (length pre)) = Ok [c].
Proof. unfold str_getitem. by rewrite getitem_middle. Qed.

(** *** The encoders *)

Lemma inputTensor_loop (pre line : pystr) (rows : list (list F)) :
  length rows = length pre ->
  for_each (seq (length pre) (length line))
    (fun li tensor =>
       let* letter := str_getitem (pre ++ line) (Z.of_nat li) in
       set_one_hot tensor li letter)
    (rows ++ replicate (length line) (zeros n_letters))
  = Ok (rows ++ List.map encode line).
Proof.
  revert pre rows. induction line as [|c line IH]; intros pre rows Hlen; [done|].
  cbn [length seq for_each replicate List.map].
  rewrite str_getitem_middle. cbn [rbind].
  rewrite <- Hlen, set_one_hot_fill. cbn [rbind].
  specialize (IH (pre ++ [c]) (rows ++ [encode c])).
  rewrite !length_app in IH. cbn [length] in IH.
  rewrite !Nat.add_1_r, <- !app_assoc in IH. cbn [app] in IH.
  rewrite Hlen. apply IH. by rewrite Hlen.
Qed.

Lemma inputTensor_eq (line : pystr) :
  inputTensor line = Ok (List.map encode line).
Proof. apply (inputTensor_loop [] line []). done. Qed.

Lemma targetTensor_loop (pre line : pystr) (acc : list Z) :
  for_each (seq (length pre) (length line))
    (fun li acc =>
       let* letter := str_getitem (pre ++ line) (Z.of_nat li) in
       Ok (acc ++ [find all_letters letter]))
    acc
  = Ok (acc ++ List.map (fun c => find all_letters [c]) line).
Proof.
  revert pre acc. induction line as [|c line IH]; intros pre acc.
  - simpl. by rewrite app_nil_r.
  - cbn [length seq for_each List.map].
    rewrite str_getitem_middle. cbn [rbind].
    specialize (IH (pre ++ [c]) (acc ++ [find all_letters [c]])).
    rewrite !length_app in IH. cbn [length] in IH.
    rewrite !Nat.add_1_r, <- !app_assoc in IH. cbn [app] in IH. apply IH.
Qed.

(** The targets of a line: the positions of its second to last
    characters, then the last position of the vocabulary. *)
Lemma targetTensor_eq (line : pystr) :
  targetTensor line
  = Ok (List.map (fun c => find all_letters [c]) (tail line) ++ [56]).
Proof.
  unfold targetTensor, range2. destruct line as [|c line]; [done|].
  cbn [length tail]. rewrite Nat.sub_succ, Nat.sub_0_r.
  pose proof (targetTensor_loop [c] line []) as E. cbn [length app] in E.
  by rewrite E.
Qed.

Lemma index_from_elem (l : list pystr) (x : pystr) (i : nat) :
  x ∈ l -> exists li, index_from l x i = Ok li /\ (i <= li < i + length l)%nat.
Proof.
  revert i. induction l as [|y l IH]; intros i Hx; [by apply elem_of_nil in Hx|].
  simpl. case_decide as E.
  - exists i. split; [done|lia].
  - apply elem_of_cons in Hx as [->|Hx]; [done|].
    destruct (IH (S i) Hx) as (li & -> & Hli). exists li. split; [done|lia].
Qed.

Lemma categoryTensor_ok (category : pystr) :
  category ∈ all_categories ->
  exists li, (li < n_categories all_categories)%nat /\
    categoryTensor (F := F) all_categories category
    = Ok (one_hot (n_categories all_categories) li).
Proof.
  intros Hc. destruct (index_from_elem _ _ 0%nat Hc) as (li & Hli & Hr).
  exists li. split; [unfold n_categories; lia|].
  unfold categoryTensor, index. rewrite Hli. cbn [rbind].
  apply setitem_zeros_nonneg. unfold n_categories. lia.
Qed.

(** *** The cell *)

Section Cell.
Variable rnn : RNN F.
Variable input_size output_size : nat.
Hypothesis rnn_wf : RNN_wfb all_categories rnn input_size output_size = true.

Lemma gen_wf_parts :
  Linear_wfb (i2h rnn) = true /\ Linear_wfb (i2o rnn) = true /\
  Linear_wfb (o2o rnn) = true /\
  in_features (i2h rnn)
  = (n_categories all_categories + input_size + hidden_size rnn)%nat /\
  out_features (i2h rnn) = hidden_size rnn /\
  in_features (i2o rnn)
  = (n_categories all_categories + input_size + hidden_size rnn)%nat /\
  out_features (i2o rnn) = output_size /\
  in_features (o2o rnn) = (hidden_size rnn + output_size)%nat /\
  out_features (o2o rnn) = output_size.
Proof using rnn_wf.
  unfold RNN_wfb in rnn_wf.
  do 8 (apply andb_prop in rnn_wf as [rnn_wf ?]).
  repeat match goal with
         | E : (_ =? _)%nat = true |- _ => apply Nat.eqb_eq in E
         end.
  repeat (split; [assumption|]). assumption.
Qed.

Lemma length_cell_hidden (category x hidden : list F) :
  length (cell rnn category x hidden).2 = hidden_size rnn.
Proof using rnn_wf.
  destruct gen_wf_parts as (Wh & _ & _ & _ & Eh & _).
  simpl. by rewrite length_affine.
Qed.

Lemma length_cell_output (category x hidden : list F) :
  length (cell rnn category x hidden).1 = output_size.
Proof using rnn_wf.
  destruct gen_wf_parts as (_ & _ & Wo & _ & _ & _ & _ & _ & Eo).
  simpl. by rewrite length_affine.
Qed.

(** With arguments of the right lengths the cell returns normally. *)
Lemma forward_cell (category x hidden : list F) :
  length category = n_categories all_categories ->
  length x = input_size ->
  length hidden = hidden_size rnn ->
  forward rnn category x hidden = Ok (cell rnn category x hidden).
Proof using rnn_wf.
  intros Hc Hx Hh.
  destruct gen_wf_parts as (Wh & Wi & _ & Eh & Eho & Ei & Eio & Eo & _).
  unfold forward, cell.
  rewrite !Linear_forward_ok by (rewrite !length_app; lia). cbn [rbind].
  rewrite Linear_forward_ok; [done|].
  rewrite length_app, !length_affine by done. lia.
Qed.

End Cell.

(** *** Decoding *)

Lemma greedy_decoding_length (rnn : RNN F) category n output hidden symbols :
  greedy_decoding rnn category n output hidden symbols ->
  (length symbols <= n)%nat.
Proof. induction 1; simpl; lia. Qed.

Lemma greedy_decoding_vocabulary (rnn : RNN F) category n output hidden symbols :
  greedy_decoding rnn category n output hidden symbols ->
  Forall (fun c => c ∈ all_letters /\ c <> apostrophe) symbols.
Proof.
  induction 1 as [| |n output hidden k c output' hidden' symbols Hk Hne Hc _ _ IH];
    [done|done|].
  apply Forall_cons. split; [|done]. split.
  - by eapply list_elem_of_lookup_2.
  - intros ->. apply Hne.
    eapply (NoDup_lookup all_letters); [apply all_letters_NoDup|done|done].
Qed.

(** The relation determines the symbols. *)
Lemma greedy_decoding_deterministic (rnn : RNN F) category n output hidden
    symbols symbols' :
  greedy_decoding rnn category n output hidden symbols ->
  greedy_decoding rnn category n output hidden symbols' ->
  symbols = symbols'.
Proof.
  intros Hg. revert symbols'.
  induction Hg as [| |n output hidden k c output' hidden' symbols
                      Hk Hne Hc Hf _ IH];
    intros symbols' Hg'; inversion Hg'; subst; try done; try congruence.
  assert (k = k0) as <- by congruence.
  assert (c = c0) as <- by congruence.
  f_equal. apply IH. congruence.
Qed.

Section Decoding.
Variable rnn : RNN F.
Hypothesis rnn_wf : RNN_wfb all_categories rnn n_letters n_letters = true.
Variable category_tensor : list F.
Hypothesis category_length :
  length category_tensor = n_categories all_categories.

(** What one pass of either loop does once the scores are known. *)
Lemma next_symbol (output : list F) :
  length output = n_letters ->
  exists top_i, argmax output = Ok top_i /\
    (top_i = (n_letters - 1)%nat \/
     top_i <> (n_letters - 1)%nat /\
     exists c, all_letters !! top_i = Some c /\
       str_getitem all_letters (Z.of_nat top_i) = Ok [c] /\
       inputTensor (F := F) [c] = Ok [one_hot n_letters top_i]).
Proof.
  intros Hlen.
  destruct (argmax_nonempty output) as (top_i & Htop & Hlt).
  { intros ->. done. }
  exists top_i. split; [done|].
  destruct (decide (top_i = (n_letters - 1)%nat)) as [|Hne]; [by left|right].
  split; [done|]. rewrite Hlen in Hlt.
  destruct (lookup_lt_is_Some_2 all_letters top_i Hlt) as [c Hc].
  exists c. split; [done|]. split.
  - unfold str_getitem, getitem.
    rewrite norm_index_nonneg by done. cbn [rbind]. by rewrite Hc.
  - rewrite inputTensor_eq. simpl. unfold encode.
    by rewrite (symbol_index_lookup c top_i).
Qed.

(** The loop of [sample_word], entered with the one-hot row of position
    [k] as the first row of [x]: the row is fed to the cell, and the
    loop then decodes greedily from the result. *)
Lemma sample_loop_greedy (n k : nat) (rows : list (list F)) (hidden : list F)
    (output_name : pystr) :
  (k < n_letters)%nat ->
  length hidden = hidden_size rnn ->
  exists symbols,
    greedy_decoding rnn category_tensor n
      (cell rnn category_tensor (one_hot n_letters k) hidden).1
      (cell rnn category_tensor (one_hot n_letters k) hidden).2 symbols /\
    sample_loop rnn category_tensor n (one_hot n_letters k :: rows) hidden
      output_name
    = Ok (output_name ++ symbols).
Proof using rnn_wf category_length.
  revert k rows hidden output_name.
  induction n as [|n IH]; intros k rows hidden output_name Hk Hh.
  { exists []. split; [constructor|]. simpl. by rewrite app_nil_r. }
  cbn [sample_loop]. rewrite getitem_head. cbn [rbind].
  rewrite (forward_cell rnn n_letters n_letters)
    by (done || apply length_one_hot).
  cbn [rbind].
  set (r := cell rnn category_tensor (one_hot n_letters k) hidden).
  destruct (next_symbol r.1) as (top_i & Htop & Hcase).
  { apply (length_cell_output rnn n_letters n_letters rnn_wf). }
  destruct r as [output hidden'] eqn:Er. cbn [fst snd] in *.
  assert (length hidden' = hidden_size rnn) as Hh'.
  { change hidden' with (output, hidden').2. rewrite <- Er.
    apply (length_cell_hidden rnn n_letters n_letters rnn_wf). }
  rewrite Htop. cbn [rbind].
  destruct Hcase as [->|(Hne & c & Hc & Hget & Hin)].
  - rewrite decide_True by done.
    exists []. split; [by apply greedy_end|]. by rewrite app_nil_r.
  - rewrite decide_False by done. rewrite Hget. cbn [rbind].
    rewrite Hin. cbn [rbind].
    assert (top_i < n_letters)%nat as Hlt by by eapply lookup_lt_Some.
    destruct (IH top_i [] hidden' (output_name ++ [c]) Hlt Hh')
      as (symbols & Hg & Hloop).
    exists (c :: symbols). split.
    + eapply greedy_symbol; [done|done|done| |exact Hg].
      rewrite (forward_cell rnn n_letters n_letters)
        by (done || apply length_one_hot).
      by destruct (cell rnn category_tensor (one_hot n_letters top_i) hidden').
    + etrans; [exact Hloop|]. by rewrite <- app_assoc.
Qed.

(** The second loop of the multi-letter cell decodes greedily from the
    scores it is entered with. *)
Lemma generate_loop_greedy (n : nat) (output hidden : list F)
    (output_name : pystr) :
  length output = n_letters ->
  length hidden = hidden_size rnn ->
  exists symbols,
    greedy_decoding rnn category_tensor n output hidden symbols /\
    generate_loop rnn category_tensor n (Some output) hidden output_name
    = Ok (output_name ++ symbols).
Proof using rnn_wf category_length.
  revert output hidden output_name.
  induction n as [|n IH]; intros output hidden output_name Ho Hh.
  { exists []. split; [constructor|]. simpl. by rewrite app_nil_r. }
  cbn [generate_loop read_global rbind].
  destruct (next_symbol output Ho) as (top_i & Htop & Hcase).
  rewrite Htop. cbn [rbind].
  destruct Hcase as [->|(Hne & c & Hc & Hget & Hin)].
  - rewrite decide_True by done.
    exists []. split; [by apply greedy_end|]. by rewrite app_nil_r.
  - rewrite decide_False by done. rewrite Hget. cbn [rbind].
    rewrite Hin. cbn [rbind]. rewrite getitem_head. cbn [rbind].
    assert (forward rnn category_tensor (one_hot n_letters top_i) hidden
            = Ok (cell rnn category_tensor (one_hot n_letters top_i) hidden))
      as Hf.
    { apply (forward_cell rnn n_letters n_letters);
        done || apply length_one_hot. }
    rewrite Hf. cbn [rbind].
    pose proof (length_cell_output rnn n_letters n_letters rnn_wf
                  category_tensor (one_hot n_letters top_i) hidden) as Ho'.
    pose proof (length_cell_hidden rnn n_letters n_letters rnn_wf
                  category_tensor (one_hot n_letters top_i) hidden) as Hh'.
    destruct (cell rnn category_tensor (one_hot n_letters top_i) hidden)
      as [output' hidden'].
    cbn [fst snd] in *.
    destruct (IH output' hidden' (output_name ++ [c]) Ho' Hh')
      as (symbols & Hg & Hloop).
    exists (c :: symbols). split.
    + by eapply greedy_symbol.
    + etrans; [exact Hloop|]. by rewrite <- app_assoc.
Qed.

Lemma warm_up_snoc (seed : pystr) (c : N) (s : option (list F) * list F) :
  warm_up rnn category_tensor (seed ++ [c]) s
  = (Some (cell rnn category_tensor (encode c)
             (warm_up rnn category_tensor seed s).2).1,
     (cell rnn category_tensor (encode c)
        (warm_up rnn category_tensor seed s).2).2).
Proof. unfold warm_up. by rewrite fold_left_app. Qed.

Lemma length_warm_up_hidden (seed : pystr) (s : option (list F) * list F) :
  length s.2 = hidden_size rnn ->
  length (warm_up rnn category_tensor seed s).2 = hidden_size rnn.
Proof using rnn_wf.
  revert s. induction seed as [|c seed IH]; intros s Hs; [done|].
  simpl. apply IH. simpl.
  apply (length_cell_hidden rnn n_letters n_letters rnn_wf).
Qed.

(** After a seed of at least one character the notebook-level [output]
    holds the scores of the last seed character. *)
Lemma warm_up_nonempty (seed : pystr) (s : option (list F) * list F) :
  seed <> [] ->
  length s.2 = hidden_size rnn ->
  exists output hidden,
    warm_up rnn category_tensor seed s = (Some output, hidden) /\
    length output = n_letters /\ length hidden = hidden_size rnn.
Proof using rnn_wf.
  intros Hne Hs.
  destruct (exists_last Hne) as (l & c & ->).
  rewrite warm_up_snoc. eexists _, _. split; [done|]. split.
  - apply (length_cell_output rnn n_letters n_letters rnn_wf).
  - apply (length_cell_hidden rnn n_letters n_letters rnn_wf).
Qed.

(** The first loop of the multi-letter cell over the characters [seed]
    that follow the characters [pre]. *)
Lemma warm_up_loop (pre seed : pystr) (s : option (list F) * list F) :
  length s.2 = hidden_size rnn ->
  for_each (seq (length pre) (length seed))
    (fun i '(_, hidden) =>
       let* letter := str_getitem (pre ++ seed) (Z.of_nat i) in
       let* x := inputTensor letter in
       let* x0 := getitem x 0 in
       let* (output, hidden) := forward rnn category_tensor x0 hidden in
       Ok (Some output, hidden))
    s
  = Ok (warm_up rnn category_tensor seed s).
Proof using rnn_wf category_length.
  revert pre s. induction seed as [|c seed IH]; intros pre [o h] Hh; [done|].
  simpl in Hh. cbn [length seq for_each].
  rewrite str_getitem_middle. cbn [rbind].
  rewrite inputTensor_eq. cbn [rbind List.map].
  rewrite getitem_head. cbn [rbind].
  rewrite (forward_cell rnn n_letters n_letters)
    by (done || apply length_encode).
  cbn [rbind].
  pose proof (length_cell_hidden rnn n_letters n_letters rnn_wf
                category_tensor (encode c) h) as Hh'.
  specialize (IH (pre ++ [c])).
  rewrite length_app in IH. cbn [length] in IH.
  rewrite Nat.add_1_r, <- app_assoc in IH. cbn [app] in IH.
  destruct (cell rnn category_tensor (encode c) h) as [o' h'] eqn:Ec.
  etrans; [apply (IH (Some o', h') Hh')|].
  unfold warm_up. cbn [fold_left snd]. by rewrite Ec.
Qed.

End Decoding.

(** *** The two generators *)

Lemma sample_word_greedy (rnn : RNN F) (max_length : nat) (c0 : N)
    (rest category : pystr) :
  RNN_wfb all_categories rnn n_letters n_letters = true ->
  category ∈ all_categories ->
  exists category_tensor symbols,
    categoryTensor all_categories category = Ok category_tensor /\
    greedy_decoding rnn category_tensor max_length
      (cell rnn category_tensor (encode c0) (zeros (hidden_size rnn))).1
      (cell rnn category_tensor (encode c0) (zeros (hidden_size rnn))).2
      symbols /\
    sample_word all_categories rnn max_length (c0 :: rest) category
    = Ok ((c0 :: rest) ++ symbols).
Proof.
  intros Hwf Hcat.
  destruct (categoryTensor_ok category Hcat) as (li & Hli & Htensor).
  destruct (sample_loop_greedy rnn Hwf (one_hot (n_categories all_categories) li)
              (length_one_hot _ _) max_length (symbol_index c0)
              (List.map encode rest) (zeros (hidden_size rnn)) (c0 :: rest)
              (symbol_index_lt c0) (length_zeros _))
    as (symbols & Hg & Hloop).
  eexists _, symbols. split; [exact Htensor|]. split; [exact Hg|].
  unfold sample_word. rewrite Htensor. cbn [rbind].
  rewrite inputTensor_eq. cbn [rbind]. exact Hloop.
Qed.

Lemma generate_greedy (rnn : RNN F) (max_length : nat)
    (output0 : option (list F)) (c0 : N) (rest category : pystr) :
  RNN_wfb all_categories rnn n_letters n_letters = true ->
  category ∈ all_categories ->
  exists category_tensor output hidden symbols,
    categoryTensor all_categories category = Ok category_tensor /\
    warm_up rnn category_tensor (c0 :: rest) (output0, zeros (hidden_size rnn))
    = (Some output, hidden) /\
    greedy_decoding rnn category_tensor max_length output hidden symbols /\
    generate all_categories rnn max_length output0 (c0 :: rest) category
    = Ok ((c0 :: rest) ++ symbols).
Proof.
  intros Hwf Hcat.
  destruct (categoryTensor_ok category Hcat) as (li & Hli & Htensor).
  set (ct := one_hot (n_categories all_categories) li) in *.
  assert (length ct = n_categories all_categories) as Hct
    by apply length_one_hot.
  destruct (warm_up_nonempty rnn Hwf ct (c0 :: rest)
              (output0, zeros (hidden_size rnn)))
    as (output & hidden & Hw & Ho & Hh); [done|apply length_zeros|].
  destruct (generate_loop_greedy rnn Hwf ct Hct max_length output hidden
              (c0 :: rest) Ho Hh) as (symbols & Hg & Hloop).
  exists ct, output, hidden, symbols.
  split; [exact Htensor|]. split; [exact Hw|]. split; [exact Hg|].
  unfold generate, initHidden, range. rewrite Htensor. cbn [rbind].
  rewrite (warm_up_loop rnn Hwf ct Hct [] (c0 :: rest)) by apply length_zeros.
  rewrite Hw. exact Hloop.
Qed.

(** *** What a returned name looks like, whatever the parameters *)

(** The loop returned the name it was entered with: no symbol. *)
Ltac no_symbols :=
  intros [= <-]; exists []; split; [by rewrite app_nil_r|apply not_elem_of_nil].

Lemma str_getitem_not_last (top_i : nat) (letter : pystr) :
  str_getitem all_letters (Z.of_nat top_i) = Ok letter ->
  top_i <> (n_letters - 1)%nat ->
  exists c, letter = [c] /\ c <> apostrophe.
Proof.
  unfold str_getitem, getitem. intros Hget Hne.
  destruct (decide (top_i < n_letters)%nat) as [Hlt|Hge].
  - rewrite norm_index_nonneg in Hget by done. cbn [rbind] in Hget.
    destruct (all_letters !! top_i) as [c|] eqn:Hc; cbn [rbind] in Hget; [|done].
    injection Hget as <-. exists c. split; [done|].
    intros ->. apply Hne.
    eapply (NoDup_lookup all_letters); [apply all_letters_NoDup|done|done].
  - rewrite norm_index_overflow in Hget by (unfold n_letters in Hge; lia).
    done.
Qed.

Lemma sample_loop_suffix (rnn : RNN F) (category_tensor : list F) (n : nat)
    (x : list (list F)) (hidden : list F) (output_name name : pystr) :
  sample_loop rnn category_tensor n x hidden output_name = Ok name ->
  exists symbols, name = output_name ++ symbols /\ apostrophe ∉ symbols.
Proof.
  revert x hidden output_name.
  induction n as [|n IH]; intros x hidden output_name; cbn [sample_loop].
  { no_symbols. }
  destruct (getitem x 0) as [x0|]; [cbn [rbind]|done].
  destruct (forward rnn category_tensor x0 hidden) as [[output hidden']|];
    [cbn [rbind]|done].
  destruct (argmax output) as [top_i|]; [cbn [rbind]|done].
  case_decide as Htop.
  { no_symbols. }
  destruct (str_getitem all_letters (Z.of_nat top_i)) as [letter|] eqn:Hget;
    [cbn [rbind]|done].
  destruct (str_getitem_not_last _ _ Hget Htop) as (c & -> & Hc).
  destruct (inputTensor [c]) as [x'|]; [cbn [rbind]|done].
  intros Hloop. destruct (IH _ _ _ Hloop) as (symbols & -> & Hs).
  exists (c :: symbols). split; [by rewrite <- app_assoc|].
  apply not_elem_of_cons. split; [done|done].
Qed.

Lemma generate_loop_suffix (rnn : RNN F) (category_tensor : list F) (n : nat)
    (output : option (list F)) (hidden : list F) (output_name name : pystr) :
  generate_loop rnn category_tensor n output hidden output_name = Ok name ->
  exists symbols, name = output_name ++ symbols /\ apostrophe ∉ symbols.
Proof.
  revert output hidden output_name.
  induction n as [|n IH]; intros output hidden output_name; cbn [generate_loop].
  { no_symbols. }
  destruct (read_global output) as [out|]; [cbn [rbind]|done].
  destruct (argmax out) as [top_i|]; [cbn [rbind]|done].
  case_decide as Htop.
  { no_symbols. }
  destruct (str_getitem all_letters (Z.of_nat top_i)) as [letter|] eqn:Hget;
    [cbn [rbind]|done].
  destruct (str_getitem_not_last _ _ Hget Htop) as (c & -> & Hc).
  destruct (inputTensor [c]) as [x'|]; [cbn [rbind]|done].
  destruct (getitem x' 0) as [x0|]; [cbn [rbind]|done].
  destruct (forward rnn category_tensor x0 hidden) as [[output' hidden']|];
    [cbn [rbind]|done].
  intros Hloop. destruct (IH _ _ _ Hloop) as (symbols & -> & Hs).
  exists (c :: symbols). split; [by rewrite <- app_assoc|].
  apply not_elem_of_cons. split; [done|done].
Qed.

Lemma sample_word_suffix (rnn : RNN F) (max_length : nat)
    (start_letter category name : pystr) :
  sample_word all_categories rnn max_length start_letter category = Ok name ->
  exists symbols, name = start_letter ++ symbols /\ apostrophe ∉ symbols.
Proof.
  unfold sample_word.
  destruct (categoryTensor all_categories category) as [ct|]; [cbn [rbind]|done].
  destruct (inputTensor start_letter) as [x|]; [cbn [rbind]|done].
  apply sample_loop_suffix.
Qed.

Lemma generate_suffix (rnn : RNN F) (max_length : nat)
    (output0 : option (list F)) (start_letters category name : pystr) :
  generate all_categories rnn max_length output0 start_letters category
  = Ok name ->
  exists symbols, name = start_letters ++ symbols /\ apostrophe ∉ symbols.
Proof.
  unfold generate.
  destruct (categoryTensor all_categories category) as [ct|]; [cbn [rbind]|done].
  destruct (for_each _ _ _) as [[output hidden]|]; [cbn [rbind]|done].
  apply generate_loop_suffix.
Qed.

(** *** The statements about generation *)

(** C6.  One step of the generation cell, for a category row of length
    [C], an input row of length [V] and a hidden row of length [H]:
    the three are joined into a row of length [C + V + H]; [i2h]
    projects it to the new hidden state (length [H]) and [i2o] to an
    intermediate output (length [V]); the new hidden state joined with
    the intermediate output is projected by [o2o] back to length [V],
    and that row is returned with the new hidden state. *)
Theorem forward_three_projections (rnn : RNN F) (V : nat)
    (category x hidden : list F) :
  RNN_wfb all_categories rnn V V = true ->
  length category = n_categories all_categories ->
  length x = V ->
  length hidden = hidden_size rnn ->
  let input_combined := category ++ x ++ hidden in
  let new_hidden := affine (i2h rnn) input_combined in
  let intermediate := affine (i2o rnn) input_combined in
  let output := affine (o2o rnn) (new_hidden ++ intermediate) in
  length input_combined = (n_categories all_categories + V + hidden_size rnn)%nat /\
  length new_hidden = hidden_size rnn /\
  length intermediate = V /\
  length output = V /\
  forward rnn category x hidden = Ok (output, new_hidden).
Proof.
  intros Hwf Hc Hx Hh. cbv zeta.
  destruct (gen_wf_parts rnn V V Hwf)
    as (Wh & Wi & Wo & _ & Eh & _ & Ei & _ & Eo).
  split; [rewrite !length_app; lia|].
  split; [by rewrite length_affine|].
  split; [by rewrite length_affine|].
  split; [by rewrite length_affine|].
  by apply (forward_cell rnn V V).
Qed.

(** C3.  For a category of the category set and a seed of at least one
    character, both generators return the seed followed by the symbols
    of a greedy decoding ([greedy_decoding]): every iteration takes the
    position of the largest score; at the last position it stops
    without a symbol; otherwise it appends the symbol of that position
    and feeds its one-hot row to the cell with the current hidden
    state.  The multi-letter cell starts from the scores left by the
    whole seed, [sample_word] from those of the first seed character. *)
Theorem generation_is_greedy (rnn : RNN F) (max_length : nat)
    (output0 : option (list F)) (c0 : N) (rest category : pystr) :
  RNN_wfb all_categories rnn n_letters n_letters = true ->
  category ∈ all_categories ->
  let seed := c0 :: rest in
  let h0 := zeros (hidden_size rnn) in
  exists category_tensor,
    categoryTensor all_categories category = Ok category_tensor /\
    (exists output hidden symbols,
       warm_up rnn category_tensor seed (output0, h0) = (Some output, hidden) /\
       greedy_decoding rnn category_tensor max_length output hidden symbols /\
       generate all_categories rnn max_length output0 seed category
       = Ok (seed ++ symbols)) /\
    (exists symbols,
       greedy_decoding rnn category_tensor max_length
         (cell rnn category_tensor (encode c0) h0).1
         (cell rnn category_tensor (encode c0) h0).2 symbols /\
       sample_word all_categories rnn max_length seed category
       = Ok (seed ++ symbols)).
Proof.
  intros Hwf Hcat seed h0.
  destruct (generate_greedy rnn max_length output0 c0 rest category Hwf Hcat)
    as (ct & output & hidden & symbols & Hct & Hw & Hg & Hgen).
  destruct (sample_word_greedy rnn max_length c0 rest category Hwf Hcat)
    as (ct' & symbols' & Hct' & Hg' & Hsample).
  rewrite Hct in Hct'. injection Hct' as <-.
  exists ct. split; [done|]. split; [by exists output, hidden, symbols|].
  by exists symbols'.
Qed.

(** C4.  For a category of the category set, a seed of [s >= 1]
    characters and any [max_length], both generators return a name (no
    exception), and its length lies between [s] and [s + max_length]. *)
Theorem generation_returns_bounded (rnn : RNN F) (max_length : nat)
    (output0 : option (list F)) (c0 : N) (rest category : pystr) :
  RNN_wfb all_categories rnn n_letters n_letters = true ->
  category ∈ all_categories ->
  let seed := c0 :: rest in
  (exists name,
     generate all_categories rnn max_length output0 seed category = Ok name /\
     (length seed <= length name <= length seed + max_length)%nat) /\
  (exists name,
     sample_word all_categories rnn max_length seed category = Ok name /\
     (length seed <= length name <= length seed + max_length)%nat).
Proof.
  intros Hwf Hcat seed.
  destruct (generate_greedy rnn max_length output0 c0 rest category Hwf Hcat)
    as (ct & output & hidden & symbols & _ & _ & Hg & Hgen).
  destruct (sample_word_greedy rnn max_length c0 rest category Hwf Hcat)
    as (ct' & symbols' & _ & Hg' & Hsample).
  apply greedy_decoding_length in Hg, Hg'. subst seed.
  split; eexists; (split; [eassumption|]); rewrite length_app; lia.
Qed.

(** C2.  The vocabulary of the generation notebook has 57 entries and
    no entry of its own for the end marker: the end index
    [n_letters - 1] is the position of the apostrophe.  So whenever
    either generator returns a name, the name is the seed followed by
    symbols none of which is an apostrophe; an iteration whose largest
    score is at the apostrophe's position returns the name built so
    far; and [targetTensor] ends every line's targets with that same
    position. *)
Theorem apostrophe_is_end_marker (rnn : RNN F) (max_length : nat)
    (output0 : option (list F)) (seed category name : pystr) :
  sample_word all_categories rnn max_length seed category = Ok name \/
  generate all_categories rnn max_length output0 seed category = Ok name ->
  n_letters = 57%nat /\
  all_letters !! (n_letters - 1)%nat = Some apostrophe /\
  find all_letters [apostrophe] = Z.of_nat n_letters - 1 /\
  (exists symbols, name = seed ++ symbols /\ apostrophe ∉ symbols) /\
  (forall category_tensor n x0 rows hidden output hidden' output_name,
     forward rnn category_tensor x0 hidden = Ok (output, hidden') ->
     argmax output = Ok (n_letters - 1)%nat ->
     sample_loop rnn category_tensor (S n) (x0 :: rows) hidden output_name
     = Ok output_name) /\
  (forall category_tensor n output hidden output_name,
     argmax output = Ok (n_letters - 1)%nat ->
     generate_loop rnn category_tensor (S n) (Some output) hidden output_name
     = Ok output_name) /\
  (forall line, exists targets,
     targetTensor line = Ok (targets ++ [Z.of_nat n_letters - 1])).
Proof.
  intros Hname.
  split; [done|]. split; [done|]. split; [done|]. split.
  { destruct Hname as [Hs|Hg];
      [by eapply sample_word_suffix|by eapply generate_suffix]. }
  split.
  { intros ct n x0 rows hidden output hidden' output_name Hf Htop.
    cbn [sample_loop]. rewrite getitem_head. cbn [rbind].
    rewrite Hf. cbn [rbind]. rewrite Htop. cbn [rbind].
    by rewrite decide_True. }
  split.
  { intros ct n output hidden output_name Htop.
    cbn [generate_loop read_global rbind]. rewrite Htop. cbn [rbind].
    by rewrite decide_True. }
  intros line. eexists. apply targetTensor_eq.
Qed.

End LanguageModelFacts.

(** * Training: proofs *)

Section TrainingFacts.
Import LanguageModel.
Context {F : Type} `{Scalar F}.
Variable all_categories : list pystr.
Variable autograd : list (op F) -> RNN F -> RNN F.
Variable optimizer : SGD F.

Lemma criterion_ok (output : list F) (target : Z) :
  0 <= target < Z.of_nat (length output) ->
  criterion output target = Ok (cross_entropy output target).
Proof.
  intros Ht. unfold criterion, cross_entropy. rewrite decide_True by done.
  unfold getitem, softmax. rewrite length_map.
  rewrite <- (Z2Nat.id target) at 1 by lia.
  rewrite norm_index_nonneg by lia. cbn [rbind].
  destruct (lookup_lt_is_Some_2
              (List.map
                 (fun v => fdiv (fexp v) (foldr fadd fzero (List.map fexp output)))
                 output) (Z.to_nat target)) as [p Hp].
  { rewrite length_map. lia. }
  by rewrite Hp.
Qed.

Lemma fold_loss_add_tensor (ls : list F) (v : F) :
  fold_left loss_add ls (loss_tensor v) = loss_tensor (fold_left fadd ls v).
Proof. revert v. induction ls as [|l ls IH]; intros v; [done|apply IH]. Qed.

Lemma fold_loss_add_zero (l : F) (ls : list F) :
  fold_left loss_add (l :: ls) int_zero
  = loss_tensor (fold_left fadd (l :: ls) fzero).
Proof. simpl. apply fold_loss_add_tensor. Qed.

Lemma length_teacher_forcing (rnn : RNN F) category xs (ts : list Z) hidden :
  length xs = length ts ->
  length (teacher_forcing rnn category xs ts hidden) = length xs.
Proof.
  revert ts hidden. induction xs as [|x xs IH]; intros [|t ts] hidden Hlen;
    try done.
  simpl. f_equal. apply IH. by injection Hlen.
Qed.

Lemma teacher_forcing_inputs (rnn : RNN F) category xs (ts : list Z) hidden :
  length xs = length ts ->
  List.map tf_input (teacher_forcing rnn category xs ts hidden) = xs /\
  List.map tf_target (teacher_forcing rnn category xs ts hidden) = ts.
Proof.
  revert ts hidden. induction xs as [|x xs IH]; intros [|t ts] hidden Hlen;
    try done.
  cbn [teacher_forcing List.map tf_input tf_target]. injection Hlen as Hlen.
  destruct (IH ts (cell rnn category x hidden).2 Hlen) as [-> ->]. done.
Qed.

(** Every step starts from the hidden state the step before it
    produced, the first one from [hidden]. *)
Lemma teacher_forcing_chain (rnn : RNN F) category xs (ts : list Z) hidden
    (i : nat) (s s' : tf_step F) :
  teacher_forcing rnn category xs ts hidden !! i = Some s ->
  teacher_forcing rnn category xs ts hidden !! S i = Some s' ->
  tf_hidden s' = (cell rnn category (tf_input s) (tf_hidden s)).2 /\
  tf_output s = (cell rnn category (tf_input s) (tf_hidden s)).1.
Proof.
  revert xs ts hidden. induction i as [|i IH]; intros [|x xs] [|t ts] hidden;
    try done.
  - cbn [teacher_forcing lookup list_lookup]. intros [= <-].
    destruct xs as [|x' xs], ts as [|t' ts]; try done.
    cbn [teacher_forcing lookup list_lookup]. by intros [= <-].
  - cbn [teacher_forcing lookup list_lookup]. apply IH.
Qed.

Section TrainLoop.
Variable rnn : RNN F.
Hypothesis rnn_wf : RNN_wfb all_categories rnn n_letters n_letters = true.
Variable category_tensor : list F.
Hypothesis category_length :
  length category_tensor = n_categories all_categories.

(** The loop of [train] over the rows [xs] and targets [ts] that follow
    the rows [pre_x] and targets [pre_t] already used. *)
Lemma train_loop (pre_x xs : list (list F)) (pre_t ts : list Z)
    (output : option (list F)) (hidden : list F) (loss : pyloss F)
    (tape : list (op F)) :
  length pre_x = length pre_t ->
  length xs = length ts ->
  Forall (fun x => length x = n_letters) xs ->
  Forall (fun t => 0 <= t < Z.of_nat n_letters) ts ->
  length hidden = hidden_size rnn ->
  let steps := teacher_forcing rnn category_tensor xs ts hidden in
  exists hidden',
    for_each (seq (length pre_x) (length xs))
      (fun i '(_, hidden, loss, tape) =>
         let* x := getitem (pre_x ++ xs) (Z.of_nat i) in
         let* (output, hidden') := forward rnn category_tensor x hidden in
         let* target := getitem (pre_t ++ ts) (Z.of_nat i) in
         let* l := criterion output target in
         Ok (Some output, hidden', loss_add loss l,
             tape ++ [op_rnn category_tensor x hidden;
                      op_criterion output target]))
      (output, hidden, loss, tape)
    = Ok (from_option (fun s => Some (tf_output s)) output (last steps),
          hidden',
          fold_left loss_add
            (List.map (fun s => cross_entropy (tf_output s) (tf_target s)) steps)
            loss,
          tape ++ flat_map (tf_ops category_tensor) steps).
Proof using rnn_wf category_length.
  revert pre_x pre_t ts output hidden loss tape.
  induction xs as [|x xs IH];
    intros pre_x pre_t [|t ts] output hidden loss tape Hpre Hlen Hxs Hts Hh;
    try done.
  { exists hidden. simpl. by rewrite app_nil_r. }
  apply Forall_cons in Hxs as [Hx Hxs]. apply Forall_cons in Hts as [Ht Hts].
  injection Hlen as Hlen.
  cbn [length seq for_each].
  rewrite getitem_middle. cbn [rbind].
  rewrite (forward_cell all_categories rnn n_letters n_letters) by done.
  cbn [rbind].
  pose proof (length_cell_output all_categories rnn n_letters n_letters rnn_wf
                category_tensor x hidden) as Ho.
  pose proof (length_cell_hidden all_categories rnn n_letters n_letters rnn_wf
                category_tensor x hidden) as Hh'.
  cbn [teacher_forcing].
  destruct (cell rnn category_tensor x hidden) as [out h1]. cbn [fst snd] in *.
  rewrite Hpre, getitem_middle. cbn [rbind].
  rewrite criterion_ok by (rewrite Ho; done). cbn [rbind].
  specialize (IH (pre_x ++ [x]) (pre_t ++ [t]) ts (Some out) h1
                 (loss_add loss (cross_entropy out t))
                 (tape ++ [op_rnn category_tensor x hidden; op_criterion out t])).
  rewrite !length_app in IH. cbn [length] in IH.
  rewrite !Nat.add_1_r, <- !app_assoc in IH. cbn [app] in IH.
  destruct IH as (hidden' & IH); [lia|done|done|done|done|].
  exists hidden'. rewrite <- Hpre. etrans; [exact IH|].
  f_equal. repeat (apply pair_equal_spec; split); try done.
  rewrite last_cons.
  by destruct (last (teacher_forcing rnn category_tensor xs ts h1)).
Qed.

End TrainLoop.

Lemma last_map {A B} (f : A -> B) (l : list A) :
  last (List.map f l) = option_map f (last l).
Proof.
  induction l as [|a l IH]; [done|].
  cbn [List.map]. rewrite !last_cons, IH. by destruct (last l).
Qed.

Lemma find_in_vocabulary (c : N) :
  c ∈ all_letters -> 0 <= find all_letters [c] < Z.of_nat n_letters.
Proof.
  intros Hc. apply list_elem_of_lookup_1 in Hc as [k Hk].
  rewrite (find_all_letters_lookup c k) by done.
  apply lookup_lt_Some in Hk. unfold n_letters. lia.
Qed.

(** C5, for a word of at least one character.  On a word of [n >= 1]
    vocabulary characters and a category of the category set, [train]
    runs [n] steps of the cell, the step [i] on the one-hot row of the
    word's own character [i] and on the hidden state of the step
    before ([teacher_forcing]); each step's output is scored by the
    criterion against the position of the next character, the last
    step against the end index; the [n] losses are added up from [0];
    autograd differentiates once, the operations of all [n] steps; and
    the parameters are replaced once, by those of one update of plain
    gradient descent. *)
Theorem train_one_update (w : world F) (category : pystr) (c0 : N)
    (rest : pystr) :
  RNN_wfb all_categories (params w) n_letters n_letters = true ->
  category ∈ all_categories ->
  Forall (fun c => c ∈ all_letters) (c0 :: rest) ->
  let line := c0 :: rest in
  let xs := List.map encode line in
  let ts := List.map (fun c => find all_letters [c]) rest
            ++ [Z.of_nat n_letters - 1] in
  exists category_tensor,
    randomTrainingExample all_categories category line
    = Ok (category_tensor, xs, ts) /\
    let steps := teacher_forcing (params w) category_tensor xs ts
                   (zeros (hidden_size (params w))) in
    let tape := flat_map (tf_ops category_tensor) steps in
    let loss :=
      fold_left fadd
        (List.map (fun s => cross_entropy (tf_output s) (tf_target s)) steps)
        fzero in
    let g := autograd tape (params w) in
    length steps = length line /\
    List.map tf_input steps = xs /\
    List.map tf_target steps = ts /\
    exists s_last,
      last steps = Some s_last /\
      tf_target s_last = Z.of_nat n_letters - 1 /\
      train autograd optimizer w category_tensor xs ts
      = (Ok (tf_output s_last, fdiv loss (of_nat (length line))),
         {| params := sgd_update optimizer (params w) g; grads := Some g |}).
Proof.
  intros Hwf Hcat Hline line xs ts.
  destruct (categoryTensor_ok all_categories category Hcat)
    as (li & Hli & Htensor).
  set (ct := one_hot (n_categories all_categories) li) in *.
  assert (length ct = n_categories all_categories) as Hct
    by apply length_one_hot.
  exists ct. split.
  { unfold randomTrainingExample. rewrite Htensor. cbn [rbind].
    rewrite inputTensor_eq. cbn [rbind]. by rewrite targetTensor_eq. }
  assert (length xs = length ts) as Hlen.
  { unfold xs, ts, line. rewrite length_app, !length_map. simpl. lia. }
  intros steps tape loss g.
  destruct (teacher_forcing_inputs (params w) ct xs ts
              (zeros (hidden_size (params w))) Hlen) as [Hin Htg].
  assert (length steps = length line) as Hsteps.
  { unfold steps. rewrite length_teacher_forcing by done.
    unfold xs. by rewrite length_map. }
  split; [done|]. split; [done|]. split; [done|].
  destruct (last steps) as [s_last|] eqn:Hlast; cycle 1.
  { apply last_None in Hlast. by rewrite Hlast in Hsteps. }
  exists s_last. split; [done|]. split.
  { pose proof (last_map tf_target steps) as Hm.
    rewrite Hlast in Hm. fold steps in Htg. rewrite Htg in Hm.
    unfold ts in Hm. rewrite last_snoc in Hm. by injection Hm. }
  destruct (train_loop (params w) Hwf ct Hct [] xs [] ts None
              (zeros (hidden_size (params w))) int_zero [])
    as (hidden' & Hloop); [done|done| | |apply length_zeros|].
  { apply Forall_forall. intros x Hx.
    apply list_elem_of_In, in_map_iff in Hx as (d & <- & _).
    apply length_encode. }
  { apply Forall_app. split; [|by apply Forall_singleton].
    apply Forall_forall. intros t Ht.
    apply list_elem_of_In, in_map_iff in Ht as (d & <- & Hd).
    apply find_in_vocabulary. apply Forall_cons in Hline as [_ Hrest].
    rewrite Forall_forall in Hrest. by apply Hrest, list_elem_of_In. }
  cbn [length app] in Hloop. fold steps in Hloop. rewrite Hlast in Hloop.
  cbn [from_option] in Hloop.
  unfold train, range. cbn [zero_grad params].
  unfold initHidden. rewrite Hloop.
  destruct steps as [|s0 steps'] eqn:Es; [done|].
  cbn [List.map]. rewrite fold_loss_add_zero.
  cbn [backward step zero_grad params grads read_local rbind].
  unfold xs at 1. rewrite length_map. done.
Qed.

End TrainingFacts.

(** * The encoders on characters outside the vocabulary *)

Section UnknownCharacters.
Context {F : Type} `{Scalar F}.

Lemma encode_absent (c : N) :
  c ∉ all_letters -> encode (F := F) c = one_hot n_letters 56.
Proof. intros Hc. unfold encode. by rewrite symbol_index_absent. Qed.

Lemma encode_apostrophe : encode (F := F) apostrophe = one_hot n_letters 56.
Proof. reflexivity. Qed.

(** C1, as the code has it.  For a character outside the vocabulary no
    encoder raises: [letterToTensor] and [inputTensor] return a row of
    length [n_letters] for it, and [lineToTensor] and [inputTensor]
    return one row per character for any line that contains it. *)
Theorem unknown_character_is_encoded (c : N) (pre post : pystr) :
  c ∉ all_letters ->
  (exists t : list F,
     Classification.letterToTensor [c] = Ok t /\ length t = n_letters) /\
  (exists t : list F,
     LanguageModel.inputTensor [c] = Ok [t] /\ length t = n_letters) /\
  (exists rows : list (list F),
     Classification.lineToTensor (pre ++ c :: post) = Ok rows /\
     length rows = length (pre ++ c :: post)) /\
  (exists rows : list (list F),
     LanguageModel.inputTensor (pre ++ c :: post) = Ok rows /\
     length rows = length (pre ++ c :: post)).
Proof.
  intros _. split; [|split; [|split]].
  - exists (encode c). split; [apply letterToTensor_eq|apply length_encode].
  - exists (encode c). split; [apply (inputTensor_eq [c])|apply length_encode].
  - eexists. split; [apply lineToTensor_eq|apply length_map].
  - eexists. split; [apply inputTensor_eq|apply length_map].
Qed.

(** C10.  For a character [c] outside the vocabulary [find] answers
    [-1], so the [1] is written at the last position, 56:
    [letterToTensor(c)] returns the one-hot row of position 56, which
    is also the encoding of the apostrophe, and in the tensor that
    [inputTensor] or [lineToTensor] returns for a line containing [c]
    the row of [c] is that same row, so that the line and the line with
    an apostrophe in place of [c] have the same tensor. *)
Theorem unknown_character_is_apostrophe (c : N) (pre post : pystr) :
  c ∉ all_letters ->
  let last_row : list F := one_hot n_letters 56 in
  find all_letters [c] = -1 /\
  Classification.letterToTensor [c] = Ok last_row /\
  Classification.letterToTensor [apostrophe] = Ok last_row /\
  last_row !! 56%nat = Some fone /\
  (forall j, (j < n_letters)%nat -> j <> 56%nat -> last_row !! j = Some fzero) /\
  (exists rows_pre rows_post,
     length rows_pre = length pre /\
     LanguageModel.inputTensor (pre ++ c :: post)
     = Ok (rows_pre ++ last_row :: rows_post) /\
     Classification.lineToTensor (pre ++ c :: post)
     = Ok (rows_pre ++ last_row :: rows_post)) /\
  LanguageModel.inputTensor (F := F) (pre ++ c :: post)
  = LanguageModel.inputTensor (pre ++ apostrophe :: post) /\
  Classification.lineToTensor (F := F) (pre ++ c :: post)
  = Classification.lineToTensor (pre ++ apostrophe :: post).
Proof.
  intros Hc last_row.
  split; [by apply find_all_letters_absent|].
  split; [by rewrite letterToTensor_eq, encode_absent|].
  split; [by rewrite letterToTensor_eq, encode_apostrophe|].
  split; [apply one_hot_lookup_eq; rewrite n_letters_eq; lia|].
  split; [intros j Hj Hne; by apply one_hot_lookup_ne|].
  split.
  - exists (List.map encode pre), (List.map encode post).
    split; [apply length_map|].
    rewrite inputTensor_eq, lineToTensor_eq, map_app. cbn [List.map].
    by rewrite encode_absent.
  - rewrite !inputTensor_eq, !lineToTensor_eq, !map_app. cbn [List.map].
    by rewrite encode_absent, encode_apostrophe.
Qed.

End UnknownCharacters.

(** * Evaluation on the concrete instances *)

Section Evaluation.
Import Examples.

Example sample_word_B :
  LanguageModel.sample_word categories generator 20 (lit "B") (lit "German")
  = Ok (lit "BCDEFGHIJKLMNOPQRSTUV").
Proof. vm_compute. reflexivity. Qed.

Example sample_word_W :
  LanguageModel.sample_word categories generator 20 (lit "W") (lit "German")
  = Ok (lit "WXYZ .,;").
Proof. vm_compute. reflexivity. Qed.

Example generate_Mer :
  LanguageModel.generate categories generator 20 None (lit "Mer") (lit "German")
  = Ok (lit "Merstuvwxyz" ++ lit "ABCDEFGHIJKL").
Proof. vm_compute. reflexivity. Qed.

Example sample_word_empty_seed :
  LanguageModel.sample_word categories generator 20 [] (lit "German")
  = Raise IndexError.
Proof. vm_compute. reflexivity. Qed.

Example sample_word_unknown_category :
  LanguageModel.sample_word categories generator 20 (lit "B") (lit "Dutch")
  = Raise ValueError.
Proof. vm_compute. reflexivity. Qed.

Example letterToTensor_J :
  Classification.letterToTensor (F := Z) (lit "J") = Ok (one_hot 57 35).
Proof. vm_compute. reflexivity. Qed.

Example train_unknown_character :
  LanguageModel.randomTrainingExample categories (lit "German") (lit "a-")
  = Ok (one_hot 3 1, [one_hot 57 0; one_hot 57 56], [-1; 56]) /\
  LanguageModel.train gradient optimizer shared (one_hot 3 1)
    [one_hot 57 0; one_hot 57 56] [-1; 56]
  = (Raise IndexError, shared).
Proof. split; vm_compute; reflexivity. Qed.

Example targetTensor_Kim :
  LanguageModel.targetTensor (lit "Kim") = Ok [8; 12; 56].
Proof. vm_compute. reflexivity. Qed.

End Evaluation.

(** * The statements at concrete inputs *)

Section Instances.
Import Examples.

(** The hyphen is encoded like the apostrophe; no encoder raises. *)
Lemma unknown_character_no_error :
  (hyphen ∉ all_letters) /\
  Classification.letterToTensor (F := Z) [hyphen] = Ok (one_hot 57 56) /\
  LanguageModel.inputTensor (F := Z) [hyphen] = Ok [one_hot 57 56].
Proof.
  split; [|split; vm_compute; reflexivity].
  by_evaluation.
Qed.

(** [predict] on the empty line raises instead of returning scores. *)
Lemma predict_empty_line_raises :
  Classification.predict categories classifier [] 5 = Raise UnboundLocalError.
Proof. vm_compute. reflexivity. Qed.

(** [train] on the empty word: no step, no loss, and the call ends in
    an exception at [loss.backward()] with the parameters untouched. *)
Lemma train_empty_word :
  LanguageModel.randomTrainingExample categories (lit "German") []
  = Ok (one_hot 3 1, [], [56]) /\
  LanguageModel.train gradient optimizer shared (one_hot 3 1) [] [56]
  = (Raise AttributeError, shared).
Proof. split; vm_compute; reflexivity. Qed.

Lemma unknown_character_is_encoded_witness :
  (hyphen ∉ all_letters) /\
  exists t : list Z,
    Classification.letterToTensor [hyphen] = Ok t /\ length t = n_letters.
Proof.
  assert (hyphen ∉ all_letters) as Habsent.
  { by_evaluation. }
  split; [exact Habsent|].
  exact (proj1 (unknown_character_is_encoded hyphen [] [] Habsent)).
Defined.

Lemma unknown_character_is_apostrophe_witness :
  (hyphen ∉ all_letters) /\
  Classification.letterToTensor (F := Z) [hyphen] = Ok (one_hot n_letters 56) /\
  LanguageModel.inputTensor (F := Z) (lit "Abdul" ++ hyphen :: lit "Rahman")
  = LanguageModel.inputTensor (lit "Abdul" ++ apostrophe :: lit "Rahman").
Proof.
  assert (hyphen ∉ all_letters) as Habsent.
  { by_evaluation. }
  split; [exact Habsent|].
  destruct (unknown_character_is_apostrophe (F := Z) hyphen (lit "Abdul")
              (lit "Rahman") Habsent) as (_ & Hl & _ & _ & _ & _ & Hi & _).
  split; [exact Hl|exact Hi].
Defined.

Lemma apostrophe_is_end_marker_witness :
  LanguageModel.sample_word categories generator 20 (lit "W") (lit "German")
  = Ok (lit "WXYZ .,;") /\
  exists symbols, lit "WXYZ .,;" = lit "W" ++ symbols /\ apostrophe ∉ symbols.
Proof.
  assert (LanguageModel.sample_word categories generator 20 (lit "W")
            (lit "German") = Ok (lit "WXYZ .,;")) as Hrun
    by (vm_compute; reflexivity).
  split; [exact Hrun|].
  destruct (apostrophe_is_end_marker categories generator 20 None (lit "W")
              (lit "German") (lit "WXYZ .,;") (or_introl Hrun))
    as (_ & _ & _ & Hs & _).
  exact Hs.
Defined.

Lemma generation_is_greedy_witness :
  LanguageModel.RNN_wfb categories generator n_letters n_letters = true /\
  (lit "German" ∈ categories) /\
  exists category_tensor output hidden symbols,
    LanguageModel.warm_up generator category_tensor (lit "Mer")
      (None, zeros 128) = (Some output, hidden) /\
    LanguageModel.greedy_decoding generator category_tensor 20 output hidden
      symbols /\
    LanguageModel.generate categories generator 20 None (lit "Mer")
      (lit "German") = Ok (lit "Mer" ++ symbols).
Proof.
  assert (LanguageModel.RNN_wfb categories generator n_letters n_letters
          = true) as Hwf by (vm_compute; reflexivity).
  assert (lit "German" ∈ categories) as Hin.
  { by_evaluation. }
  split; [exact Hwf|]. split; [exact Hin|].
  destruct (generation_is_greedy categories generator 20 None
              (N_of_ascii "M"%char) (lit "er") (lit "German") Hwf Hin)
    as (ct & _ & (output & hidden & symbols & Hw & Hg & Hgen) & _).
  exists ct, output, hidden, symbols.
  split; [exact Hw|]. split; [exact Hg|exact Hgen].
Defined.

Lemma generation_returns_bounded_witness :
  LanguageModel.RNN_wfb categories generator n_letters n_letters = true /\
  (lit "German" ∈ categories) /\
  exists name,
    LanguageModel.sample_word categories generator 20 (lit "B") (lit "German")
    = Ok name /\
    (1 <= length name <= 1 + 20)%nat.
Proof.
  assert (LanguageModel.RNN_wfb categories generator n_letters n_letters
          = true) as Hwf by (vm_compute; reflexivity).
  assert (lit "German" ∈ categories) as Hin.
  { by_evaluation. }
  split; [exact Hwf|]. split; [exact Hin|].
  exact (proj2 (generation_returns_bounded categories generator 20 None
                  (N_of_ascii "B"%char) [] (lit "German") Hwf Hin)).
Defined.

Lemma train_one_update_witness :
  LanguageModel.RNN_wfb categories (LanguageModel.params shared) n_letters
    n_letters = true /\
  (lit "German" ∈ categories) /\
  Forall (fun c => c ∈ all_letters) (lit "Mer") /\
  exists category_tensor,
    LanguageModel.randomTrainingExample categories (lit "German") (lit "Mer")
    = Ok (category_tensor, List.map encode (lit "Mer"), [4; 17; 56]) /\
    length (LanguageModel.teacher_forcing (LanguageModel.params shared)
              category_tensor (List.map encode (lit "Mer")) [4; 17; 56]
              (zeros 128)) = 3%nat.
Proof.
  assert (LanguageModel.RNN_wfb categories (LanguageModel.params shared)
            n_letters n_letters = true) as Hwf by (vm_compute; reflexivity).
  assert (lit "German" ∈ categories) as Hin.
  { by_evaluation. }
  assert (Forall (fun c => c ∈ all_letters) (lit "Mer")) as Hline.
  { by_evaluation. }
  split; [exact Hwf|]. split; [exact Hin|]. split; [exact Hline|].
  destruct (train_one_update categories gradient optimizer shared
              (lit "German") (N_of_ascii "M"%char) (lit "er") Hwf Hin Hline)
    as (ct & Hex & Hlen & _).
  exists ct. split; [exact Hex|exact Hlen].
Defined.

Lemma forward_three_projections_witness :
  LanguageModel.RNN_wfb categories generator 57 57 = true /\
  exists output new_hidden,
    LanguageModel.forward generator (one_hot 3 1) (one_hot 57 27) (zeros 128)
    = Ok (output, new_hidden) /\
    length output = 57%nat /\ length new_hidden = 128%nat.
Proof.
  assert (LanguageModel.RNN_wfb categories generator 57 57 = true) as Hwf
    by (vm_compute; reflexivity).
  split; [exact Hwf|].
  destruct (forward_three_projections categories generator 57
              (one_hot 3 1) (one_hot 57 27) (zeros 128) Hwf
              eq_refl eq_refl eq_refl)
    as (_ & Hh & _ & Ho & Hf).
  eexists _, _. split; [exact Hf|]. split; [exact Ho|exact Hh].
Defined.

Lemma predict_final_output_witness :
  Classification.RNN_wfb classifier n_letters
    (Classification.n_categories categories) = true /\
  Classification.predict categories classifier (lit "Kim") 3
  = Classification.top_categories categories
      (affine (Classification.i2o classifier)
         (encode (N_of_ascii "m"%char)
          ++ Classification.hidden_after classifier
               (List.map encode (lit "Ki")) (zeros 128)))
      3.
Proof.
  assert (Classification.RNN_wfb classifier n_letters
            (Classification.n_categories categories) = true) as Hwf
    by (vm_compute; reflexivity).
  split; [exact Hwf|].
  exact (proj2 (proj2 (predict_final_output categories classifier (lit "Ki")
                         (N_of_ascii "m"%char) 3 Hwf))).
Defined.

Lemma letter_round_trip_witness :
  (N_of_ascii "J"%char ∈ all_letters) /\
  exists (t : list Z) (k : nat),
    Classification.letterToTensor (lit "J") = Ok t /\ argmax t = Ok k /\
    str_getitem all_letters (Z.of_nat k) = Ok (lit "J").
Proof.
  assert (N_of_ascii "J"%char ∈ all_letters) as Hin.
  { by_evaluation. }
  split; [exact Hin|].
  exact (letter_round_trip (F := Z) (N_of_ascii "J"%char)
           eq_refl eq_refl eq_refl Hin).
Defined.

End Instances.

(** * Further properties of the encoders *)

Section EncoderProperties.
Context {F : Type} `{Scalar F}.

(** [find] of any string answers [-1] or a position of the searched
    string, unless both are empty. *)
Lemma find_from_bound (s sub : pystr) (i : Z) :
  s <> [] \/ sub <> [] ->
  find_from s sub i = -1 \/ i <= find_from s sub i < i + Z.of_nat (length s).
Proof.
  revert i. induction s as [|d s IH]; intros i Hne.
  - destruct sub as [|c sub]; [by destruct Hne|by left].
  - cbn [find_from length].
    destruct (startswith (d :: s) sub) eqn:Hs; [right; lia|].
    assert (sub <> []) as Hsub by (intros ->; done).
    destruct (IH (i + 1) (or_intror Hsub)) as [->|Hr]; [by left|right; lia].
Qed.

Lemma find_empty (s : pystr) : s <> [] -> find s [] = 0.
Proof. by destruct s. Qed.

Lemma all_letters_nonempty : all_letters <> [].
Proof. done. Qed.

(** X1.  [letterToTensor] returns normally for every string, of any
    length: the result is a one-hot row of length [n_letters].  The
    empty string is encoded like ["a"] (position 0), and a string that
    does not occur in [all_letters] like the apostrophe (position 56). *)
Theorem letterToTensor_any_string (letter : pystr) :
  exists k, (k < n_letters)%nat /\
    Classification.letterToTensor (F := F) letter = Ok (one_hot n_letters k) /\
    (letter = [] -> k = 0%nat) /\
    (find all_letters letter = -1 -> k = 56%nat) /\
    (0 <= find all_letters letter -> Z.of_nat k = find all_letters letter).
Proof.
  unfold Classification.letterToTensor.
  destruct (find_from_bound all_letters letter 0
              (or_introl all_letters_nonempty)) as [E|Hr];
    fold (find all_letters letter) in *.
  - exists 56%nat. split; [rewrite n_letters_eq; lia|]. rewrite E.
    split; [apply (setitem_zeros_minus_one 57); lia|].
    split; [|split; [done|lia]].
    intros ->. by rewrite find_empty in E.
  - change (Z.of_nat (length all_letters)) with 57 in Hr.
    exists (Z.to_nat (find all_letters letter)).
    split; [rewrite n_letters_eq; lia|]. split.
    + rewrite <- (Z2Nat.id (find all_letters letter)) at 1 by lia.
      apply setitem_zeros_nonneg. rewrite n_letters_eq. lia.
    + split; [intros ->; by rewrite find_empty|]. split; [lia|].
      intros _. apply Z2Nat.id. lia.
Qed.

(** A symbol of the vocabulary is recovered from its row. *)
Lemma encode_round_trip (c : N) :
  fltb fzero fone = true -> fltb fone fzero = false ->
  fltb fzero fzero = false ->
  c ∈ all_letters ->
  exists k, argmax (encode (F := F) c) = Ok k /\
    str_getitem all_letters (Z.of_nat k) = Ok [c].
Proof.
  intros H01 H10 H00 Hc. apply list_elem_of_lookup_1 in Hc as [k Hk].
  assert (k < n_letters)%nat as Hlt by by eapply lookup_lt_Some.
  exists k. split.
  - unfold encode. rewrite (symbol_index_lookup c k) by done.
    by apply argmax_one_hot.
  - unfold str_getitem, getitem.
    rewrite norm_index_nonneg by done. cbn [rbind]. by rewrite Hk.
Qed.

(** X2.  A line over the vocabulary is recovered from its tensor, row
    by row: the largest entry of row [i], used as an index into
    [all_letters], gives character [i] of the line.  This holds for the
    tensor of [lineToTensor] and for that of [inputTensor]. *)
Theorem line_round_trip (line : pystr) :
  fltb fzero fone = true -> fltb fone fzero = false ->
  fltb fzero fzero = false ->
  Forall (fun c => c ∈ all_letters) line ->
  exists rows : list (list F),
    Classification.lineToTensor line = Ok rows /\
    LanguageModel.inputTensor line = Ok rows /\
    Forall2
      (fun c t => exists k, argmax t = Ok k /\
                    str_getitem all_letters (Z.of_nat k) = Ok [c])
      line rows.
Proof.
  intros H01 H10 H00 Hline. exists (List.map encode line).
  split; [apply lineToTensor_eq|]. split; [apply inputTensor_eq|].
  induction Hline as [|c line Hc _ IH]; [constructor|].
  cbn [List.map]. constructor; [by apply encode_round_trip|exact IH].
Qed.

(** X3.  The line encoders of the two notebooks agree: for every line,
    [lineToTensor] and [inputTensor] return the same tensor, with one
    row per character, each a one-hot row of length [n_letters]. *)
Theorem line_encoders_agree (line : pystr) :
  exists rows : list (list F),
    Classification.lineToTensor line = Ok rows /\
    LanguageModel.inputTensor line = Ok rows /\
    length rows = length line /\
    Forall (fun t => exists k, (k < n_letters)%nat /\ t = one_hot n_letters k)
      rows.
Proof.
  exists (List.map encode line).
  split; [apply lineToTensor_eq|]. split; [apply inputTensor_eq|].
  split; [apply length_map|].
  apply Forall_forall. intros t Ht.
  apply list_elem_of_In, in_map_iff in Ht as (c & <- & _).
  exists (symbol_index c). split; [apply symbol_index_lt|done].
Qed.

End EncoderProperties.

(** * Further properties of the category encoders *)

Section CategoryProperties.
Context {F : Type} `{Scalar F}.
Variable all_categories : list pystr.

Lemma index_from_absent (l : list pystr) (x : pystr) (i : nat) :
  x ∉ l -> index_from l x i = Raise ValueError.
Proof.
  revert i. induction l as [|y l IH]; intros i Hx; [done|].
  apply not_elem_of_cons in Hx as [Hne Hx]. simpl.
  rewrite decide_False by done. by apply IH.
Qed.

(** [index] answers the first position of the element. *)
Lemma index_from_first (l : list pystr) (x : pystr) (i li : nat) :
  index_from l x i = Ok li ->
  (i <= li)%nat /\ l !! (li - i)%nat = Some x /\
  forall j, (j < li - i)%nat -> l !! j <> Some x.
Proof.
  revert i. induction l as [|y l IH]; intros i; [done|].
  simpl. case_decide as E.
  - intros [= <-]. rewrite Nat.sub_diag. subst y.
    split; [lia|]. split; [done|]. intros j Hj. lia.
  - intros Hli. destruct (IH _ Hli) as (Hle & Hl & Hfirst).
    split; [lia|].
    replace (li - i)%nat with (S (li - S i)) by lia.
    split; [done|]. intros [|j] Hj; simpl; [congruence|].
    apply Hfirst. lia.
Qed.

(** X4.  A category of the category set is recovered from its encoding.
    [categoryTensor] returns the one-hot row of the first position [li]
    of the category in [all_categories]; the largest entry of that row
    is at [li], and [all_categories[li]] is the category.  The
    classification notebook's [categoryToTensor] gives the category the
    same index. *)
Theorem category_round_trip (category : pystr) :
  fltb fzero fone = true -> fltb fone fzero = false ->
  fltb fzero fzero = false ->
  category ∈ all_categories ->
  exists (t : list F) (li : nat),
    LanguageModel.categoryTensor all_categories category = Ok t /\
    length t = length all_categories /\
    argmax t = Ok li /\
    getitem all_categories (Z.of_nat li) = Ok category /\
    Classification.categoryToTensor all_categories category = Ok [li] /\
    (forall j, (j < li)%nat -> all_categories !! j <> Some category).
Proof.
  intros H01 H10 H00 Hc.
  destruct (index_from_elem all_categories category 0%nat Hc)
    as (li & Hli & Hr).
  destruct (index_from_first _ _ _ _ Hli) as (_ & Hl & Hfirst).
  rewrite Nat.sub_0_r in Hl, Hfirst.
  exists (one_hot (length all_categories) li), li.
  split.
  { unfold LanguageModel.categoryTensor, index. rewrite Hli. cbn [rbind].
    apply setitem_zeros_nonneg. unfold LanguageModel.n_categories. lia. }
  split; [apply length_one_hot|].
  split; [apply argmax_one_hot; done || lia|].
  split.
  { unfold getitem. rewrite norm_index_nonneg by lia. cbn [rbind].
    by rewrite Hl. }
  split; [|exact Hfirst].
  unfold Classification.categoryToTensor, index. by rewrite Hli.
Qed.

(** X5.  A name that is not in the category set makes every function
    that encodes it raise [ValueError], before it does anything else:
    [categoryTensor], [categoryToTensor], [randomTrainingExample],
    [sample_word] and the multi-letter generation cell, whatever their
    other arguments. *)
Theorem unknown_category_raises (category : pystr) :
  category ∉ all_categories ->
  LanguageModel.categoryTensor (F := F) all_categories category
  = Raise ValueError /\
  Classification.categoryToTensor all_categories category = Raise ValueError /\
  (forall line,
     LanguageModel.randomTrainingExample (F := F) all_categories category line
     = Raise ValueError) /\
  (forall (rnn : LanguageModel.RNN F) max_length seed,
     LanguageModel.sample_word all_categories rnn max_length seed category
     = Raise ValueError) /\
  (forall (rnn : LanguageModel.RNN F) max_length output0 seed,
     LanguageModel.generate all_categories rnn max_length output0 seed category
     = Raise ValueError).
Proof.
  intros Hc.
  assert (LanguageModel.categoryTensor (F := F) all_categories category
          = Raise ValueError) as Ht.
  { unfold LanguageModel.categoryTensor, index.
    by rewrite index_from_absent. }
  split; [exact Ht|]. split.
  { unfold Classification.categoryToTensor, index.
    by rewrite index_from_absent. }
  split; [intros line; unfold LanguageModel.randomTrainingExample;
          by rewrite Ht|].
  split; [intros rnn L seed; unfold LanguageModel.sample_word; by rewrite Ht|].
  intros rnn L o seed. unfold LanguageModel.generate. by rewrite Ht.
Qed.

End CategoryProperties.

(** * Further properties of the generators *)

Section GeneratorProperties.
Import LanguageModel.
Context {F : Type} `{Scalar F}.
Variable all_categories : list pystr.

Lemma getitem_nil {A} (i : Z) : getitem (A := A) [] i = Raise IndexError.
Proof.
  unfold getitem, norm_index. cbn [length].
  destruct (Z.leb_spec 0 i), (Z.ltb_spec i (Z.of_nat 0)),
    (Z.leb_spec (- Z.of_nat 0) i), (Z.ltb_spec i 0);
    simpl; try done; lia.
Qed.

(** The loop of [sample_word] reads only the first row of [x]. *)
Lemma sample_loop_head (rnn : RNN F) category_tensor n x0
    (rows rows' : list (list F)) hidden output_name :
  sample_loop rnn category_tensor n (x0 :: rows) hidden output_name
  = sample_loop rnn category_tensor n (x0 :: rows') hidden output_name.
Proof. destruct n; [done|]. cbn [sample_loop]. by rewrite !getitem_head. Qed.

(** The name the loop is entered with is only ever extended. *)
Lemma sample_loop_name (rnn : RNN F) category_tensor n x hidden output_name :
  sample_loop rnn category_tensor n x hidden output_name
  = let* symbols := sample_loop rnn category_tensor n x hidden [] in
    Ok (output_name ++ symbols).
Proof.
  revert x hidden output_name.
  induction n as [|n IH]; intros x hidden output_name; cbn [sample_loop].
  { cbn [rbind]. by rewrite app_nil_r. }
  destruct (getitem x 0) as [x0|]; [cbn [rbind]|done].
  destruct (forward rnn category_tensor x0 hidden) as [[output hidden']|];
    [cbn [rbind]|done].
  destruct (argmax output) as [top_i|]; [cbn [rbind]|done].
  case_decide; [cbn [rbind]; by rewrite app_nil_r|].
  destruct (str_getitem all_letters (Z.of_nat top_i)) as [letter|];
    [cbn [rbind]|done].
  destruct (inputTensor letter) as [x'|]; [cbn [rbind]|done].
  rewrite (IH x' hidden' (output_name ++ letter)).
  rewrite (IH x' hidden' ([] ++ letter)).
  destruct (sample_loop rnn category_tensor n x' hidden' []) as [symbols|];
    [cbn [rbind]|done].
  by rewrite <- app_assoc.
Qed.

(** X6.  The rest of a seed of several letters never reaches the
    network in [sample_word]: the symbols it generates after the seed
    [c0 :: rest] are those it generates after [c0] alone, and an
    exception is the same one; [rest] is only copied into the name. *)
Theorem sample_word_reads_first_letter (rnn : RNN F) (max_length : nat)
    (c0 : N) (category : pystr) :
  exists generated : result pystr,
    forall rest,
      sample_word all_categories rnn max_length (c0 :: rest) category
      = let* symbols := generated in Ok (c0 :: rest ++ symbols).
Proof.
  exists (let* category_tensor := categoryTensor all_categories category in
          sample_loop rnn category_tensor max_length [encode c0]
            (initHidden rnn) []).
  intros rest. unfold sample_word.
  destruct (categoryTensor all_categories category) as [ct|]; [cbn [rbind]|done].
  rewrite inputTensor_eq. cbn [rbind List.map].
  rewrite sample_loop_name.
  by rewrite (sample_loop_head rnn ct max_length (encode c0)
                (List.map encode rest) []).
Qed.

(** X7.  The edges of [sample_word], for a category of the set:
    with [max_length = 0] it returns the seed unchanged, even an empty
    one; with an empty seed and [max_length >= 1] it raises
    [IndexError], at [x[0]]. *)
Theorem sample_word_edges (rnn : RNN F) (category : pystr) :
  category ∈ all_categories ->
  (forall seed, sample_word all_categories rnn 0 seed category = Ok seed) /\
  (forall n, sample_word all_categories rnn (S n) [] category
             = Raise IndexError).
Proof.
  intros Hc.
  destruct (categoryTensor_ok (F := F) all_categories category Hc)
    as (li & _ & Ht).
  split.
  - intros seed. unfold sample_word. rewrite Ht. cbn [rbind].
    by rewrite inputTensor_eq.
  - intros n. unfold sample_word. rewrite Ht. cbn [rbind].
    rewrite inputTensor_eq. cbn [rbind List.map sample_loop].
    by rewrite getitem_nil.
Qed.

Lemma generate_nonempty_seed (rnn : RNN F) (max_length : nat)
    (output0 output0' : option (list F)) (c0 : N) (rest category : pystr) :
  generate all_categories rnn max_length output0 (c0 :: rest) category
  = generate all_categories rnn max_length output0' (c0 :: rest) category.
Proof.
  unfold generate.
  destruct (categoryTensor all_categories category) as [ct|]; [|done].
  cbn [rbind length range seq for_each]. done.
Qed.

(** X8.  What the notebook variable [output] held before the
    multi-letter cell matters exactly when the seed is empty.  With a
    seed of at least one letter the result is the same whatever it
    held.  With an empty seed and [max_length >= 1] the cell raises
    [NameError] if [output] is undefined, and otherwise decodes
    greedily from the old scores and a zero hidden state. *)
Theorem generate_stale_output (rnn : RNN F) (max_length : nat)
    (category : pystr) (stale : list F) :
  RNN_wfb all_categories rnn n_letters n_letters = true ->
  category ∈ all_categories ->
  length stale = n_letters ->
  (forall output0 output0' c0 rest,
     generate all_categories rnn max_length output0 (c0 :: rest) category
     = generate all_categories rnn max_length output0' (c0 :: rest) category) /\
  generate all_categories rnn (S max_length) None [] category
  = Raise NameError /\
  exists category_tensor symbols,
    categoryTensor all_categories category = Ok category_tensor /\
    greedy_decoding rnn category_tensor max_length stale
      (zeros (hidden_size rnn)) symbols /\
    generate all_categories rnn max_length (Some stale) [] category
    = Ok symbols.
Proof.
  intros Hwf Hc Hstale.
  split; [intros; apply generate_nonempty_seed|].
  destruct (categoryTensor_ok (F := F) all_categories category Hc)
    as (li & _ & Ht).
  split; [unfold generate; by rewrite Ht|].
  destruct (generate_loop_greedy all_categories rnn Hwf
              (one_hot (n_categories all_categories) li) (length_one_hot _ _)
              max_length stale (zeros (hidden_size rnn)) [] Hstale
              (length_zeros _)) as (symbols & Hg & Hloop).
  eexists _, symbols. split; [exact Ht|]. split; [exact Hg|].
  unfold generate. rewrite Ht. exact Hloop.
Qed.

(** X9.  On a seed of one letter [sample_word] and the multi-letter
    cell return the same name. *)
Theorem sample_word_is_generate (rnn : RNN F) (max_length : nat)
    (output0 : option (list F)) (c0 : N) (category : pystr) :
  RNN_wfb all_categories rnn n_letters n_letters = true ->
  category ∈ all_categories ->
  sample_word all_categories rnn max_length [c0] category
  = generate all_categories rnn max_length output0 [c0] category.
Proof.
  intros Hwf Hc.
  destruct (sample_word_greedy all_categories rnn max_length c0 [] category
              Hwf Hc) as (ct & symbols & Hct & Hg & ->).
  destruct (generate_greedy all_categories rnn max_length output0 c0 []
              category Hwf Hc)
    as (ct' & output & hidden & symbols' & Hct' & Hw & Hg' & ->).
  rewrite Hct in Hct'. injection Hct' as <-.
  unfold warm_up in Hw. cbn [fold_left snd] in Hw. injection Hw as <- <-.
  by rewrite (greedy_decoding_deterministic rnn ct max_length _ _ _ _ Hg Hg').
Qed.

Section LongerNames.
Variable rnn : RNN F.
Hypothesis rnn_wf : RNN_wfb all_categories rnn n_letters n_letters = true.
Variable category_tensor : list F.
Hypothesis category_length :
  length category_tensor = n_categories all_categories.

(** One more iteration extends the symbols, and adds nothing if the
    decoding had stopped before its bound. *)
Lemma greedy_decoding_step (n : nat) (output hidden : list F)
    (symbols : pystr) :
  length output = n_letters ->
  length hidden = hidden_size rnn ->
  greedy_decoding rnn category_tensor n output hidden symbols ->
  exists more,
    greedy_decoding rnn category_tensor (S n) output hidden (symbols ++ more) /\
    ((length symbols < n)%nat -> more = []).
Proof using rnn_wf category_length.
  intros Ho Hh Hg. revert Ho Hh.
  induction Hg as [output hidden|n output hidden Htop
                  |n output hidden k c output' hidden' symbols
                     Hk Hne Hc Hf Hg IH]; intros Ho Hh.
  - destruct (generate_loop_greedy all_categories rnn rnn_wf category_tensor
                category_length 1 output hidden [] Ho Hh) as (more & Hm & _).
    exists more. split; [exact Hm|]. simpl. lia.
  - exists []. split; [by apply greedy_end|done].
  - assert (cell rnn category_tensor (one_hot n_letters k) hidden
            = (output', hidden')) as Ec.
    { rewrite (forward_cell all_categories rnn n_letters n_letters) in Hf
        by (done || apply length_one_hot).
      congruence. }
    destruct IH as (more & Hm & Hstop).
    { change output' with (output', hidden').1. rewrite <- Ec.
      apply (length_cell_output all_categories rnn n_letters n_letters rnn_wf). }
    { change hidden' with (output', hidden').2. rewrite <- Ec.
      apply (length_cell_hidden all_categories rnn n_letters n_letters rnn_wf). }
    exists more. split.
    + by eapply greedy_symbol.
    + simpl. intros Hlt. apply Hstop. lia.
Qed.

Lemma greedy_decoding_more (n extra : nat) (output hidden : list F)
    (symbols : pystr) :
  length output = n_letters ->
  length hidden = hidden_size rnn ->
  greedy_decoding rnn category_tensor n output hidden symbols ->
  exists more,
    greedy_decoding rnn category_tensor (n + extra) output hidden
      (symbols ++ more) /\
    ((length symbols < n)%nat -> more = []).
Proof using rnn_wf category_length.
  intros Ho Hh Hg. induction extra as [|extra (more & Hm & Hstop)].
  - exists []. rewrite Nat.add_0_r, app_nil_r. done.
  - destruct (greedy_decoding_step _ _ _ _ Ho Hh Hm) as (more' & Hm' & Hstop').
    exists (more ++ more'). rewrite Nat.add_succ_r, app_assoc.
    split; [exact Hm'|]. intros Hlt.
    rewrite (Hstop Hlt), app_nil_r in *. rewrite Hstop'; [done|lia].
Qed.

End LongerNames.

(** X10.  A larger [max_length] only extends the name: the name for
    [max_length + extra] starts with the name for [max_length], and is
    that very name if the shorter run had ended before its bound (at
    the end marker).  This holds for [sample_word] and for the
    multi-letter cell. *)
Theorem longer_max_length_extends (rnn : RNN F) (max_length extra : nat)
    (output0 : option (list F)) (c0 : N) (rest category : pystr) :
  RNN_wfb all_categories rnn n_letters n_letters = true ->
  category ∈ all_categories ->
  let seed := c0 :: rest in
  (exists name more,
     sample_word all_categories rnn max_length seed category = Ok name /\
     sample_word all_categories rnn (max_length + extra) seed category
     = Ok (name ++ more) /\
     ((length name < length seed + max_length)%nat -> more = [])) /\
  (exists name more,
     generate all_categories rnn max_length output0 seed category = Ok name /\
     generate all_categories rnn (max_length + extra) output0 seed category
     = Ok (name ++ more) /\
     ((length name < length seed + max_length)%nat -> more = [])).
Proof.
  intros Hwf Hc seed. subst seed. split.
  - destruct (sample_word_greedy all_categories rnn max_length c0 rest
                category Hwf Hc) as (ct & symbols & Hct & Hg & Hrun).
    destruct (sample_word_greedy all_categories rnn (max_length + extra) c0
                rest category Hwf Hc) as (ct' & symbols' & Hct' & Hg' & Hrun').
    rewrite Hct in Hct'. injection Hct' as <-.
    assert (length ct = n_categories all_categories) as Hlen.
    { destruct (categoryTensor_ok (F := F) all_categories category Hc)
        as (li & _ & Ht).
      rewrite Ht in Hct. injection Hct as <-. apply length_one_hot. }
    destruct (greedy_decoding_more rnn Hwf ct Hlen max_length extra _ _ _
                (length_cell_output all_categories rnn n_letters n_letters
                   Hwf _ _ _)
                (length_cell_hidden all_categories rnn n_letters n_letters
                   Hwf _ _ _) Hg) as (more & Hm & Hstop).
    rewrite (greedy_decoding_deterministic rnn ct _ _ _ _ _ Hg' Hm) in Hrun'.
    exists ((c0 :: rest) ++ symbols), more.
    split; [exact Hrun|]. split; [by rewrite <- app_assoc|].
    rewrite length_app. intros Hlt. apply Hstop. lia.
  - destruct (generate_greedy all_categories rnn max_length output0 c0 rest
                category Hwf Hc)
      as (ct & output & hidden & symbols & Hct & Hw & Hg & Hrun).
    destruct (generate_greedy all_categories rnn (max_length + extra) output0
                c0 rest category Hwf Hc)
      as (ct' & output' & hidden' & symbols' & Hct' & Hw' & Hg' & Hrun').
    rewrite Hct in Hct'. injection Hct' as <-.
    rewrite Hw in Hw'. injection Hw' as <- <-.
    assert (length ct = n_categories all_categories) as Hlen.
    { destruct (categoryTensor_ok (F := F) all_categories category Hc)
        as (li & _ & Ht).
      rewrite Ht in Hct. injection Hct as <-. apply length_one_hot. }
    destruct (warm_up_nonempty all_categories rnn Hwf ct (c0 :: rest)
                (output0, zeros (hidden_size rnn)))
      as (o & h & Hw' & Ho & Hh); [done|apply length_zeros|].
    rewrite Hw in Hw'. injection Hw' as <- <-.
    destruct (greedy_decoding_more rnn Hwf ct Hlen max_length extra _ _ _
                Ho Hh Hg) as (more & Hm & Hstop).
    rewrite (greedy_decoding_deterministic rnn ct _ _ _ _ _ Hg' Hm) in Hrun'.
    exists ((c0 :: rest) ++ symbols), more.
    split; [exact Hrun|]. split; [by rewrite <- app_assoc|].
    rewrite length_app. intros Hlt. apply Hstop. lia.
Qed.

Lemma str_getitem_vocabulary (top_i : nat) (letter : pystr) :
  str_getitem all_letters (Z.of_nat top_i) = Ok letter ->
  exists c, letter = [c] /\ c ∈ all_letters.
Proof.
  unfold str_getitem. intros Hget.
  destruct (getitem all_letters (Z.of_nat top_i)) as [c|] eqn:Hc; [|done].
  injection Hget as <-. exists c. split; [done|].
  unfold getitem in Hc.
  destruct (norm_index (length all_letters) (Z.of_nat top_i)) as [k|]; [|done].
  cbn [rbind] in Hc. destruct (all_letters !! k) as [d|] eqn:Hk; [|done].
  injection Hc as ->. by eapply list_elem_of_lookup_2.
Qed.

Ltac stopped :=
  intros [= <-]; exists []; split; [by rewrite app_nil_r|];
  split; [constructor|simpl; lia].

Lemma sample_loop_symbols (rnn : RNN F) (category_tensor : list F) (n : nat)
    (x : list (list F)) (hidden : list F) (output_name name : pystr) :
  sample_loop rnn category_tensor n x hidden output_name = Ok name ->
  exists symbols, name = output_name ++ symbols /\
    Forall (fun c => c ∈ all_letters /\ c <> apostrophe) symbols /\
    (length symbols <= n)%nat.
Proof.
  revert x hidden output_name.
  induction n as [|n IH]; intros x hidden output_name; cbn [sample_loop].
  { stopped. }
  destruct (getitem x 0) as [x0|]; [cbn [rbind]|done].
  destruct (forward rnn category_tensor x0 hidden) as [[output hidden']|];
    [cbn [rbind]|done].
  destruct (argmax output) as [top_i|]; [cbn [rbind]|done].
  case_decide as Htop.
  { stopped. }
  destruct (str_getitem all_letters (Z.of_nat top_i)) as [letter|] eqn:Hget;
    [cbn [rbind]|done].
  destruct (str_getitem_not_last _ _ Hget Htop) as (c & -> & Hc).
  destruct (str_getitem_vocabulary _ _ Hget) as (c' & [= <-] & Hin).
  destruct (inputTensor [c]) as [x'|]; [cbn [rbind]|done].
  intros Hloop. destruct (IH _ _ _ Hloop) as (symbols & -> & Hs & Hlen).
  exists (c :: symbols). split; [by rewrite <- app_assoc|].
  split; [by constructor|simpl; lia].
Qed.

Lemma generate_loop_symbols (rnn : RNN F) (category_tensor : list F) (n : nat)
    (output : option (list F)) (hidden : list F) (output_name name : pystr) :
  generate_loop rnn category_tensor n output hidden output_name = Ok name ->
  exists symbols, name = output_name ++ symbols /\
    Forall (fun c => c ∈ all_letters /\ c <> apostrophe) symbols /\
    (length symbols <= n)%nat.
Proof.
  revert output hidden output_name.
  induction n as [|n IH]; intros output hidden output_name; cbn [generate_loop].
  { stopped. }
  destruct (read_global output) as [out|]; [cbn [rbind]|done].
  destruct (argmax out) as [top_i|]; [cbn [rbind]|done].
  case_decide as Htop.
  { stopped. }
  destruct (str_getitem all_letters (Z.of_nat top_i)) as [letter|] eqn:Hget;
    [cbn [rbind]|done].
  destruct (str_getitem_not_last _ _ Hget Htop) as (c & -> & Hc).
  destruct (str_getitem_vocabulary _ _ Hget) as (c' & [= <-] & Hin).
  destruct (inputTensor [c]) as [x'|]; [cbn [rbind]|done].
  destruct (getitem x' 0) as [x0|]; [cbn [rbind]|done].
  destruct (forward rnn category_tensor x0 hidden) as [[output' hidden']|];
    [cbn [rbind]|done].
  intros Hloop. destruct (IH _ _ _ Hloop) as (symbols & -> & Hs & Hlen).
  exists (c :: symbols). split; [by rewrite <- app_assoc|].
  split; [by constructor|simpl; lia].
Qed.

(** X11.  Whatever the parameters, the category and the seed (which may
    hold characters outside the vocabulary, or be empty), a name that
    [sample_word] or the multi-letter cell returns is the seed followed
    by at most [max_length] symbols, each one a vocabulary symbol other
    than the apostrophe. *)
Theorem generated_names (rnn : RNN F) (max_length : nat)
    (output0 : option (list F)) (seed category name : pystr) :
  sample_word all_categories rnn max_length seed category = Ok name \/
  generate all_categories rnn max_length output0 seed category = Ok name ->
  exists symbols,
    name = seed ++ symbols /\
    (length symbols <= max_length)%nat /\
    Forall (fun c => c ∈ all_letters /\ c <> apostrophe) symbols.
Proof.
  assert (forall n o h, generate_loop rnn n max_length o h seed = Ok name \/
            (exists x, sample_loop rnn n max_length x h seed = Ok name) ->
          exists symbols, name = seed ++ symbols /\
            (length symbols <= max_length)%nat /\
            Forall (fun c => c ∈ all_letters /\ c <> apostrophe) symbols)
    as Hloops.
  { intros ct o h [Hg|[x Hs]];
      [apply generate_loop_symbols in Hg as (symbols & ? & ? & ?)
      |apply sample_loop_symbols in Hs as (symbols & ? & ? & ?)];
      by exists symbols. }
  intros [Hrun|Hrun].
  - unfold sample_word in Hrun.
    destruct (categoryTensor all_categories category) as [ct|];
      [cbn [rbind] in Hrun|done].
    destruct (inputTensor seed) as [x|]; [cbn [rbind] in Hrun|done].
    apply (Hloops ct None (initHidden rnn)). right. by exists x.
  - unfold generate in Hrun.
    destruct (categoryTensor all_categories category) as [ct|];
      [cbn [rbind] in Hrun|done].
    destruct (for_each _ _ _) as [[o h]|]; [cbn [rbind] in Hrun|done].
    apply (Hloops ct o h). by left.
Qed.

End GeneratorProperties.

(** * Further properties of training *)

Section TrainingProperties.
Import LanguageModel.
Context {F : Type} `{Scalar F}.
Variable all_categories : list pystr.
Variable autograd : list (op F) -> RNN F -> RNN F.
Variable optimizer : SGD F.

(** A property of the loop state that every pass keeps holds when the
    loop ends. *)
Lemma for_each_invariant {A S} (P : S -> Prop) (xs : list A)
    (body : A -> S -> result S) (s s' : S) :
  (forall x s s', P s -> body x s = Ok s' -> P s') ->
  P s -> for_each xs body s = Ok s' -> P s'.
Proof.
  intros Hbody. revert s. induction xs as [|x xs IH]; intros s Hs; simpl.
  - by intros [= <-].
  - destruct (body x s) as [s1|] eqn:E; [cbn [rbind]|done].
    apply IH. by eapply Hbody.
Qed.

(* The world [train] leaves behind, by the way the call ends. *)
Lemma train_world (w : world F) (category_tensor : list F)
    (input_line_tensor : list (list F)) (target_line_tensor : list Z) :
  match train autograd optimizer w category_tensor input_line_tensor
          target_line_tensor with
  | (Raise _, w') => params w' = params w /\ grads w' = None
  | (Ok _, w') =>
      exists tape,
        params w' = sgd_update optimizer (params w) (autograd tape (params w)) /\
        grads w' = Some (autograd tape (params w))
  end.
Proof.
  unfold train.
  destruct (for_each _ _ _) as [[[[output hidden] loss] tape]|] eqn:Hloop;
    [|done].
  apply (for_each_invariant
           (fun s : option (list F) * list F * pyloss F * list (op F) =>
              s.1.2 = int_zero \/ exists out, s.1.1.1 = Some out)) in Hloop;
    cycle 1.
  { intros i [[[o h] l] t] s' _. cbn [zero_grad params].
    destruct (getitem input_line_tensor (Z.of_nat i)) as [x|]; [cbn [rbind]|done].
    destruct (forward (params w) category_tensor x h) as [[out h']|];
      [cbn [rbind]|done].
    destruct (getitem target_line_tensor (Z.of_nat i)) as [tg|];
      [cbn [rbind]|done].
    destruct (criterion out tg) as [ce|]; [cbn [rbind]|done].
    intros [= <-]. right. by exists out. }
  { by left. }
  cbn [fst snd] in Hloop.
  destruct loss as [|v]; [done|].
  destruct Hloop as [?|[out ->]]; [done|].
  cbn [read_local rbind backward step zero_grad params grads].
  by exists tape.
Qed.


Section Shapes.
Variable rnn : RNN F.
Hypothesis rnn_wf : RNN_wfb all_categories rnn n_letters n_letters = true.
Variable category_tensor : list F.
Hypothesis category_length :
  length category_tensor = n_categories all_categories.

(** The loop of [train] stops with [IndexError] at the first target
    that is not a position of the vocabulary. *)
Lemma train_loop_bad_target (pre_x xs : list (list F)) (pre_t ts : list Z)
    (output : option (list F)) (hidden : list F) (loss : pyloss F)
    (tape : list (op F)) :
  length pre_x = length pre_t ->
  length xs = length ts ->
  Forall (fun x => length x = n_letters) xs ->
  Exists (fun t => ~ (0 <= t < Z.of_nat n_letters)) ts ->
  length hidden = hidden_size rnn ->
  for_each (seq (length pre_x) (length xs))
    (fun i '(_, hidden, loss, tape) =>
       let* x := getitem (pre_x ++ xs) (Z.of_nat i) in
       let* (output, hidden') := forward rnn category_tensor x hidden in
       let* target := getitem (pre_t ++ ts) (Z.of_nat i) in
       let* l := criterion output target in
       Ok (Some output, hidden', loss_add loss l,
           tape ++ [op_rnn category_tensor x hidden;
                    op_criterion output target]))
    (output, hidden, loss, tape)
  = Raise IndexError.
Proof using rnn_wf category_length.
  revert pre_x pre_t ts output hidden loss tape.
  induction xs as [|x xs IH];
    intros pre_x pre_t [|t ts] output hidden loss tape Hpre Hlen Hxs Hbad Hh;
    try done.
  { by apply Exists_nil in Hbad. }
  apply Forall_cons in Hxs as [Hx Hxs]. injection Hlen as Hlen.
  cbn [length seq for_each].
  rewrite getitem_middle. cbn [rbind].
  rewrite (forward_cell all_categories rnn n_letters n_letters) by done.
  cbn [rbind].
  pose proof (length_cell_output all_categories rnn n_letters n_letters rnn_wf
                category_tensor x hidden) as Ho.
  pose proof (length_cell_hidden all_categories rnn n_letters n_letters rnn_wf
                category_tensor x hidden) as Hh'.
  destruct (cell rnn category_tensor x hidden) as [out h1]. cbn [fst snd] in *.
  rewrite Hpre, getitem_middle. cbn [rbind].
  destruct (decide (0 <= t < Z.of_nat n_letters)) as [Ht|Ht].
  - rewrite criterion_ok by (rewrite Ho; done). cbn [rbind].
    apply Exists_cons in Hbad as [Hbad|Hbad]; [done|].
    specialize (IH (pre_x ++ [x]) (pre_t ++ [t]) ts (Some out) h1
                   (loss_add loss (cross_entropy out t))
                   (tape ++ [op_rnn category_tensor x hidden;
                             op_criterion out t])).
    rewrite !length_app in IH. cbn [length] in IH.
    rewrite !Nat.add_1_r, <- !app_assoc in IH. cbn [app] in IH.
    rewrite <- Hpre. apply IH; [lia|done|done|done|done].
  - unfold criterion. rewrite decide_False by (rewrite Ho; done). done.
Qed.

End Shapes.

Lemma lookup_map {A B} (f : A -> B) (l : list A) (i : nat) :
  List.map f l !! i = option_map f (l !! i).
Proof.
  revert i. induction l as [|a l IH]; intros [|i]; try done. apply IH.
Qed.

(** X13.  A character outside the vocabulary anywhere after the first
    position of the word makes [train] raise [IndexError]: its target
    is [find]'s [-1], which the criterion rejects.  The parameters are
    not changed.  (The first character is never a target.) *)
Theorem train_rejects_unknown_character (w : world F) (category : pystr)
    (c0 c : N) (pre post : pystr) :
  RNN_wfb all_categories (params w) n_letters n_letters = true ->
  category ∈ all_categories ->
  c ∉ all_letters ->
  exists category_tensor input_line_tensor target_line_tensor,
    randomTrainingExample all_categories category (c0 :: pre ++ c :: post)
    = Ok (category_tensor, input_line_tensor, target_line_tensor) /\
    target_line_tensor !! length pre = Some (-1) /\
    train autograd optimizer w category_tensor input_line_tensor
      target_line_tensor
    = (Raise IndexError, {| params := params w; grads := None |}).
Proof.
  intros Hwf Hcat Hc.
  destruct (categoryTensor_ok (F := F) all_categories category Hcat)
    as (li & Hli & Htensor).
  set (line := c0 :: pre ++ c :: post).
  set (ct := one_hot (F := F) (n_categories all_categories) li) in *.
  set (ts := List.map (fun d => find all_letters [d]) (tail line) ++ [56]).
  exists ct, (List.map encode line), ts.
  split.
  { unfold randomTrainingExample. rewrite Htensor. cbn [rbind].
    rewrite inputTensor_eq. cbn [rbind]. by rewrite targetTensor_eq. }
  assert (ts !! length pre = Some (-1)) as Hbad.
  { unfold ts, line. cbn [tail]. rewrite map_app. cbn [List.map].
    rewrite <- app_assoc. cbn [app].
    rewrite <- (length_map (fun d => find all_letters [d]) pre).
    rewrite list_lookup_middle by done.
    by rewrite find_all_letters_absent. }
  split; [exact Hbad|].
  unfold train, range. cbn [zero_grad params]. unfold initHidden.
  pose proof (train_loop_bad_target (params w) Hwf ct (length_one_hot _ _)
                [] (List.map encode line) [] ts None
                (zeros (hidden_size (params w))) int_zero []) as Hloop.
  cbn [length app] in Hloop. rewrite Hloop; [done|done| | | |].
  - unfold ts, line. rewrite length_app, !length_map. simpl. lia.
  - apply Forall_forall. intros x Hx.
    apply list_elem_of_In, in_map_iff in Hx as (d & <- & _).
    apply length_encode.
  - apply Exists_exists. exists (-1). split; [|rewrite n_letters_eq; lia].
    by eapply list_elem_of_lookup_2.
  - apply length_zeros.
Qed.

(** X14.  The targets of a training example are its inputs moved up by
    one step.  For a word [c0 :: rest] over the vocabulary,
    [randomTrainingExample] returns as many targets as input rows; the
    target of step [i] is the position of the [1] in the input row of
    step [i + 1], which is the position of character [i + 1] in
    [all_letters]; and the last target is the end index. *)
Theorem targets_follow_inputs (category : pystr) (c0 : N) (rest : pystr) :
  category ∈ all_categories ->
  Forall (fun c => c ∈ all_letters) rest ->
  exists category_tensor (input_line_tensor : list (list F))
         target_line_tensor,
    randomTrainingExample all_categories category (c0 :: rest)
    = Ok (category_tensor, input_line_tensor, target_line_tensor) /\
    length input_line_tensor = S (length rest) /\
    length target_line_tensor = S (length rest) /\
    (forall i c, rest !! i = Some c ->
       exists k, all_letters !! k = Some c /\
         target_line_tensor !! i = Some (Z.of_nat k) /\
         input_line_tensor !! S i = Some (one_hot n_letters k)) /\
    target_line_tensor !! length rest = Some (Z.of_nat n_letters - 1).
Proof.
  intros Hcat Hrest.
  destruct (categoryTensor_ok (F := F) all_categories category Hcat)
    as (li & Hli & Htensor).
  eexists _, (List.map encode (c0 :: rest)),
    (List.map (fun d => find all_letters [d]) rest ++ [56]).
  split.
  { unfold randomTrainingExample. rewrite Htensor. cbn [rbind].
    rewrite inputTensor_eq. cbn [rbind]. by rewrite targetTensor_eq. }
  split; [by rewrite length_map|].
  split; [rewrite length_app, length_map; simpl; lia|].
  split.
  - intros i c Hi.
    assert (c ∈ all_letters) as Hc.
    { rewrite Forall_forall in Hrest. apply Hrest.
      by eapply list_elem_of_lookup_2. }
    apply list_elem_of_lookup_1 in Hc as [k Hk].
    exists k. split; [done|]. split.
    + rewrite lookup_app_l by (rewrite length_map; by eapply lookup_lt_Some).
      rewrite <- (find_all_letters_lookup c k Hk).
      by rewrite lookup_map, Hi.
    + cbn [List.map]. rewrite lookup_cons_ne_0 by done. cbn [Nat.pred].
      rewrite lookup_map, Hi. cbn [option_map].
      unfold encode. by rewrite (symbol_index_lookup c k).
  - rewrite <- (length_map (fun d => find all_letters [d]) rest).
    by rewrite list_lookup_middle.
Qed.

End TrainingProperties.

(** * Further properties of the cells *)

Section CellProperties.
Context {F : Type} `{Scalar F}.
Variable all_categories : list pystr.

Lemma Linear_forward_mismatch (L : Linear F) (x : list F) :
  length x <> in_features L -> Linear_forward L x = Raise RuntimeError.
Proof. intros E. unfold Linear_forward. by rewrite decide_False. Qed.

(** X15.  The classification cell checks the total length of its two
    arguments and nothing else: it returns (scores of length
    [output_size], hidden state of length 128) when the lengths of the
    input row and of the hidden state add up to [input_size + 128],
    and raises [RuntimeError] otherwise. *)
Theorem classifier_forward_shapes (rnn : Classification.RNN F)
    (input_size output_size : nat) (x hidden : list F) :
  Classification.RNN_wfb rnn input_size output_size = true ->
  Classification.forward rnn x hidden
  = (if decide (length x + length hidden = input_size + 128)%nat
     then Ok (affine (Classification.i2o rnn) (x ++ hidden),
              affine (Classification.i2h rnn) (x ++ hidden))
     else Raise RuntimeError) /\
  length (affine (Classification.i2o rnn) (x ++ hidden)) = output_size /\
  length (affine (Classification.i2h rnn) (x ++ hidden)) = 128%nat.
Proof.
  intros Hwf.
  destruct (rnn_wf_parts rnn _ _ Hwf) as (Wh & Wo & Eh & Eho & Eo & Eoo).
  assert (Classification.hidden_size rnn = 128%nat) as E128.
  { unfold Classification.RNN_wfb in Hwf.
    do 6 (apply andb_prop in Hwf as [Hwf _]). by apply Nat.eqb_eq in Hwf. }
  split; [|split; rewrite length_affine by done; congruence].
  unfold Classification.forward. case_decide as Hlen.
  - rewrite !Linear_forward_ok by (rewrite length_app; lia). done.
  - rewrite Linear_forward_mismatch by (rewrite length_app; lia). done.
Qed.

(** X16.  The generation cell likewise checks only the total length of
    its three arguments: it returns (scores of length [output_size],
    hidden state of its hidden size) when the three lengths add up to
    [n_categories + input_size + hidden_size], whatever each of them is,
    and raises [RuntimeError] otherwise. *)
Theorem generator_forward_shapes (rnn : LanguageModel.RNN F)
    (input_size output_size : nat) (category x hidden : list F) :
  LanguageModel.RNN_wfb all_categories rnn input_size output_size = true ->
  LanguageModel.forward rnn category x hidden
  = (if decide (length category + length x + length hidden
                = length all_categories + input_size
                  + LanguageModel.hidden_size rnn)%nat
     then Ok (LanguageModel.cell rnn category x hidden)
     else Raise RuntimeError) /\
  length (LanguageModel.cell rnn category x hidden).1 = output_size /\
  length (LanguageModel.cell rnn category x hidden).2
  = LanguageModel.hidden_size rnn.
Proof.
  intros Hwf.
  destruct (gen_wf_parts all_categories rnn _ _ Hwf)
    as (Wh & Wi & Wo & Eh & Eho & Ei & Eio & Eo & Eoo).
  unfold LanguageModel.n_categories in *.
  split; [|split; [by apply (length_cell_output all_categories rnn input_size)
                  |by apply (length_cell_hidden all_categories rnn input_size
                               output_size)]].
  unfold LanguageModel.forward, LanguageModel.cell. case_decide as Hlen.
  - rewrite !Linear_forward_ok by (rewrite !length_app; lia). cbn [rbind].
    rewrite Linear_forward_ok; [done|].
    rewrite length_app, !length_affine by done. lia.
  - rewrite Linear_forward_mismatch by (rewrite !length_app; lia). done.
Qed.

End CellProperties.

(** * Further properties of [predict] *)

Section RankingProperties.
Context {F : Type} `{Scalar F}.
Variable all_categories : list pystr.

Lemma pick_largest_elem (cs : list (nat * F)) (c : nat * F) :
  fold_left (fun best c => if fltb best.2 c.2 then c else best) cs c ∈ c :: cs.
Proof.
  revert c. induction cs as [|d cs IH]; intros c; [by apply elem_of_cons; left|].
  simpl. specialize (IH (if fltb c.2 d.2 then d else c)).
  apply elem_of_cons in IH as [->|IH].
  - destruct (fltb c.2 d.2); rewrite !elem_of_cons; tauto.
  - rewrite !elem_of_cons; tauto.
Qed.

Lemma filter_position_id (i : nat) (l : list (nat * F)) :
  i ∉ l.*1 -> List.filter (fun c => negb (c.1 =? i)%nat) l = l.
Proof.
  induction l as [|a l IH]; [done|]. cbn [fmap list_fmap List.filter].
  intros Hi. apply not_elem_of_cons in Hi as [Hne Hi].
  destruct (Nat.eqb_spec a.1 i) as [E|_]; [by subst|].
  cbn [negb]. f_equal. by apply IH.
Qed.

Lemma filter_position_length (b : nat * F) (l : list (nat * F)) :
  NoDup (l.*1) -> b ∈ l ->
  S (length (List.filter (fun c => negb (c.1 =? b.1)%nat) l)) = length l.
Proof.
  induction l as [|a l IH]; intros Hnd Hb; [by apply elem_of_nil in Hb|].
  cbn [fmap list_fmap] in Hnd. apply NoDup_cons in Hnd as [Ha Hnd].
  cbn [List.filter length].
  destruct (Nat.eqb_spec a.1 b.1) as [E|Hne]; cbn [negb].
  - rewrite filter_position_id; [done|]. by rewrite <- E.
  - apply elem_of_cons in Hb as [->|Hb]; [done|].
    cbn [length]. f_equal. by apply IH.
Qed.

Lemma filter_positions_NoDup (f : nat * F -> bool) (l : list (nat * F)) :
  NoDup (l.*1) -> NoDup ((List.filter f l).*1).
Proof.
  induction l as [|a l IH]; [done|]. cbn [fmap list_fmap List.filter].
  intros Hnd. apply NoDup_cons in Hnd as [Ha Hnd].
  destruct (f a); [|by apply IH].
  cbn [fmap list_fmap]. apply NoDup_cons. split; [|by apply IH].
  intros Hin. apply Ha.
  apply list_elem_of_fmap in Hin as (d & -> & Hd).
  apply list_elem_of_fmap. exists d. split; [done|].
  apply list_elem_of_In. apply list_elem_of_In, filter_In in Hd. tauto.
Qed.

(** The selection of [topk]: as many entries as asked for, taken from
    the candidates, at pairwise different positions. *)
Lemma topk_select_spec (k : nat) (cands : list (nat * F)) :
  NoDup (cands.*1) -> (k <= length cands)%nat ->
  length (topk_select k cands) = k /\
  Forall (fun p => p ∈ cands) (topk_select k cands) /\
  NoDup ((topk_select k cands).*1).
Proof.
  revert cands. induction k as [|k IH]; intros cands Hnd Hk.
  { destruct cands; simpl; (split; [done|split; [constructor|constructor]]). }
  destruct cands as [|c cs]; [simpl in Hk; lia|].
  cbn [topk_select].
  set (b := fold_left (fun best c => if fltb best.2 c.2 then c else best) cs c).
  assert (b ∈ c :: cs) as Hb by apply pick_largest_elem.
  set (others := List.filter (fun c => negb (c.1 =? b.1)%nat) (c :: cs)).
  pose proof (filter_position_length b (c :: cs) Hnd Hb) as Hlen.
  fold others in Hlen. change (length (c :: cs)) with (S (length cs)) in *.
  destruct (IH others) as (Hl & Hsub & Hnd').
  { by apply filter_positions_NoDup. }
  { lia. }
  split; [simpl; by rewrite Hl|]. split.
  - constructor; [done|]. eapply Forall_impl; [exact Hsub|].
    intros p Hp. apply list_elem_of_In. apply list_elem_of_In, filter_In in Hp.
    tauto.
  - cbn [fmap list_fmap]. apply NoDup_cons. split; [|done].
    intros Hin. apply list_elem_of_fmap in Hin as (d & Hd1 & Hd).
    rewrite Forall_forall in Hsub. apply Hsub in Hd.
    apply list_elem_of_In, filter_In in Hd as [_ Hd].
    destruct (Nat.eqb_spec d.1 b.1); [done|congruence].
Qed.

Lemma enumerate_positions {A} (t : list A) :
  (enumerate t).*1 = seq 0 (length t).
Proof. unfold enumerate. by rewrite fst_zip by (rewrite length_seq; lia). Qed.

Lemma topk_spec (t : list F) (k : nat) :
  (k <= length t)%nat ->
  exists sel : list (nat * F),
    topk t k = Ok (sel.*2, sel.*1) /\ length sel = k /\
    Forall (fun p => (p.1 < length t)%nat) sel /\ NoDup (sel.*1).
Proof.
  intros Hk. exists (topk_select k (enumerate t)).
  unfold topk. rewrite decide_True by done. split; [done|].
  destruct (topk_select_spec k (enumerate t)) as (Hl & Hsub & Hnd).
  { rewrite enumerate_positions. apply NoDup_seq. }
  { unfold enumerate. rewrite length_zip_with, length_seq. lia. }
  split; [done|]. split; [|done].
  eapply Forall_impl; [exact Hsub|]. intros p Hp.
  assert (p.1 ∈ (enumerate t).*1) as Hp1
    by (apply list_elem_of_fmap; by exists p).
  rewrite enumerate_positions in Hp1.
  apply list_elem_of_In, in_seq in Hp1. lia.
Qed.

(** The printing loop of [predict] over the selected entries [sel] that
    follow the entries [pre] already printed. *)
Lemma ranking_loop (pre sel : list (nat * F)) (printed : list (F * pystr)) :
  Forall (fun p => (p.1 < length all_categories)%nat) sel ->
  exists names,
    for_each (seq (length pre) (length sel))
      (fun i printed =>
         let* value := getitem ((pre ++ sel).*2) (Z.of_nat i) in
         let* category_index := getitem ((pre ++ sel).*1) (Z.of_nat i) in
         let* name := getitem all_categories (Z.of_nat category_index) in
         Ok (printed ++ [(value, name)]))
      printed
    = Ok (printed ++ zip (sel.*2) names) /\
    Forall2 (fun p name => all_categories !! p.1 = Some name) sel names.
Proof.
  revert pre printed. induction sel as [|p sel IH]; intros pre printed Hsel.
  { exists []. split; [simpl; by rewrite app_nil_r|constructor]. }
  apply Forall_cons in Hsel as [Hp Hsel].
  destruct (lookup_lt_is_Some_2 all_categories p.1 Hp) as [name Hname].
  destruct (IH (pre ++ [p]) (printed ++ [(p.2, name)]) Hsel)
    as (names & Hloop & Hnames).
  exists (name :: names). split; [|by constructor].
  cbn [length seq for_each].
  rewrite !fmap_app, !fmap_cons.
  rewrite <- (length_fmap snd pre) at 1. rewrite getitem_middle. cbn [rbind].
  rewrite <- (length_fmap fst pre) at 1. rewrite getitem_middle. cbn [rbind].
  unfold getitem at 1. rewrite norm_index_nonneg by done. cbn [rbind].
  rewrite Hname. cbn [rbind].
  rewrite length_app in Hloop. cbn [length] in Hloop.
  rewrite Nat.add_1_r, <- !app_assoc in Hloop. cbn [app] in Hloop.
  rewrite !fmap_app, !fmap_cons in Hloop.
  etrans; [exact Hloop|]. done.
Qed.

Lemma names_elem (sel : list (nat * F)) (names : list pystr) :
  Forall2 (fun p name => all_categories !! p.1 = Some name) sel names ->
  Forall (fun name => name ∈ all_categories) names.
Proof.
  induction 1 as [|p name sel names Hp _ IH]; constructor; [|done].
  by eapply list_elem_of_lookup_2.
Qed.

Lemma names_NoDup (sel : list (nat * F)) (names : list pystr) :
  NoDup all_categories -> NoDup (sel.*1) ->
  Forall2 (fun p name => all_categories !! p.1 = Some name) sel names ->
  NoDup names.
Proof.
  intros Hcat Hsel Hnames.
  induction Hnames as [|p name sel names Hp Hrest IH]; [constructor|].
  cbn [fmap list_fmap] in Hsel. apply NoDup_cons in Hsel as [Hp1 Hsel].
  apply NoDup_cons. split; [|by apply IH].
  intros Hin. apply Hp1.
  clear IH Hsel Hp1. induction Hrest as [|q name' sel names Hq _ IH];
    [by apply elem_of_nil in Hin|].
  cbn [fmap list_fmap]. apply elem_of_cons in Hin as [->|Hin].
  - apply elem_of_cons. left.
    by eapply (NoDup_lookup all_categories).
  - apply elem_of_cons. right. by apply IH.
Qed.

(** X17.  The ranking [predict] prints for a line of at least one
    character.  Asked for more predictions than there are categories,
    it raises [RuntimeError].  Otherwise it returns exactly
    [n_predictions] entries, each naming a category of
    [all_categories], and no category is named twice (when the category
    names are pairwise different). *)
Theorem predict_ranking (rnn : Classification.RNN F) (l : pystr) (c : N)
    (n_predictions : nat) :
  Classification.RNN_wfb rnn n_letters (length all_categories) = true ->
  ((length all_categories < n_predictions)%nat ->
   Classification.predict all_categories rnn (l ++ [c]) n_predictions
   = Raise RuntimeError) /\
  ((n_predictions <= length all_categories)%nat ->
   exists ranking,
     Classification.predict all_categories rnn (l ++ [c]) n_predictions
     = Ok ranking /\
     length ranking = n_predictions /\
     Forall (fun e => e.2 ∈ all_categories) ranking /\
     (NoDup all_categories -> NoDup (ranking.*2))).
Proof.
  intros Hwf.
  set (h := Classification.hidden_after rnn (List.map encode l)
              (zeros (Classification.hidden_size rnn))).
  set (final := affine (Classification.i2o rnn) (encode c ++ h)).
  assert (Classification.predict all_categories rnn (l ++ [c]) n_predictions
          = Classification.top_categories all_categories final n_predictions)
    as ->.
  { unfold Classification.predict. rewrite lineToTensor_eq. cbn [rbind].
    pose proof (predict_loop rnn _ _ Hwf [] (List.map encode (l ++ [c]))
                  (None, Classification.initHidden rnn)) as Hloop.
    cbn [length app] in Hloop. unfold range. rewrite Hloop; clear Hloop.
    - rewrite map_app. simpl List.map. by rewrite run_after_snoc.
    - apply Forall_forall. intros x Hx.
      apply list_elem_of_In, in_map_iff in Hx as (d & <- & _).
      apply length_encode.
    - apply length_zeros. }
  assert (length (softmax final) = length all_categories) as Hlen.
  { unfold softmax. rewrite length_map.
    by eapply length_forward_output. }
  unfold Classification.top_categories. split.
  - intros Hmany. unfold topk. rewrite decide_False by lia. done.
  - intros Hfew.
    destruct (topk_spec (softmax final) n_predictions)
      as (sel & -> & Hsel & Hpos & Hnd); [lia|].
    cbn [rbind]. rewrite Hlen in Hpos.
    destruct (ranking_loop [] sel [] Hpos) as (names & Hloop & Hnames).
    cbn [length app] in Hloop. unfold range. rewrite <- Hsel, Hloop.
    assert (length names = length sel) as Hn
      by (symmetry; by eapply Forall2_length).
    exists (zip (sel.*2) names). split; [done|].
    split; [rewrite length_zip_with, length_fmap; lia|].
    assert ((zip (sel.*2) names).*2 = names) as Hsnd
      by (apply snd_zip; rewrite length_fmap; lia).
    split.
    + apply Forall_forall. intros e He.
      assert (e.2 ∈ names) as Hin
        by (rewrite <- Hsnd; apply list_elem_of_fmap; by exists e).
      pose proof (names_elem sel names Hnames) as Hall.
      rewrite Forall_forall in Hall. by apply Hall.
    + intros Hcat. rewrite Hsnd. by eapply names_NoDup.
Qed.

End RankingProperties.

(** * Cleaned names *)

Section CleanedNames.
Import LanguageModel.
Context {F : Type} `{Scalar F}.
Variable all_categories : list pystr.
Variable autograd : list (op F) -> RNN F -> RNN F.
Variable optimizer : SGD F.
Variable unicodedata_normalize : pystr -> pystr -> pystr.
Variable unicodedata_category : N -> pystr.

Lemma contains_elem (c : N) :
  contains all_letters [c] = true -> c ∈ all_letters.
Proof.
  unfold contains. intros Hc.
  destruct (decide (c ∈ all_letters)) as [|Hn]; [done|].
  by rewrite (find_all_letters_absent c Hn) in Hc.
Qed.

Lemma unicodeToAscii_vocabulary (s : pystr) :
  Forall (fun c => c ∈ all_letters)
    (unicodeToAscii unicodedata_normalize unicodedata_category s).
Proof.
  apply Forall_forall. intros c Hc. unfold unicodeToAscii in Hc.
  apply list_elem_of_In, filter_In in Hc as [_ Hc].
  apply andb_prop in Hc as [_ Hc]. by apply contains_elem.
Qed.

(** [train] returns on a word of at least one character whose
    characters after the first are in the vocabulary. *)
Lemma train_returns (w : world F) (category : pystr) (c0 : N) (rest : pystr) :
  RNN_wfb all_categories (params w) n_letters n_letters = true ->
  category ∈ all_categories ->
  Forall (fun c => c ∈ all_letters) rest ->
  exists category_tensor input_line_tensor target_line_tensor value tape,
    randomTrainingExample all_categories category (c0 :: rest)
    = Ok (category_tensor, input_line_tensor, target_line_tensor) /\
    train autograd optimizer w category_tensor input_line_tensor
      target_line_tensor
    = (Ok value,
       {| params := sgd_update optimizer (params w)
                      (autograd tape (params w));
          grads := Some (autograd tape (params w)) |}).
Proof.
  intros Hwf Hcat Hrest.
  destruct (categoryTensor_ok (F := F) all_categories category Hcat)
    as (li & Hli & Htensor).
  set (ct := one_hot (F := F) (n_categories all_categories) li) in *.
  set (xs := List.map (encode (F := F)) (c0 :: rest)).
  set (ts := List.map (fun d => find all_letters [d]) rest ++ [56]).
  assert (randomTrainingExample all_categories category (c0 :: rest)
          = Ok (ct, xs, ts)) as Hex.
  { unfold randomTrainingExample. rewrite Htensor. cbn [rbind].
    rewrite inputTensor_eq. cbn [rbind]. by rewrite targetTensor_eq. }
  assert (length xs = length ts) as Hlen.
  { unfold xs, ts. rewrite length_app, !length_map. simpl. lia. }
  destruct (train_loop all_categories (params w) Hwf ct (length_one_hot _ _)
              [] xs [] ts None (zeros (hidden_size (params w))) int_zero [])
    as (hidden' & Hloop); [done|done| | |apply length_zeros|].
  { apply Forall_forall. intros x Hx.
    apply list_elem_of_In, in_map_iff in Hx as (d & <- & _).
    apply length_encode. }
  { apply Forall_app. split; [|by apply Forall_singleton].
    apply Forall_forall. intros t Ht.
    apply list_elem_of_In, in_map_iff in Ht as (d & <- & Hd).
    apply find_in_vocabulary. rewrite Forall_forall in Hrest.
    by apply Hrest, list_elem_of_In. }
  cbn [length app] in Hloop.
  set (steps := teacher_forcing (params w) ct xs ts
                  (zeros (hidden_size (params w)))) in *.
  assert (length steps = length xs) as Hsteps
    by by apply length_teacher_forcing.
  destruct (last steps) as [s_last|] eqn:Hlast; cycle 1.
  { apply last_None in Hlast. by rewrite Hlast in Hsteps. }
  cbn [from_option] in Hloop.
  exists ct, xs, ts,
    (tf_output s_last,
     fdiv (fold_left fadd
             (List.map (fun s => cross_entropy (tf_output s) (tf_target s))
                steps) fzero)
          (of_nat (length xs))),
    (flat_map (tf_ops ct) steps).
  split; [exact Hex|].
  unfold train, range. cbn [zero_grad params].
  unfold initHidden. rewrite Hloop.
  destruct steps as [|s0 steps'] eqn:Es; [done|].
  cbn [List.map]. rewrite fold_loss_add_zero.
  cbn [backward step zero_grad params grads read_local rbind].
  reflexivity.
Qed.

(** X18.  A name cleaned by [unicodeToAscii] holds only vocabulary
    characters, whatever the library's normalisation does.  So on a
    cleaned name [train] cannot fail on a target: it returns, with the
    parameters updated once, unless cleaning left nothing of the name,
    in which case it raises [AttributeError] and changes no
    parameter. *)
Theorem cleaned_names_train (w : world F) (category s : pystr) :
  RNN_wfb all_categories (params w) n_letters n_letters = true ->
  category ∈ all_categories ->
  let line := unicodeToAscii unicodedata_normalize unicodedata_category s in
  Forall (fun c => c ∈ all_letters) line /\
  exists category_tensor input_line_tensor target_line_tensor,
    randomTrainingExample all_categories category line
    = Ok (category_tensor, input_line_tensor, target_line_tensor) /\
    (line = [] ->
     train autograd optimizer w category_tensor input_line_tensor
       target_line_tensor
     = (Raise AttributeError, {| params := params w; grads := None |})) /\
    (line <> [] ->
     exists value tape,
       train autograd optimizer w category_tensor input_line_tensor
         target_line_tensor
       = (Ok value,
          {| params := sgd_update optimizer (params w)
                         (autograd tape (params w));
             grads := Some (autograd tape (params w)) |})).
Proof.
  intros Hwf Hcat line.
  pose proof (unicodeToAscii_vocabulary s) as Hline. fold line in Hline.
  split; [exact Hline|]. clearbody line.
  destruct line as [|c0 rest].
  - destruct (categoryTensor_ok (F := F) all_categories category Hcat)
      as (li & Hli & Htensor).
    eexists _, [], [56]. split.
    { unfold randomTrainingExample. by rewrite Htensor. }
    split; [done|]. by intros [].
  - apply Forall_cons in Hline as [_ Hrest].
    destruct (train_returns w category c0 rest Hwf Hcat Hrest)
      as (ct & xs & ts & value & tape & Hex & Htrain).
    exists ct, xs, ts. split; [exact Hex|]. split; [done|].
    intros _. by exists value, tape.
Qed.

End CleanedNames.

(** * The evaluation loop *)

Section EvaluationProperties.
Import Classification.
Context {F : Type} `{Scalar F}.
Variable all_categories : list pystr.

Lemma for_each_app {A S} (xs ys : list A) (body : A -> S -> result S) (s : S) :
  for_each (xs ++ ys) body s
  = let* s' := for_each xs body s in for_each ys body s'.
Proof.
  revert s. induction xs as [|x xs IH]; intros s; [done|].
  cbn [app for_each]. destruct (body x s); [apply IH|done].
Qed.

Lemma for_each_ext {A S} (xs : list A) (body body' : A -> S -> result S)
    (s : S) :
  (forall x s, x ∈ xs -> body x s = body' x s) ->
  for_each xs body s = for_each xs body' s.
Proof.
  revert s. induction xs as [|x xs IH]; intros s Hb; [done|].
  cbn [for_each]. rewrite Hb by (apply elem_of_cons; by left).
  destruct (body' x s); [|done]. cbn [rbind]. apply IH.
  intros y s0 Hy. apply Hb. apply elem_of_cons. by right.
Qed.

Lemma getitem_app_l {A} (l l' : list A) (i : nat) :
  (i < length l)%nat -> getitem (l ++ l') (Z.of_nat i) = getitem l (Z.of_nat i).
Proof.
  intros Hi. unfold getitem.
  rewrite !norm_index_nonneg by (rewrite ?length_app; lia).
  cbn [rbind]. by rewrite lookup_app_l.
Qed.

(** The body of the evaluation loop, for the test lines [X_test] and
    labels [y_test]. *)
Local Abbreviation evaluate_body rnn X_test y_test :=
  (fun (i : nat) '(correct, output) =>
     let hidden := initHidden rnn in
     let* line := getitem X_test (Z.of_nat i) in
     let* line_tensor := lineToTensor line in
     let* category := getitem y_test (Z.of_nat i) in
     let* category_tensor := categoryToTensor all_categories category in
     let* (output, hidden) :=
       for_each (range (length line_tensor))
         (fun i '(_, hidden) =>
            let* x := getitem line_tensor (Z.of_nat i) in
            let* (output, hidden) := forward rnn x hidden in
            Ok (Some output, hidden))
         (output, hidden) in
     let* scores := read_global output in
     let* prediction := argmax scores in
     let* category_index := index all_categories category in
     Ok (if decide (category_index = prediction) then S correct else correct,
         output)).

(** One pass adds at most one to [correct]. *)
Lemma evaluate_body_count (rnn : RNN F) (X_test y_test : list pystr) (i : nat)
    (correct correct' : nat) (output output' : option (list F)) :
  evaluate_body rnn X_test y_test i (correct, output) = Ok (correct', output') ->
  (correct <= correct' <= S correct)%nat.
Proof.
  cbv beta iota zeta.
  destruct (getitem X_test (Z.of_nat i)) as [line|]; [cbn [rbind]|done].
  destruct (lineToTensor line) as [line_tensor|]; [cbn [rbind]|done].
  destruct (getitem y_test (Z.of_nat i)) as [category|]; [cbn [rbind]|done].
  destruct (categoryToTensor all_categories category) as [ct|];
    [cbn [rbind]|done].
  destruct (for_each _ _ _) as [[o h]|]; [cbn [rbind]|done].
  destruct (read_global o) as [scores|]; [cbn [rbind]|done].
  destruct (argmax scores) as [prediction|]; [cbn [rbind]|done].
  destruct (index all_categories category) as [idx|]; [cbn [rbind]|done].
  intros [= <- _]. case_decide; lia.
Qed.

Lemma for_each_count {A B} (xs : list A)
    (body : A -> nat * B -> result (nat * B)) (c c' : nat) (o o' : B) :
  (forall x c o c' o', body x (c, o) = Ok (c', o') -> (c' <= S c)%nat) ->
  for_each xs body (c, o) = Ok (c', o') -> (c' <= c + length xs)%nat.
Proof.
  intros Hbody. revert c o. induction xs as [|x xs IH]; intros c o.
  - intros [= <- _]. simpl. lia.
  - cbn [for_each]. destruct (body x (c, o)) as [[c1 o1]|] eqn:E;
      cbn [rbind]; [|done].
    apply Hbody in E. intros Hrest. apply IH in Hrest. simpl. lia.
Qed.

(** X19.  The count of correct predictions never exceeds the number of
    test lines: when the evaluation loop ends, [correct <= len(X_test)],
    so that the accuracy the cell prints is at most 1. *)
Theorem evaluate_loop_bound (rnn : RNN F) (output0 output : option (list F))
    (X_test y_test : list pystr) (correct : nat) :
  evaluate_loop all_categories rnn output0 X_test y_test = Ok (correct, output) ->
  (correct <= length X_test)%nat.
Proof.
  unfold evaluate_loop, range. intros Hrun.
  apply for_each_count in Hrun; [by rewrite length_seq in Hrun|].
  intros i c o c' o' Hbody.
  apply (evaluate_body_count rnn X_test y_test i c c' o o') in Hbody. lia.
Qed.

Lemma rbind_Ok {A} (r : result A) : (let* a := r in Ok a) = r.
Proof. by destruct r. Qed.

(** The passes over the first lines do not look at later ones. *)
Lemma evaluate_prefix (rnn : RNN F) (X X' y y' : list pystr) (n : nat)
    (s : nat * option (list F)) :
  (n <= length X)%nat -> length X = length y ->
  for_each (seq 0 n) (evaluate_body rnn (X ++ X') (y ++ y')) s
  = for_each (seq 0 n) (evaluate_body rnn X y) s.
Proof.
  intros Hn Hlen. apply for_each_ext. intros i [c o] Hi.
  apply list_elem_of_In, in_seq in Hi.
  rewrite !getitem_app_l by lia. done.
Qed.

(** The pass over the last line. *)
Lemma evaluate_last (rnn : RNN F) (X y : list pystr) (line label : pystr)
    (correct : nat) (output : option (list F)) :
  RNN_wfb rnn n_letters (length all_categories) = true ->
  length X = length y ->
  label ∈ all_categories ->
  evaluate_body rnn (X ++ [line]) (y ++ [label]) (length X) (correct, output)
  = let after :=
      (run_after rnn (List.map encode line)
         (output, zeros (hidden_size rnn))).1 in
    let* scores := read_global after in
    let* prediction := argmax scores in
    let* category_index := index all_categories label in
    Ok (if decide (category_index = prediction) then S correct else correct,
        after).
Proof.
  intros Hwf Hlen Hlabel. cbv beta iota zeta.
  rewrite getitem_middle. cbn [rbind].
  rewrite lineToTensor_eq. cbn [rbind].
  rewrite Hlen, getitem_middle. cbn [rbind].
  destruct (index_from_elem all_categories label 0%nat Hlabel)
    as (idx & Hidx & _).
  unfold categoryToTensor, index. rewrite Hidx. cbn [rbind].
  pose proof (predict_loop rnn _ _ Hwf [] (List.map encode line)
                (output, initHidden rnn)) as Hloop.
  cbn [length app] in Hloop. unfold range. rewrite Hloop; clear Hloop.
  - cbn [rbind]. by destruct (run_after _ _ _).
  - apply Forall_forall. intros x Hx.
    apply list_elem_of_In, in_map_iff in Hx as (d & <- & _).
    apply length_encode.
  - apply length_zeros.
Qed.

(** X20.  How the evaluation loop treats its last test line.  A line of
    at least one character, [l ++ [c]], is scored by the vector
    [predict] ranks: the [i2o] projection of its last row joined with
    the hidden state reached over [l] from zeros; the line counts as
    correct when the largest score is at the index of its label.  An
    empty line runs no step of the cell and is scored with the scores
    the line before it left in [output] (or those [output] held when
    the cell started). *)
Theorem evaluate_loop_last_line (rnn : RNN F) (output0 : option (list F))
    (X_test y_test : list pystr) (l : pystr) (c : N) (label : pystr) :
  RNN_wfb rnn n_letters (length all_categories) = true ->
  length X_test = length y_test ->
  label ∈ all_categories ->
  evaluate_loop all_categories rnn output0 (X_test ++ [l ++ [c]])
    (y_test ++ [label])
  = (let* (correct, _) :=
       evaluate_loop all_categories rnn output0 X_test y_test in
     let scores :=
       affine (i2o rnn)
         (encode c ++ hidden_after rnn (List.map encode l)
                        (zeros (hidden_size rnn))) in
     let* prediction := argmax scores in
     let* category_index := index all_categories label in
     Ok (if decide (category_index = prediction) then S correct else correct,
         Some scores)) /\
  evaluate_loop all_categories rnn output0 (X_test ++ [[]]) (y_test ++ [label])
  = (let* (correct, output) :=
       evaluate_loop all_categories rnn output0 X_test y_test in
     let* scores := read_global output in
     let* prediction := argmax scores in
     let* category_index := index all_categories label in
     Ok (if decide (category_index = prediction) then S correct else correct,
         output)).
Proof.
  intros Hwf Hlen Hlabel.
  assert (forall line,
            evaluate_loop all_categories rnn output0 (X_test ++ [line])
              (y_test ++ [label])
            = let* s := evaluate_loop all_categories rnn output0 X_test y_test in
              evaluate_body rnn (X_test ++ [line]) (y_test ++ [label])
                (length X_test) s) as Hsplit.
  { intros line. unfold evaluate_loop, range.
    rewrite length_app. cbn [length]. rewrite seq_app. cbn [seq].
    rewrite for_each_app, Nat.add_0_l.
    rewrite (evaluate_prefix rnn X_test [line] y_test [label]) by done.
    destruct (for_each _ _ _) as [s|]; [|done]. cbn [rbind for_each].
    apply rbind_Ok. }
  split; rewrite Hsplit;
    (destruct (evaluate_loop all_categories rnn output0 X_test y_test)
       as [[correct output]|]; [cbn [rbind]|done]);
    rewrite evaluate_last by done.
  - rewrite map_app. cbn [List.map]. rewrite run_after_snoc. done.
  - done.
Qed.

End EvaluationProperties.

(** * The shapes of the parameters *)

Section ShapeProperties.
Context {F : Type} `{Scalar F}.
Variable all_categories : list pystr.

(** X21.  The constructors establish the shapes the cells rely on: an
    [RNN(input_size, output_size)] of the classification notebook and an
    [RNN(input_size, hidden_size, output_size)] of the generation
    notebook are well formed, whatever the initial entries, and so
    return normally on an input row of length [input_size] (and a
    category row of length [n_categories]) with their initial hidden
    state. *)
Theorem constructors_establish_shapes (input_size hidden_size output_size : nat)
    (w1 w2 w3 : nat -> nat -> F) (b1 b2 b3 : nat -> F)
    (category x : list F) :
  length category = length all_categories ->
  length x = input_size ->
  let classifier := Classification.RNN_init input_size output_size w1 b1 w2 b2 in
  let generator :=
    LanguageModel.RNN_init all_categories input_size hidden_size output_size
      w1 b1 w2 b2 w3 b3 in
  Classification.RNN_wfb classifier input_size output_size = true /\
  LanguageModel.RNN_wfb all_categories generator input_size output_size = true /\
  (exists output hidden,
     Classification.forward classifier x (Classification.initHidden classifier)
     = Ok (output, hidden) /\
     length output = output_size /\ length hidden = 128%nat) /\
  (exists output hidden,
     LanguageModel.forward generator category x
       (LanguageModel.initHidden generator)
     = Ok (output, hidden) /\
     length output = output_size /\ length hidden = hidden_size).
Proof.
  intros Hc Hx classifier generator.
  assert (Classification.RNN_wfb classifier input_size output_size = true)
    as Hwf1.
  { unfold Classification.RNN_wfb, classifier, Classification.RNN_init.
    cbn [Classification.hidden_size Classification.i2h Classification.i2o].
    rewrite !Linear_init_wfb. cbn [Linear_init in_features out_features].
    by rewrite !Nat.eqb_refl. }
  assert (LanguageModel.RNN_wfb all_categories generator input_size output_size
          = true) as Hwf2.
  { unfold LanguageModel.RNN_wfb, generator, LanguageModel.RNN_init.
    cbn [LanguageModel.hidden_size LanguageModel.i2h LanguageModel.i2o
         LanguageModel.o2o].
    rewrite !Linear_init_wfb. cbn [Linear_init in_features out_features].
    by rewrite !Nat.eqb_refl. }
  split; [exact Hwf1|]. split; [exact Hwf2|]. split.
  - eexists _, _. split.
    + rewrite (forward_ok classifier input_size output_size Hwf1)
        by (done || apply length_zeros).
      reflexivity.
    + split; [by eapply length_forward_output|].
      by rewrite (length_forward_hidden classifier input_size output_size).
  - exists (LanguageModel.cell generator category x
              (LanguageModel.initHidden generator)).1,
      (LanguageModel.cell generator category x
         (LanguageModel.initHidden generator)).2.
    split.
    + rewrite (forward_cell all_categories generator input_size output_size)
        by (done || apply length_zeros).
      reflexivity.
    + split.
      * by apply (length_cell_output all_categories generator input_size).
      * by rewrite (length_cell_hidden all_categories generator input_size
                      output_size).
Qed.

Lemma Linear_map2_wfb (f : F -> F -> F) (a b : Linear F) :
  Linear_wfb a = true -> Linear_wfb b = true ->
  in_features b = in_features a -> out_features b = out_features a ->
  Linear_wfb (LanguageModel.Linear_map2 f a b) = true.
Proof.
  unfold Linear_wfb, LanguageModel.Linear_map2.
  cbn [weight bias in_features out_features].
  intros Ha Hb Ein Eout.
  apply andb_prop in Ha as [Ha Ha3]. apply andb_prop in Ha as [Ha1 Ha2].
  apply andb_prop in Hb as [Hb Hb3]. apply andb_prop in Hb as [Hb1 Hb2].
  apply Nat.eqb_eq in Ha1, Ha3, Hb1, Hb3.
  rewrite !length_zip_with, Ha1, Ha3, Hb1, Hb3, Eout, Nat.min_id, Nat.eqb_refl.
  rewrite andb_true_r. cbn [andb].
  rewrite forallb_forall in Ha2, Hb2. apply forallb_forall. intros r Hr.
  apply list_elem_of_In, elem_of_lookup_zip_with in Hr
    as (i & ra & rb & -> & Hra & Hrb).
  specialize (Ha2 ra). specialize (Hb2 rb).
  rewrite Nat.eqb_eq in Ha2, Hb2 |- *.
  rewrite length_zip_with, Ha2, Hb2, Ein, ?Nat.min_id;
    [done| |]; apply list_elem_of_In; by eapply list_elem_of_lookup_2.
Qed.

Lemma RNN_map2_wfb (f : F -> F -> F) (a b : LanguageModel.RNN F)
    (input_size output_size : nat) :
  LanguageModel.RNN_wfb all_categories a input_size output_size = true ->
  LanguageModel.RNN_wfb all_categories b input_size output_size = true ->
  LanguageModel.hidden_size b = LanguageModel.hidden_size a ->
  LanguageModel.RNN_wfb all_categories (LanguageModel.RNN_map2 f a b)
    input_size output_size = true.
Proof.
  intros Ha Hb Eh.
  destruct (gen_wf_parts all_categories a _ _ Ha)
    as (A1 & A2 & A3 & A4 & A5 & A6 & A7 & A8 & A9).
  destruct (gen_wf_parts all_categories b _ _ Hb)
    as (B1 & B2 & B3 & B4 & B5 & B6 & B7 & B8 & B9).
  unfold LanguageModel.RNN_wfb, LanguageModel.RNN_map2.
  cbn [LanguageModel.hidden_size LanguageModel.i2h LanguageModel.i2o
       LanguageModel.o2o].
  rewrite !Linear_map2_wfb by congruence.
  unfold LanguageModel.Linear_map2. cbn [in_features out_features andb].
  rewrite A4, A5, A6, A7, A8, A9. by rewrite !Nat.eqb_refl.
Qed.

(** X22.  Training keeps the shapes of the parameters.  If the
    gradients autograd computes have the shapes of the parameters they
    belong to, then after a call of [train], returned or raised, the
    parameters are well formed as before, with the same hidden size. *)
Theorem train_keeps_shapes
    (autograd : list (LanguageModel.op F) -> LanguageModel.RNN F
                -> LanguageModel.RNN F)
    (optimizer : LanguageModel.SGD F) (w : LanguageModel.world F)
    (input_size output_size : nat) (category_tensor : list F)
    (input_line_tensor : list (list F)) (target_line_tensor : list Z) :
  (forall tape p,
     LanguageModel.RNN_wfb all_categories p input_size output_size = true ->
     LanguageModel.RNN_wfb all_categories (autograd tape p) input_size
       output_size = true /\
     LanguageModel.hidden_size (autograd tape p) = LanguageModel.hidden_size p) ->
  LanguageModel.RNN_wfb all_categories (LanguageModel.params w) input_size
    output_size = true ->
  let w' := (LanguageModel.train autograd optimizer w category_tensor
               input_line_tensor target_line_tensor).2 in
  LanguageModel.RNN_wfb all_categories (LanguageModel.params w') input_size
    output_size = true /\
  LanguageModel.hidden_size (LanguageModel.params w')
  = LanguageModel.hidden_size (LanguageModel.params w).
Proof.
  intros Hgrad Hwf w'. subst w'.
  pose proof (train_world autograd optimizer w category_tensor
                input_line_tensor target_line_tensor) as Hcase.
  destruct (LanguageModel.train autograd optimizer w category_tensor
              input_line_tensor target_line_tensor) as [[value|e] w'];
    cbn [snd].
  - destruct Hcase as (tape & -> & _).
    destruct (Hgrad tape _ Hwf) as [Hg Hh].
    split; [by apply RNN_map2_wfb|done].
  - destruct Hcase as [-> _]. done.
Qed.

End ShapeProperties.

(** * The further properties at concrete inputs *)

Section FurtherInstances.
Import Examples.

Lemma line_round_trip_witness :
  Forall (fun c => c ∈ all_letters) (lit "Jones") /\
  exists rows : list (list Z),
    Classification.lineToTensor (lit "Jones") = Ok rows /\
    LanguageModel.inputTensor (lit "Jones") = Ok rows /\
    Forall2
      (fun c t => exists k, argmax t = Ok k /\
                    str_getitem all_letters (Z.of_nat k) = Ok [c])
      (lit "Jones") rows.
Proof.
  assert (Forall (fun c => c ∈ all_letters) (lit "Jones")) as Hline.
  { by_evaluation. }
  split; [exact Hline|].
  exact (line_round_trip (F := Z) (lit "Jones") eq_refl eq_refl eq_refl Hline).
Defined.

Lemma category_round_trip_witness :
  (lit "Korean" ∈ categories) /\
  exists (t : list Z) (li : nat),
    LanguageModel.categoryTensor categories (lit "Korean") = Ok t /\
    length t = length categories /\
    argmax t = Ok li /\
    getitem categories (Z.of_nat li) = Ok (lit "Korean") /\
    Classification.categoryToTensor categories (lit "Korean") = Ok [li] /\
    (forall j, (j < li)%nat -> categories !! j <> Some (lit "Korean")).
Proof.
  assert (lit "Korean" ∈ categories) as Hin.
  { by_evaluation. }
  split; [exact Hin|].
  exact (category_round_trip (F := Z) categories (lit "Korean")
           eq_refl eq_refl eq_refl Hin).
Defined.

Lemma unknown_category_raises_witness :
  (lit "Dutch" ∉ categories) /\
  LanguageModel.sample_word categories generator 20 (lit "B") (lit "Dutch")
  = Raise ValueError.
Proof.
  assert (lit "Dutch" ∉ categories) as Hout.
  { by_evaluation. }
  split; [exact Hout|].
  destruct (unknown_category_raises (F := Z) categories (lit "Dutch") Hout)
    as (_ & _ & _ & Hs & _).
  apply Hs.
Defined.

Lemma sample_word_edges_witness :
  (lit "German" ∈ categories) /\
  LanguageModel.sample_word categories generator 0 (lit "Mer") (lit "German")
  = Ok (lit "Mer") /\
  LanguageModel.sample_word categories generator 20 [] (lit "German")
  = Raise IndexError.
Proof.
  assert (lit "German" ∈ categories) as Hin.
  { by_evaluation. }
  split; [exact Hin|].
  destruct (sample_word_edges categories generator (lit "German") Hin)
    as [H0 Hempty].
  split; [apply H0|apply Hempty].
Defined.

Lemma generate_stale_output_witness :
  LanguageModel.RNN_wfb categories generator n_letters n_letters = true /\
  (lit "German" ∈ categories) /\
  length (one_hot (F := Z) 57 54) = n_letters /\
  LanguageModel.generate categories generator 20 None [] (lit "German")
  = Raise NameError /\
  exists category_tensor symbols,
    LanguageModel.categoryTensor categories (lit "German") = Ok category_tensor /\
    LanguageModel.greedy_decoding generator category_tensor 19 (one_hot 57 54)
      (zeros 128) symbols /\
    LanguageModel.generate categories generator 19 (Some (one_hot 57 54)) []
      (lit "German") = Ok symbols.
Proof.
  assert (LanguageModel.RNN_wfb categories generator n_letters n_letters
          = true) as Hwf by (vm_compute; reflexivity).
  assert (lit "German" ∈ categories) as Hin.
  { by_evaluation. }
  split; [exact Hwf|]. split; [exact Hin|]. split; [reflexivity|].
  exact (proj2 (generate_stale_output categories generator 19 (lit "German")
                  (one_hot 57 54) Hwf Hin eq_refl)).
Defined.

Lemma sample_word_is_generate_witness :
  LanguageModel.RNN_wfb categories generator n_letters n_letters = true /\
  (lit "German" ∈ categories) /\
  LanguageModel.sample_word categories generator 20 (lit "B") (lit "German")
  = LanguageModel.generate categories generator 20 None (lit "B")
      (lit "German").
Proof.
  assert (LanguageModel.RNN_wfb categories generator n_letters n_letters
          = true) as Hwf by (vm_compute; reflexivity).
  assert (lit "German" ∈ categories) as Hin.
  { by_evaluation. }
  split; [exact Hwf|]. split; [exact Hin|].
  exact (sample_word_is_generate categories generator 20 None
           (N_of_ascii "B"%char) (lit "German") Hwf Hin).
Defined.

Lemma longer_max_length_extends_witness :
  LanguageModel.RNN_wfb categories generator n_letters n_letters = true /\
  (lit "German" ∈ categories) /\
  exists name more,
    LanguageModel.sample_word categories generator 5 (lit "B") (lit "German")
    = Ok name /\
    LanguageModel.sample_word categories generator (5 + 3) (lit "B")
      (lit "German") = Ok (name ++ more) /\
    ((length name < length (lit "B") + 5)%nat -> more = []).
Proof.
  assert (LanguageModel.RNN_wfb categories generator n_letters n_letters
          = true) as Hwf by (vm_compute; reflexivity).
  assert (lit "German" ∈ categories) as Hin.
  { by_evaluation. }
  split; [exact Hwf|]. split; [exact Hin|].
  exact (proj1 (longer_max_length_extends categories generator 5 3 None
                  (N_of_ascii "B"%char) [] (lit "German") Hwf Hin)).
Defined.

Lemma generated_names_witness :
  LanguageModel.sample_word categories generator 20 (lit "W") (lit "German")
  = Ok (lit "WXYZ .,;") /\
  exists symbols,
    lit "WXYZ .,;" = lit "W" ++ symbols /\
    (length symbols <= 20)%nat /\
    Forall (fun c => c ∈ all_letters /\ c <> apostrophe) symbols.
Proof.
  assert (LanguageModel.sample_word categories generator 20 (lit "W")
            (lit "German") = Ok (lit "WXYZ .,;")) as Hrun
    by (vm_compute; reflexivity).
  split; [exact Hrun|].
  exact (generated_names categories generator 20 None (lit "W") (lit "German")
           (lit "WXYZ .,;") (or_introl Hrun)).
Defined.

Lemma train_rejects_unknown_character_witness :
  LanguageModel.RNN_wfb categories (LanguageModel.params shared) n_letters
    n_letters = true /\
  (lit "German" ∈ categories) /\
  (hyphen ∉ all_letters) /\
  exists category_tensor input_line_tensor target_line_tensor,
    LanguageModel.randomTrainingExample categories (lit "German")
      (N_of_ascii "A"%char :: lit "bdul" ++ hyphen :: lit "Rahman")
    = Ok (category_tensor, input_line_tensor, target_line_tensor) /\
    target_line_tensor !! length (lit "bdul") = Some (-1) /\
    LanguageModel.train gradient optimizer shared category_tensor
      input_line_tensor target_line_tensor
    = (Raise IndexError,
       {| LanguageModel.params := LanguageModel.params shared;
          LanguageModel.grads := None |}).
Proof.
  assert (LanguageModel.RNN_wfb categories (LanguageModel.params shared)
            n_letters n_letters = true) as Hwf by (vm_compute; reflexivity).
  assert (lit "German" ∈ categories) as Hin.
  { by_evaluation. }
  assert (hyphen ∉ all_letters) as Hout.
  { by_evaluation. }
  split; [exact Hwf|]. split; [exact Hin|]. split; [exact Hout|].
  exact (train_rejects_unknown_character categories gradient optimizer shared
           (lit "German") (N_of_ascii "A"%char) hyphen (lit "bdul")
           (lit "Rahman") Hwf Hin Hout).
Defined.

Lemma targets_follow_inputs_witness :
  (lit "Korean" ∈ categories) /\
  Forall (fun c => c ∈ all_letters) (lit "im") /\
  exists category_tensor (input_line_tensor : list (list Z)) target_line_tensor,
    LanguageModel.randomTrainingExample categories (lit "Korean") (lit "Kim")
    = Ok (category_tensor, input_line_tensor, target_line_tensor) /\
    length input_line_tensor = 3%nat /\
    length target_line_tensor = 3%nat.
Proof.
  assert (lit "Korean" ∈ categories) as Hin.
  { by_evaluation. }
  assert (Forall (fun c => c ∈ all_letters) (lit "im")) as Hrest.
  { by_evaluation. }
  split; [exact Hin|]. split; [exact Hrest|].
  destruct (targets_follow_inputs (F := Z) categories (lit "Korean")
              (N_of_ascii "K"%char) (lit "im") Hin Hrest)
    as (ct & xs & ts & Hex & Hx & Ht & _).
  exists ct, xs, ts. split; [exact Hex|]. split; [exact Hx|exact Ht].
Defined.

Lemma classifier_forward_shapes_witness :
  Classification.RNN_wfb classifier n_letters 3 = true /\
  Classification.forward classifier (one_hot 57 0) (zeros 128)
  = Ok (affine (Classification.i2o classifier) (one_hot 57 0 ++ zeros 128),
        affine (Classification.i2h classifier) (one_hot 57 0 ++ zeros 128)) /\
  length (affine (Classification.i2o classifier) (one_hot 57 0 ++ zeros 128))
  = 3%nat.
Proof.
  assert (Classification.RNN_wfb classifier n_letters 3 = true) as Hwf
    by (vm_compute; reflexivity).
  split; [exact Hwf|].
  destruct (classifier_forward_shapes classifier n_letters 3 (one_hot 57 0)
              (zeros 128) Hwf) as (Hrun & Hout & _).
  split; [exact Hrun|exact Hout].
Defined.

Lemma generator_forward_shapes_witness :
  LanguageModel.RNN_wfb categories generator n_letters n_letters = true /\
  LanguageModel.forward generator (one_hot 3 1) (one_hot 57 27) (zeros 128)
  = Ok (LanguageModel.cell generator (one_hot 3 1) (one_hot 57 27) (zeros 128)) /\
  LanguageModel.forward generator (one_hot 57 27) (one_hot 3 1) (zeros 128)
  = Ok (LanguageModel.cell generator (one_hot 57 27) (one_hot 3 1) (zeros 128)) /\
  LanguageModel.forward generator [] (one_hot 57 27) (zeros 128)
  = Raise RuntimeError.
Proof.
  assert (LanguageModel.RNN_wfb categories generator n_letters n_letters
          = true) as Hwf by (vm_compute; reflexivity).
  split; [exact Hwf|].
  split; [|split].
  - exact (proj1 (generator_forward_shapes categories generator n_letters
                    n_letters (one_hot 3 1) (one_hot 57 27) (zeros 128) Hwf)).
  - exact (proj1 (generator_forward_shapes categories generator n_letters
                    n_letters (one_hot 57 27) (one_hot 3 1) (zeros 128) Hwf)).
  - exact (proj1 (generator_forward_shapes categories generator n_letters
                    n_letters [] (one_hot 57 27) (zeros 128) Hwf)).
Defined.

Lemma predict_ranking_witness :
  Classification.RNN_wfb classifier n_letters (length categories) = true /\
  Classification.predict categories classifier (lit "Kim") 4
  = Raise RuntimeError /\
  exists ranking,
    Classification.predict categories classifier (lit "Kim") 2 = Ok ranking /\
    length ranking = 2%nat /\
    Forall (fun e => e.2 ∈ categories) ranking.
Proof.
  assert (Classification.RNN_wfb classifier n_letters (length categories)
          = true) as Hwf by (vm_compute; reflexivity).
  split; [exact Hwf|]. split.
  - apply (proj1 (predict_ranking categories classifier (lit "Ki")
                    (N_of_ascii "m"%char) 4 Hwf)).
    vm_compute. lia.
  - destruct (proj2 (predict_ranking categories classifier (lit "Ki")
                       (N_of_ascii "m"%char) 2 Hwf))
      as (ranking & Hrun & Hlen & Hin & _).
    { vm_compute. lia. }
    exists ranking. split; [exact Hrun|]. split; [exact Hlen|exact Hin].
Defined.

Lemma cleaned_names_train_witness :
  LanguageModel.RNN_wfb categories (LanguageModel.params shared) n_letters
    n_letters = true /\
  (lit "German" ∈ categories) /\
  unicodeToAscii (fun _ s => s) (fun _ => lit "Ll")
    (lit "Abdul" ++ hyphen :: lit "Rahman") = lit "AbdulRahman" /\
  exists category_tensor input_line_tensor target_line_tensor value tape,
    LanguageModel.randomTrainingExample categories (lit "German")
      (lit "AbdulRahman")
    = Ok (category_tensor, input_line_tensor, target_line_tensor) /\
    LanguageModel.train gradient optimizer shared category_tensor
      input_line_tensor target_line_tensor
    = (Ok value,
       {| LanguageModel.params :=
            LanguageModel.sgd_update optimizer (LanguageModel.params shared)
              (gradient tape (LanguageModel.params shared));
          LanguageModel.grads :=
            Some (gradient tape (LanguageModel.params shared)) |}).
Proof.
  assert (LanguageModel.RNN_wfb categories (LanguageModel.params shared)
            n_letters n_letters = true) as Hwf by (vm_compute; reflexivity).
  assert (lit "German" ∈ categories) as Hin.
  { by_evaluation. }
  assert (unicodeToAscii (fun _ s => s) (fun _ => lit "Ll")
            (lit "Abdul" ++ hyphen :: lit "Rahman") = lit "AbdulRahman")
    as Hclean by (vm_compute; reflexivity).
  split; [exact Hwf|]. split; [exact Hin|]. split; [exact Hclean|].
  pose proof (cleaned_names_train categories gradient optimizer
                (fun _ s => s) (fun _ => lit "Ll") shared (lit "German")
                (lit "Abdul" ++ hyphen :: lit "Rahman") Hwf Hin) as Hrun.
  cbv zeta in Hrun. rewrite Hclean in Hrun.
  destruct Hrun as (_ & ct & xs & ts & Hex & _ & Htrain).
  destruct Htrain as (value & tape & Htrain); [discriminate|].
  exists ct, xs, ts, value, tape. split; [exact Hex|exact Htrain].
Defined.

Lemma evaluate_loop_bound_witness :
  Classification.evaluate_loop categories classifier None
    [lit "Kim"; lit "Jones"] [lit "Korean"; lit "English"]
  = Ok (1%nat, Some [0; 0; 0]) /\
  (1 <= length [lit "Kim"; lit "Jones"])%nat.
Proof.
  assert (Classification.evaluate_loop categories classifier None
            [lit "Kim"; lit "Jones"] [lit "Korean"; lit "English"]
          = Ok (1%nat, Some [0; 0; 0])) as Hrun by (vm_compute; reflexivity).
  split; [exact Hrun|].
  exact (evaluate_loop_bound categories classifier None (Some [0; 0; 0])
           [lit "Kim"; lit "Jones"] [lit "Korean"; lit "English"] 1 Hrun).
Defined.

Lemma evaluate_loop_last_line_witness :
  Classification.RNN_wfb classifier n_letters (length categories) = true /\
  (lit "English" ∈ categories) /\
  Classification.evaluate_loop categories classifier None
    [lit "Kim"; lit "Jones"] [lit "Korean"; lit "English"]
  = Ok (1%nat, Some [0; 0; 0]) /\
  Classification.evaluate_loop categories classifier None
    [lit "Kim"; []] [lit "Korean"; lit "English"]
  = Ok (1%nat, Some [0; 0; 0]).
Proof.
  assert (Classification.RNN_wfb classifier n_letters (length categories)
          = true) as Hwf by (vm_compute; reflexivity).
  assert (lit "English" ∈ categories) as Hin.
  { by_evaluation. }
  split; [exact Hwf|]. split; [exact Hin|].
  destruct (evaluate_loop_last_line categories classifier None [lit "Kim"]
              [lit "Korean"] (lit "Jone") (N_of_ascii "s"%char)
              (lit "English") Hwf eq_refl Hin) as [Hlast Hempty].
  split.
  - etrans; [exact Hlast|]. vm_compute. reflexivity.
  - etrans; [exact Hempty|]. vm_compute. reflexivity.
Defined.

Lemma constructors_establish_shapes_witness :
  let classifier :=
    Classification.RNN_init (F := Z) 57 57 (fun _ _ => 1) (fun _ => 0)
      (fun _ _ => 2) (fun _ => 1) in
  let generator :=
    LanguageModel.RNN_init (F := Z) categories 57 16 57 (fun _ _ => 1)
      (fun _ => 0) (fun _ _ => 2) (fun _ => 1) (fun _ _ => 3) (fun _ => 2) in
  Classification.RNN_wfb classifier 57 57 = true /\
  LanguageModel.RNN_wfb categories generator 57 57 = true /\
  (exists output hidden,
     Classification.forward classifier (one_hot 57 10)
       (Classification.initHidden classifier)
     = Ok (output, hidden) /\
     length output = 57%nat /\ length hidden = 128%nat) /\
  (exists output hidden,
     LanguageModel.forward generator (one_hot 3 2) (one_hot 57 10)
       (LanguageModel.initHidden generator)
     = Ok (output, hidden) /\
     length output = 57%nat /\ length hidden = 16%nat).
Proof.
  exact (constructors_establish_shapes (F := Z) categories 57 16 57
           (fun _ _ => 1) (fun _ _ => 2) (fun _ _ => 3)
           (fun _ => 0) (fun _ => 1) (fun _ => 2)
           (one_hot 3 2) (one_hot 57 10) eq_refl eq_refl).
Defined.

Lemma train_keeps_shapes_witness :
  LanguageModel.RNN_wfb categories (LanguageModel.params shared) n_letters
    n_letters = true /\
  forall category_tensor input_line_tensor target_line_tensor,
    let w' := (LanguageModel.train gradient optimizer shared category_tensor
                 input_line_tensor target_line_tensor).2 in
    LanguageModel.RNN_wfb categories (LanguageModel.params w') n_letters
      n_letters = true /\
    LanguageModel.hidden_size (LanguageModel.params w')
    = LanguageModel.hidden_size (LanguageModel.params shared).
Proof.
  assert (LanguageModel.RNN_wfb categories (LanguageModel.params shared)
            n_letters n_letters = true) as Hwf by (vm_compute; reflexivity).
  split; [exact Hwf|].
  intros category_tensor input_line_tensor target_line_tensor.
  apply (train_keeps_shapes categories gradient optimizer shared n_letters
           n_letters category_tensor input_line_tensor target_line_tensor);
    [|exact Hwf].
  intros tape p Hp. split; [exact Hp|reflexivity].
Defined.

End FurtherInstances.
